(** * CondoSwift: the authentication router ([src/routes/auth.js]) behind the
    application pipeline of [src/server.js].

    The two in-memory arrays [users] and [sessions], the hit tables of the
    two rate limiters and the handlers parked at an [await] form the state.
    A route handler is a transition [State -> State * Response].  The two
    handlers that wait for bcrypt, register and login, are also given in two
    halves, up to the [await] and after it, and a run may take other events
    between the halves; [app] is a request whose halves follow each other
    at once.  What a handler reads from its surroundings (the wall clock,
    the salt of bcrypt, [Math.random]) is an explicit [Oracle] argument, one
    clock reading per [Date.now()] / [new Date()] in program order.
    [GET /stats] only reads the two arrays; it is not a [Request] of the
    runs and has its own entry point, [app_stats].

    The npm packages the router calls are not part of the repository.  They
    appear as interfaces ([ValidatorLib], [BcryptLib], [JwsLib]); the wrapper
    logic of [jsonwebtoken] ([iat], [exp], the expiry check of [verify]) is
    written out over the abstract codec. *)

From Stdlib Require Import ZArith List String Ascii Bool Lia.
From Stdlib Require Import DecimalString DecimalZ.
Import ListNotations.

Local Open Scope string_scope.
Local Open Scope Z_scope.

(** ** JavaScript values and helpers used by the router *)

Module Js.

(** A computation that may [throw]. *)
Inductive result (A : Type) : Type :=
| Ok (a : A)
| Throw (reason : string).
Arguments Ok {A} a.
Arguments Throw {A} reason.

Definition bind {A B} (m : result A) (k : A -> result B) : result B :=
  match m with
  | Ok a => k a
  | Throw e => Throw e
  end.

(** [try { body } catch (error) { handler }] *)
Definition try_catch {A} (body : result A) (handler : string -> A) : A :=
  match body with
  | Ok a => a
  | Throw e => handler e
  end.

(** [s.startsWith(pat)], returning the rest of [s]. *)
Fixpoint strip_prefix (pat s : string) : option string :=
  match pat, s with
  | EmptyString, _ => Some s
  | String a pat', String b s' =>
      if Ascii.eqb a b then strip_prefix pat' s' else None
  | String _ _, EmptyString => None
  end.

(** [s.replace(pat, rep)] with a string pattern: only the first occurrence
    of [pat] is replaced. *)
Fixpoint replace (pat rep s : string) : string :=
  match strip_prefix pat s with
  | Some rest => rep ++ rest
  | None =>
      match s with
      | EmptyString => EmptyString
      | String c s' => String c (replace pat rep s')
      end
  end.

(** Truthiness of a string: the empty string is falsy. *)
Definition truthy (s : string) : bool :=
  match s with
  | EmptyString => false
  | String _ _ => true
  end.

(** Truthiness of [x?.f()] results: [undefined] is falsy. *)
Definition truthy_opt (o : option string) : bool :=
  match o with
  | None => false
  | Some s => truthy s
  end.

(** [arr.findIndex(p)]: index of the first match, [-1] when there is none. *)
Fixpoint findIndex {A} (p : A -> bool) (l : list A) : Z :=
  match l with
  | [] => -1
  | x :: l' =>
      if p x then 0
      else let i := findIndex p l' in if i =? -1 then -1 else i + 1
  end.

(** [arr.splice(i, 1)] for an index [i >= 0]; nothing is removed when [i]
    is past the end. *)
Fixpoint remove_nth {A} (n : nat) (l : list A) : list A :=
  match l, n with
  | [], _ => []
  | _ :: l', O => l'
  | x :: l', S n' => x :: remove_nth n' l'
  end.

Definition splice1 {A} (i : Z) (l : list A) : list A :=
  remove_nth (Z.to_nat i) l.

(** Assignment to a field of the object returned by [arr.find(p)]: the
    array holds that very object, so its first match changes in place. *)
Fixpoint update_first {A} (p : A -> bool) (f : A -> A) (l : list A) : list A :=
  match l with
  | [] => []
  | x :: l' => if p x then f x :: l' else x :: update_first p f l'
  end.

(** [s.toLowerCase()] on ASCII letters. *)
Definition lower_ascii (c : ascii) : ascii :=
  let n := nat_of_ascii c in
  if ((65 <=? n) && (n <=? 90))%nat then ascii_of_nat (n + 32) else c.

Fixpoint toLowerCase (s : string) : string :=
  match s with
  | EmptyString => EmptyString
  | String c s' => String (lower_ascii c) (toLowerCase s')
  end.

End Js.

Notation "x <- m ;; k" := (Js.bind m (fun x => k))
  (at level 61, m at next level, right associativity).

(** ** Data model *)

Module User.
Record t : Type := mk
  { id : Z;
    fullName : string;
    phone : string;
    email : string;
    password : string;          (* the bcrypt hash *)
    userType : string;
    verified : bool;
    createdAt : Z;
    profileComplete : bool;
    lastLogin : option Z }.     (* absent until the first login *)

Definition touch (now : Z) (u : t) : t :=
  mk (id u) (fullName u) (phone u) (email u) (password u) (userType u)
     (verified u) (createdAt u) (profileComplete u) (Some now).
End User.

Module Session.
Record t : Type := mk
  { userId : Z;
    token : string;
    createdAt : Z;
    expiresAt : Z }.
End Session.

(** Hit table of an [express-rate-limit] memory store: one counter per
    client key, all counters dropped together when the window timer fires. *)
Module RateLimit.
Definition Hits : Type := string -> nat.

Definition empty : Hits := fun _ => 0%nat.

Definition increment (key : string) (h : Hits) : Hits * nat :=
  let totalHits := S (h key) in
  (fun k => if String.eqb k key then totalHits else h k, totalHits).

(** The middleware lets a request through while [totalHits <= max]. *)
Definition exceeded (max totalHits : nat) : bool := (max <? totalHits)%nat.
End RateLimit.

(** [process.env]: every variable is a string or undefined. *)
Record ProcessEnv : Type := mkEnv
  { JWT_SECRET : option string;
    JWT_EXPIRES_IN : option string;
    BCRYPT_ROUNDS : option string }.

(** What one request reads from outside the program.  [clock k] is the value
    of the [k]-th reading of the wall clock (milliseconds) while the request
    is handled. *)
Record Oracle : Type := mkOracle
  { clock : nat -> Z;
    salt : string;
    random : string }.

(** ** Requests and responses *)

Record RegisterBody : Type := mkRegisterBody
  { r_fullName : string;
    r_phone : string;
    r_email : string;
    r_password : string;
    r_userType : string }.

Record LoginBody : Type := mkLoginBody
  { l_email : string;
    l_password : string }.

Inductive Request : Type :=
| Register (ip : string) (b : RegisterBody)
| Login (ip : string) (b : LoginBody)
| Logout (ip : string) (authorization : option string)
| Me (ip : string) (authorization : option string).

(** A handler parked at its [await], with what the continuation holds:
    register waiting for [bcrypt.hash] with the sanitized body, login
    waiting for [bcrypt.compare] with the sanitized body and the [user]
    object it found. *)
Inductive Parked : Type :=
| Hashing (o : Oracle) (b : RegisterBody)
| Comparing (o : Oracle) (b : LoginBody) (user : User.t).

Record State : Type := mkState
  { users : list User.t;
    sessions : list Session.t;
    limiter : RateLimit.Hits;       (* server.js, mounted on /api/ *)
    authLimiter : RateLimit.Hits;   (* routes/auth.js, register and login *)
    inflight : list Parked }.       (* handlers waiting for bcrypt *)

Definition init : State := mkState [] [] RateLimit.empty RateLimit.empty [].

Record FieldError : Type := mkFieldError
  { path : string;
    value : string;
    msg : string }.

Record UserResponse : Type := mkUserResponse
  { u_id : Z;
    u_fullName : string;
    u_email : string;
    u_userType : string;
    u_verified : bool;
    u_profileComplete : bool }.

Record ProfileResponse : Type := mkProfileResponse
  { p_id : Z;
    p_fullName : string;
    p_email : string;
    p_phone : string;
    p_userType : string;
    p_verified : bool;
    p_profileComplete : bool;
    p_createdAt : Z;
    p_lastLogin : option Z }.

Inductive Body : Type :=
| Failure (message : string)
| Invalid (message : string) (errors : list FieldError)
| Registered (message : string) (user : UserResponse) (verificationCode : string)
| LoggedIn (message : string) (token : string) (user : UserResponse)
| Success (message : string)
| Profile (user : ProfileResponse)
| Text (message : string).

Definition success (b : Body) : bool :=
  match b with
  | Failure _ | Invalid _ _ | Text _ => false
  | Registered _ _ _ | LoggedIn _ _ _ | Success _ | Profile _ => true
  end.

Record Response : Type := mkResponse
  { status : Z;
    body : Body }.


(** A request arrives and is answered before anything else happens, or the
    interval timer of one of the two limiters fires and clears its table;
    or, for the two handlers with an [await], a request arrives and runs up
    to there, and later the parked handler number [n] runs on.  The other
    two handlers have no [await]: their requests are always [Incoming]. *)
Inductive Event : Type :=
| Incoming (o : Oracle) (req : Request)
| WindowElapsed
| AuthWindowElapsed
| RegisterArrives (o : Oracle) (ip : string) (b : RegisterBody)
| LoginArrives (o : Oracle) (ip : string) (b : LoginBody)
| Resumes (n : nat).

(** ** The npm packages, as interfaces *)

(** [validator.js] through [express-validator]: the checks and sanitizers
    the two validation chains name. *)
Class ValidatorLib : Type :=
  { isEmail : string -> bool;
    normalizeEmail : string -> string;
    trim : string -> string;
    isLength : nat -> string -> bool }.  (* isLength({ min }) *)

(** [bcryptjs].  [bcrypt_hash password rounds salt] stands for
    [bcrypt.hash(password, parseInt(rounds))] when the generated salt is
    [salt]; both calls may reject. *)
Class BcryptLib : Type :=
  { bcrypt_hash : string -> option string -> string -> Js.result string;
    bcrypt_compare : string -> string -> Js.result bool }.

(** [jsonwebtoken].  The payload the router signs is [{ userId, timestamp }];
    [sign] adds [iat] and, when [expiresIn] is given, [exp]. *)
Module Jwt.

Record Claims : Type := mkClaims
  { userId : Z;
    timestamp : Z;
    iat : Z;
    exp : option Z }.

(** The compact serialization with its HMAC, and the [ms] time span parser
    ([ms "7d"] is a number of milliseconds). *)
Class JwsLib : Type :=
  { jws_encode : string -> Claims -> string;
    jws_decode : string -> string -> option Claims;
    ms : string -> option Z }.

(** [jwt.sign({ userId, timestamp }, secretOrPrivateKey, { expiresIn })]
    called when the clock shows [now]. *)
Definition sign {J : JwsLib} (uid stamp : Z) (secretOrPrivateKey : option string)
    (expiresIn : option string) (now : Z) : Js.result string :=
  match secretOrPrivateKey with
  | Some key =>
      if Js.truthy key then
        match expiresIn with
        | Some span =>
            if Js.truthy span then
              let issued := now / 1000 in
              match ms span with
              | Some millis =>
                  Js.Ok (jws_encode key
                           (mkClaims uid stamp issued (Some (issued + millis / 1000))))
              | None => Js.Throw "expiresIn should be a timespan"
              end
            else Js.Throw "expiresIn should be a timespan"
        | None => Js.Throw "expiresIn should be a timespan"
        end
      else Js.Throw "secretOrPrivateKey must have a value"
  | None => Js.Throw "secretOrPrivateKey must have a value"
  end.

(** [jwt.verify(token, secretOrPublicKey)] called when the clock shows [now]:
    signature first, then [exp]. *)
Definition verify {J : JwsLib} (token : string) (secretOrPublicKey : option string)
    (now : Z) : Js.result Claims :=
  match secretOrPublicKey with
  | Some key =>
      if Js.truthy key then
        match jws_decode key token with
        | Some payload =>
            match exp payload with
            | Some e =>
                if e <=? now / 1000 then Js.Throw "jwt expired" else Js.Ok payload
            | None => Js.Ok payload
            end
        | None => Js.Throw "invalid token"
        end
      else Js.Throw "secret or public key must be provided"
  | None => Js.Throw "secret or public key must be provided"
  end.

End Jwt.

(** ** A plain-text instance of the three interfaces

    Good enough to run the router on concrete requests: e-mail addresses are
    lower-cased, the "hash" is a tagged copy of the password and a token is
    the secret followed by the decimal fields of its payload. *)

Module Fixture.

Definition has_at (s : string) : bool :=
  existsb (Ascii.eqb "@"%char) (list_ascii_of_string s).

Fixpoint ltrim (s : string) : string :=
  match s with
  | String " "%char s' => ltrim s'
  | _ => s
  end.

Fixpoint rtrim (s : string) : string :=
  match s with
  | EmptyString => EmptyString
  | String c s' =>
      match rtrim s' with
      | EmptyString => if Ascii.eqb c " "%char then EmptyString else String c EmptyString
      | rest => String c rest
      end
  end.

Definition validator : ValidatorLib :=
  {| isEmail := has_at;
     normalizeEmail := Js.toLowerCase;
     trim := fun s => rtrim (ltrim s);
     isLength := fun min s => (min <=? String.length s)%nat |}.

Definition bcrypt : BcryptLib :=
  {| bcrypt_hash := fun password rounds _ =>
       if Js.truthy_opt rounds then Js.Ok ("#" ++ password)
       else Js.Throw "Illegal arguments";
     bcrypt_compare := fun password hash =>
       Js.Ok (String.eqb hash ("#" ++ password)) |}.

Definition print_Z (z : Z) : string := NilEmpty.string_of_int (Z.to_int z).

Definition parse_Z (s : string) : option Z :=
  option_map Z.of_int (NilEmpty.int_of_string s).

(** Cut [s] at its first dot. *)
Fixpoint split_dot (s : string) : option (string * string) :=
  match s with
  | EmptyString => None
  | String c s' =>
      if Ascii.eqb c "."%char then Some (EmptyString, s')
      else match split_dot s' with
           | Some (a, b) => Some (String c a, b)
           | None => None
           end
  end.

Definition print_exp (e : option Z) : string :=
  match e with
  | Some z => String "E"%char (print_Z z)
  | None => "N"
  end.

Definition parse_exp (s : string) : option (option Z) :=
  match s with
  | String "E"%char digits => option_map Some (parse_Z digits)
  | String "N"%char EmptyString => Some None
  | _ => None
  end.

Definition encode (key : string) (c : Jwt.Claims) : string :=
  key ++ "." ++ print_Z (Jwt.userId c) ++ "." ++ print_Z (Jwt.timestamp c)
      ++ "." ++ print_Z (Jwt.iat c) ++ "." ++ print_exp (Jwt.exp c).

Definition decode (key token : string) : option Jwt.Claims :=
  match Js.strip_prefix (key ++ ".") token with
  | Some s1 =>
      match split_dot s1 with
      | Some (f1, s2) =>
          match split_dot s2 with
          | Some (f2, s3) =>
              match split_dot s3 with
              | Some (f3, f4) =>
                  match parse_Z f1, parse_Z f2, parse_Z f3, parse_exp f4 with
                  | Some uid, Some stamp, Some issued, Some e =>
                      Some (Jwt.mkClaims uid stamp issued e)
                  | _, _, _, _ => None
                  end
              | None => None
              end
          | None => None
          end
      | None => None
      end
  | None => None
  end.

Definition spans (s : string) : option Z :=
  if String.eqb s "1h" then Some 3600000
  else if String.eqb s "7d" then Some 604800000
  else if String.eqb s "30d" then Some 2592000000
  else None.

Definition jws : Jwt.JwsLib :=
  {| Jwt.jws_encode := encode;
     Jwt.jws_decode := decode;
     Jwt.ms := spans |}.

Definition env : ProcessEnv :=
  mkEnv (Some "s3cret") (Some "1h") (Some "10").

Definition env_long : ProcessEnv :=
  mkEnv (Some "s3cret") (Some "30d") (Some "10").

(** An oracle whose clock stands still at [t] while the request is handled. *)
Definition at_time (t : Z) : Oracle := mkOracle (fun _ => t) "salt" "K7Q2ZD".

(** An oracle whose clock moves on by one millisecond per reading. *)
Definition ticking (t : Z) : Oracle :=
  mkOracle (fun k => t + Z.of_nat k) "salt" "K7Q2ZD".

Definition ip : string := "203.0.113.7".

Definition somchai : RegisterBody :=
  mkRegisterBody "Somchai" "0812345678" "Somchai@Example.com" "longenough1"
                 "ผู้ซื้อ/เช่า".

Definition somchai_again : RegisterBody :=
  mkRegisterBody "Somchai S." "0898765432" "somchai@EXAMPLE.com" "another-pass"
                 "นายหน้า".

Definition no_phone : RegisterBody :=
  mkRegisterBody "Malee" "12345" "malee@example.com" "longenough2" "นายหน้า".

Definition good_login : LoginBody := mkLoginBody "somchai@example.com" "longenough1".

Definition wrong_password : LoginBody := mkLoginBody "somchai@example.com" "guess".

Definition unknown_email : LoginBody := mkLoginBody "nobody@example.com" "guess".

Definition no_password : LoginBody := mkLoginBody "somchai@example.com" "".

(** The token of user 1 stamped at 2000 ms under [env]. *)
Definition token_2000 : string := "s3cret.1.2000.2.E3602".

Definition header_2000 : option string := Some "Bearer s3cret.1.2000.2.E3602".

(** Registration at 1000 ms, then one login at 2000 ms. *)
Definition one_login : list Event :=
  [Incoming (at_time 1000) (Register ip somchai);
   Incoming (at_time 2000) (Login ip good_login)].

(** The same, with a second login of the same user in the same millisecond. *)
Definition two_logins_same_ms : list Event :=
  [Incoming (at_time 1000) (Register ip somchai);
   Incoming (at_time 2000) (Login ip good_login);
   Incoming (at_time 2000) (Login ip good_login)].

(** Two registrations for one address, the second arriving while the first
    waits for [bcrypt.hash]; then both handlers run on, in that order. *)
Definition overlapping_registrations : list Event :=
  [RegisterArrives (at_time 1000) ip somchai;
   RegisterArrives (at_time 1001) ip somchai_again;
   Resumes 0;
   Resumes 0].

(** The login of the second of them. *)
Definition again_login : LoginBody := mkLoginBody "somchai@EXAMPLE.com" "another-pass".

(** A registration that is still waiting for [bcrypt.hash]. *)
Definition registering : list Event :=
  [RegisterArrives (at_time 1000) ip somchai].

(** A login during which the clock moves on. *)
Definition login_while_ticking : list Event :=
  [Incoming (at_time 1000) (Register ip somchai);
   Incoming (ticking 2000) (Login ip good_login)].

(** One hundred requests from one address within a window. *)
Definition hundred_requests : list Event :=
  repeat (Incoming (at_time 1000) (Me ip None)) 100.


(** The token life span left unset. *)
Definition env_unset : ProcessEnv := mkEnv (Some "s3cret") None (Some "10").

(** The registration alone. *)
Definition registered : list Event :=
  [Incoming (at_time 1000) (Register ip somchai)].

(** The record the registration stores, after the login at 2000 ms. *)
Definition somchai_stored : User.t :=
  User.mk 1 "Somchai" "0812345678" "somchai@example.com" "#longenough1"
          "ผู้ซื้อ/เช่า" false 1000 false (Some 2000).

(** Five failed logins in a row from one address. *)
Definition five_attempts : list Event :=
  repeat (Incoming (at_time 3000) (Login ip wrong_password)) 5.

End Fixture.

(** ** The router of [src/routes/auth.js] *)

Section Router.

Context {V : ValidatorLib} {B : BcryptLib} {J : Jwt.JwsLib}.
Variable env : ProcessEnv.

(** *** Validation chains *)

Definition is_digit (c : ascii) : bool :=
  let n := nat_of_ascii c in ((48 <=? n) && (n <=? 57))%nat.

(** [/^0[0-9]{8,9}$/] *)
Definition matches_phone (s : string) : bool :=
  match s with
  | String "0"%char rest =>
      forallb is_digit (list_ascii_of_string rest)
      && ((String.length rest =? 8) || (String.length rest =? 9))%nat
  | _ => false
  end.

Definition userTypes : list string :=
  ["เจ้าของห้อง"; "นายหน้า"; "ผู้ซื้อ/เช่า"].

Definition isIn (allowed : list string) (s : string) : bool :=
  existsb (String.eqb s) allowed.

Definition notEmpty (s : string) : bool := Js.truthy s.

(** One validator of a chain with its [withMessage]. *)
Definition check (ok : bool) (p v m : string) : list FieldError :=
  if ok then [] else [mkFieldError p v m].

(** The chains rewrite [req.body] (sanitizers) and collect the errors that
    [validationResult(req)] returns. *)
Definition validateRegister (b : RegisterBody) : RegisterBody * list FieldError :=
  let fullName := trim (r_fullName b) in
  (mkRegisterBody fullName (r_phone b) (normalizeEmail (r_email b))
                  (r_password b) (r_userType b),
   (check (isLength 2 fullName) "fullName" fullName
         "ชื่อต้องมีอย่างน้อย 2 ตัวอักษร"
   ++ check (matches_phone (r_phone b)) "phone" (r_phone b)
         "เบอร์โทรศัพท์ไม่ถูกต้อง"
   ++ check (isEmail (r_email b)) "email" (r_email b)
         "อีเมลไม่ถูกต้อง"
   ++ check (isLength 8 (r_password b)) "password" (r_password b)
         "รหัสผ่านต้องมีอย่างน้อย 8 ตัวอักษร"
   ++ check (isIn userTypes (r_userType b)) "userType" (r_userType b)
         "ประเภทผู้ใช้ไม่ถูกต้อง")%list).

Definition validateLogin (b : LoginBody) : LoginBody * list FieldError :=
  (mkLoginBody (normalizeEmail (l_email b)) (l_password b),
   (check (isEmail (l_email b)) "email" (l_email b)
         "อีเมลไม่ถูกต้อง"
   ++ check (notEmpty (l_password b)) "password" (l_password b)
         "กรุณากรอกรหัสผ่าน")%list).

(** *** Helper functions *)

(** The clock is read at [clock o 0] for the payload's [timestamp] and at
    [clock o 1] inside [jwt.sign]. *)
Definition generateToken (o : Oracle) (userId : Z) : Js.result string :=
  Jwt.sign userId (clock o 0) (JWT_SECRET env) (JWT_EXPIRES_IN env) (clock o 1).

Definition findUserByEmail (e : string) (us : list User.t) : option User.t :=
  find (fun user => String.eqb (User.email user) e) us.

Definition userResponse (u : User.t) : UserResponse :=
  mkUserResponse (User.id u) (User.fullName u) (User.email u) (User.userType u)
                 (User.verified u) (User.profileComplete u).

Definition profileResponse (u : User.t) : ProfileResponse :=
  mkProfileResponse (User.id u) (User.fullName u) (User.email u) (User.phone u)
                    (User.userType u) (User.verified u) (User.profileComplete u)
                    (User.createdAt u) (User.lastLogin u).

Definition set_users (us : list User.t) (st : State) : State :=
  mkState us (sessions st) (limiter st) (authLimiter st) (inflight st).

Definition set_sessions (ss : list Session.t) (st : State) : State :=
  mkState (users st) ss (limiter st) (authLimiter st) (inflight st).

(** [req.headers.authorization?.replace('Bearer ', '')] *)
Definition bearer (authorization : option string) : option string :=
  option_map (Js.replace "Bearer " "") authorization.

Definition has_token (token : string) (s : Session.t) : bool :=
  String.eqb (Session.token s) token.

(** 7 days, in milliseconds. *)
Definition week : Z := 7 * 24 * 60 * 60 * 1000.

(** *** POST /register

    Nothing is written before [bcrypt.hash] has returned, so the [catch]
    block always sees the state the handler started from.  The user's
    [createdAt] is the clock at [clock o 0]. *)
Definition register (st : State) (o : Oracle) (b : RegisterBody)
    (errors : list FieldError) : State * Response :=
  Js.try_catch
    (match errors with
     | _ :: _ =>
         Js.Ok (st, mkResponse 400 (Invalid "ข้อมูลไม่ถูกต้อง" errors))
     | [] =>
         match findUserByEmail (r_email b) (users st) with
         | Some _ =>
             Js.Ok (st, mkResponse 409 (Failure "อีเมลนี้มีผู้ใช้แล้ว"))
         | None =>
             hashedPassword <- bcrypt_hash (r_password b) (BCRYPT_ROUNDS env) (salt o) ;;
             let newUser :=
               User.mk (Z.of_nat (List.length (users st)) + 1)
                       (r_fullName b) (r_phone b) (r_email b) hashedPassword
                       (r_userType b) false (clock o 0) false None in
             Js.Ok (set_users ((users st ++ [newUser])%list) st,
                    mkResponse 201
                      (Registered "ลงทะเบียนสำเร็จ กรุณายืนยันตัวตนผ่านอีเมล"
                                  (userResponse newUser) (random o)))
         end
     end)
    (fun _ => (st, mkResponse 500 (Failure "เกิดข้อผิดพลาดในการลงทะเบียน"))).

(** *** POST /login

    Clock readings after the two of [generateToken]: [clock o 2] for
    [lastLogin], [clock o 3] for [createdAt], [clock o 4] for the
    [Date.now()] of [expiresAt].  Both calls that may throw come before the
    first write. *)
Definition login (st : State) (o : Oracle) (b : LoginBody)
    (errors : list FieldError) : State * Response :=
  Js.try_catch
    (match errors with
     | _ :: _ =>
         Js.Ok (st, mkResponse 400 (Invalid "ข้อมูลไม่ถูกต้อง" errors))
     | [] =>
         match findUserByEmail (l_email b) (users st) with
         | None =>
             Js.Ok (st, mkResponse 401 (Failure "อีเมลหรือรหัสผ่านไม่ถูกต้อง"))
         | Some user =>
             isValidPassword <- bcrypt_compare (l_password b) (User.password user) ;;
             if negb isValidPassword then
               Js.Ok (st, mkResponse 401 (Failure "อีเมลหรือรหัสผ่านไม่ถูกต้อง"))
             else
               token <- generateToken o (User.id user) ;;
               let touched :=
                 Js.update_first (fun u => String.eqb (User.email u) (l_email b))
                                 (User.touch (clock o 2)) (users st) in
               let session :=
                 Session.mk (User.id user) token (clock o 3) (clock o 4 + week) in
               Js.Ok (mkState touched ((sessions st ++ [session])%list)
                              (limiter st) (authLimiter st) (inflight st),
                      mkResponse 200
                        (LoggedIn "เข้าสู่ระบบสำเร็จ" token (userResponse user)))
         end
     end)
    (fun _ => (st, mkResponse 500 (Failure "เกิดข้อผิดพลาดในการเข้าสู่ระบบ"))).

(** *** POST /logout *)
Definition logout (st : State) (authorization : option string) : State * Response :=
  let st' :=
    match bearer authorization with
    | Some token =>
        if Js.truthy token then
          let sessionIndex := Js.findIndex (has_token token) (sessions st) in
          if -1 <? sessionIndex
          then set_sessions (Js.splice1 sessionIndex (sessions st)) st
          else st
        else st
    | None => st
    end in
  (st', mkResponse 200 (Success "ออกจากระบบสำเร็จ")).

(** *** GET /me

    [jwt.verify] compares [exp] with the clock at [clock o 0]; the session
    check reads it again at [clock o 1]. *)
Definition me (st : State) (o : Oracle) (authorization : option string) : Response :=
  Js.try_catch
    (match bearer authorization with
     | None => Js.Ok (mkResponse 401 (Failure "ไม่มี token"))
     | Some token =>
         if negb (Js.truthy token) then
           Js.Ok (mkResponse 401 (Failure "ไม่มี token"))
         else
           decoded <- Jwt.verify token (JWT_SECRET env) (clock o 0) ;;
           match find (has_token token) (sessions st) with
           | None => Js.Ok (mkResponse 401 (Failure "Token หมดอายุ"))
           | Some session =>
               if Session.expiresAt session <? clock o 1 then
                 Js.Ok (mkResponse 401 (Failure "Token หมดอายุ"))
               else
                 match find (fun u => User.id u =? Jwt.userId decoded) (users st) with
                 | None => Js.Ok (mkResponse 404 (Failure "ไม่พบผู้ใช้"))
                 | Some user =>
                     Js.Ok (mkResponse 200 (Profile (profileResponse user)))
                 end
           end
     end)
    (fun _ => mkResponse 401 (Failure "Token ไม่ถูกต้อง")).

(** *** The middleware in front of the handlers *)

(** [rateLimit({ max, message })] keyed by the client address: the hit is
    counted first, then compared with [max]. *)
Definition rateLimit (max : nat) (message key : string) (h : RateLimit.Hits)
    : RateLimit.Hits * option Response :=
  let (h', totalHits) := RateLimit.increment key h in
  (h', if RateLimit.exceeded max totalHits
       then Some (mkResponse 429 (Text message))
       else None).

Definition ip_of (req : Request) : string :=
  match req with
  | Register ip _ | Login ip _ | Logout ip _ | Me ip _ => ip
  end.

Definition through_authLimiter (st : State) (ip : string)
    (next : State -> State * Response) : State * Response :=
  let (h, rejected) :=
    rateLimit 5 "Too many authentication attempts, please try again later."
              ip (authLimiter st) in
  let st1 := mkState (users st) (sessions st) (limiter st) h (inflight st) in
  match rejected with
  | Some r => (st1, r)
  | None => next st1
  end.

(** [router.post('/register', authLimiter, validateRegister, ...)] and the
    three other routes. *)
Definition route (st : State) (o : Oracle) (req : Request) : State * Response :=
  match req with
  | Register ip b =>
      through_authLimiter st ip
        (fun st1 => let (b', errors) := validateRegister b in register st1 o b' errors)
  | Login ip b =>
      through_authLimiter st ip
        (fun st1 => let (b', errors) := validateLogin b in login st1 o b' errors)
  | Logout _ authorization => logout st authorization
  | Me _ authorization => (st, me st o authorization)
  end.

(** [app.use('/api/', limiter)] of [server.js], then the router. *)
Definition app (st : State) (o : Oracle) (req : Request) : State * Response :=
  let (h, rejected) :=
    rateLimit 100 "Too many requests from this IP, please try again later."
              (ip_of req) (limiter st) in
  let st1 := mkState (users st) (sessions st) h (authLimiter st) (inflight st) in
  match rejected with
  | Some r => (st1, r)
  | None => route st1 o req
  end.

(** *** The two handlers that wait for bcrypt, in halves

    [register] and [login] above are the handlers run through without a
    break.  Each has one [await]; below are the part before it and the part
    after it, the latter running in whatever state it finds when the
    promise settles. *)

(** [POST /register] up to [await bcrypt.hash]: one of the early answers,
    or none when the handler gets as far as the [await]. *)
Definition register_begin (st : State) (b : RegisterBody)
    (errors : list FieldError) : option Response :=
  match errors with
  | _ :: _ => Some (mkResponse 400 (Invalid "ข้อมูลไม่ถูกต้อง" errors))
  | [] =>
      match findUserByEmail (r_email b) (users st) with
      | Some _ => Some (mkResponse 409 (Failure "อีเมลนี้มีผู้ใช้แล้ว"))
      | None => None
      end
  end.

(** [POST /register] from the [await] on. *)
Definition register_resume (st : State) (o : Oracle) (b : RegisterBody)
    : State * Response :=
  Js.try_catch
    (hashedPassword <- bcrypt_hash (r_password b) (BCRYPT_ROUNDS env) (salt o) ;;
     let newUser :=
       User.mk (Z.of_nat (List.length (users st)) + 1)
               (r_fullName b) (r_phone b) (r_email b) hashedPassword
               (r_userType b) false (clock o 0) false None in
     Js.Ok (set_users ((users st ++ [newUser])%list) st,
            mkResponse 201
              (Registered "ลงทะเบียนสำเร็จ กรุณายืนยันตัวตนผ่านอีเมล"
                          (userResponse newUser) (random o))))
    (fun _ => (st, mkResponse 500 (Failure "เกิดข้อผิดพลาดในการลงทะเบียน"))).

(** [POST /login] up to [await bcrypt.compare]: an early answer, or the
    [user] object found, which the continuation keeps. *)
Definition login_begin (st : State) (b : LoginBody) (errors : list FieldError)
    : Response + User.t :=
  match errors with
  | _ :: _ => inl (mkResponse 400 (Invalid "ข้อมูลไม่ถูกต้อง" errors))
  | [] =>
      match findUserByEmail (l_email b) (users st) with
      | None => inl (mkResponse 401 (Failure "อีเมลหรือรหัสผ่านไม่ถูกต้อง"))
      | Some user => inr user
      end
  end.

(** [POST /login] from the [await] on.  [user] is an element of the array,
    which only grows and never changes an address, so the object is still
    the first one with its address when [lastLogin] is assigned. *)
Definition login_resume (st : State) (o : Oracle) (b : LoginBody) (user : User.t)
    : State * Response :=
  Js.try_catch
    (isValidPassword <- bcrypt_compare (l_password b) (User.password user) ;;
     if negb isValidPassword then
       Js.Ok (st, mkResponse 401 (Failure "อีเมลหรือรหัสผ่านไม่ถูกต้อง"))
     else
       token <- generateToken o (User.id user) ;;
       let touched :=
         Js.update_first (fun u => String.eqb (User.email u) (l_email b))
                         (User.touch (clock o 2)) (users st) in
       let session :=
         Session.mk (User.id user) token (clock o 3) (clock o 4 + week) in
       Js.Ok (mkState touched ((sessions st ++ [session])%list)
                      (limiter st) (authLimiter st) (inflight st),
              mkResponse 200
                (LoggedIn "เข้าสู่ระบบสำเร็จ" token (userResponse user))))
    (fun _ => (st, mkResponse 500 (Failure "เกิดข้อผิดพลาดในการเข้าสู่ระบบ"))).

Definition park (t : Parked) (st : State) : State :=
  mkState (users st) (sessions st) (limiter st) (authLimiter st)
          (inflight st ++ [t])%list.

Definition unpark (n : nat) (st : State) : State :=
  mkState (users st) (sessions st) (limiter st) (authLimiter st)
          (Js.remove_nth n (inflight st)).

(** The two limiters on their own: the counted state and the 429, if any. *)
Definition general_limit (st : State) (ip : string) : State * option Response :=
  let (h, rejected) :=
    rateLimit 100 "Too many requests from this IP, please try again later."
              ip (limiter st) in
  (mkState (users st) (sessions st) h (authLimiter st) (inflight st), rejected).

Definition auth_limit (st : State) (ip : string) : State * option Response :=
  let (h, rejected) :=
    rateLimit 5 "Too many authentication attempts, please try again later."
              ip (authLimiter st) in
  (mkState (users st) (sessions st) (limiter st) h (inflight st), rejected).

(** A request arrives and runs until it is answered or reaches its
    [await]; in the latter case there is no answer yet and the handler is
    parked. *)
Definition arrive (st : State) (o : Oracle) (req : Request)
    : State * option Response :=
  let (st1, rejected) := general_limit st (ip_of req) in
  match rejected with
  | Some r => (st1, Some r)
  | None =>
      match req with
      | Register ip b =>
          let (st2, rejected) := auth_limit st1 ip in
          match rejected with
          | Some r => (st2, Some r)
          | None =>
              let (b', errors) := validateRegister b in
              match register_begin st2 b' errors with
              | Some r => (st2, Some r)
              | None => (park (Hashing o b') st2, None)
              end
          end
      | Login ip b =>
          let (st2, rejected) := auth_limit st1 ip in
          match rejected with
          | Some r => (st2, Some r)
          | None =>
              let (b', errors) := validateLogin b in
              match login_begin st2 b' errors with
              | inl r => (st2, Some r)
              | inr user => (park (Comparing o b' user) st2, None)
              end
          end
      | Logout _ authorization =>
          let (st2, r) := logout st1 authorization in (st2, Some r)
      | Me _ authorization => (st1, Some (me st1 o authorization))
      end
  end.

(** A parked handler runs on from its [await]. *)
Definition settle (st : State) (t : Parked) : State * Response :=
  match t with
  | Hashing o b => register_resume st o b
  | Comparing o b user => login_resume st o b user
  end.

(** The promise of parked handler number [n] settles. *)
Definition resume (st : State) (n : nat) : State * option Response :=
  match nth_error (inflight st) n with
  | Some t => let (st', r) := settle (unpark n st) t in (st', Some r)
  | None => (st, None)
  end.

(** *** Runs of the server

    Node runs one handler at a time and switches only at an [await]: a run
    is a sequence of events, each taken in the state the one before left. *)

Definition step (st : State) (ev : Event) : State :=
  match ev with
  | Incoming o req => fst (app st o req)
  | WindowElapsed =>
      mkState (users st) (sessions st) RateLimit.empty (authLimiter st)
              (inflight st)
  | AuthWindowElapsed =>
      mkState (users st) (sessions st) (limiter st) RateLimit.empty
              (inflight st)
  | RegisterArrives o ip b => fst (arrive st o (Register ip b))
  | LoginArrives o ip b => fst (arrive st o (Login ip b))
  | Resumes n => fst (resume st n)
  end.

Definition run (st : State) (evs : list Event) : State := fold_left step evs st.

(** A run in which no two requests overlap. *)
Definition one_at_a_time (evs : list Event) : Prop :=
  Forall (fun ev => match ev with
                    | RegisterArrives _ _ _ | LoginArrives _ _ _ | Resumes _ => False
                    | _ => True
                    end) evs.

Definition tokens (st : State) : list string := map Session.token (sessions st).

(** *** GET /stats *)

(** [usersByType] is an object with one key per role, in this order. *)
Record Stats : Type := mkStats
  { totalUsers : Z;
    verifiedUsers : Z;
    usersByType : list (string * Z);
    activeSessions : Z }.

(** [arr.filter(x => p(new Date(), x))]: the callback runs once per element,
    in order, and reads the clock each time; reading number [k] serves the
    element at index [k]. *)
Fixpoint filter_reading {A} (p : Z -> A -> bool) (readings : nat -> Z) (k : nat)
    (l : list A) : list A :=
  match l with
  | [] => []
  | x :: l' =>
      if p (readings k) x
      then x :: filter_reading p readings (S k) l'
      else filter_reading p readings (S k) l'
  end.

(** [arr.length] *)
Definition count {A} (l : list A) : Z := Z.of_nat (List.length l).

Definition ofType (t : string) (u : User.t) : bool :=
  String.eqb (User.userType u) t.

(** [s.expiresAt > new Date()] *)
Definition active (now : Z) (s : Session.t) : bool := now <? Session.expiresAt s.

Definition stats (st : State) (o : Oracle) : Stats :=
  mkStats
    (count (users st))
    (count (filter User.verified (users st)))
    [("เจ้าของห้อง", count (filter (ofType "เจ้าของห้อง") (users st)));
     ("นายหน้า", count (filter (ofType "นายหน้า") (users st)));
     ("ผู้ซื้อ/เช่า", count (filter (ofType "ผู้ซื้อ/เช่า") (users st)))]
    (count (filter_reading active (clock o) 0 (sessions st))).

(** The answer to [GET /stats]: the general limiter's 429, or 200 with
    [{ success: true, stats }]. *)
Inductive StatsResponse : Type :=
| StatsLimited (r : Response)
| StatsOk (s : Stats).

Definition app_stats (st : State) (o : Oracle) (ip : string)
    : State * StatsResponse :=
  let (h, rejected) :=
    rateLimit 100 "Too many requests from this IP, please try again later."
              ip (limiter st) in
  let st1 := mkState (users st) (sessions st) h (authLimiter st) (inflight st) in
  match rejected with
  | Some r => (st1, StatsLimited r)
  | None => (st1, StatsOk (stats st1 o))
  end.

(** *** Shapes of requests and users, for the statements below *)

(** A request to one of the two routes behind [authLimiter]. *)
Definition to_auth_route (req : Request) : bool :=
  match req with
  | Register _ _ | Login _ _ => true
  | Logout _ _ | Me _ _ => false
  end.



(** The record [POST /register] pushes for a body that went through the
    validation chain, given the hash [bcrypt.hash] returned. *)
Definition newUser (st : State) (o : Oracle) (b : RegisterBody) (hash : string)
    : User.t :=
  User.mk (Z.of_nat (List.length (users st)) + 1)
          (trim (r_fullName b)) (r_phone b) (normalizeEmail (r_email b)) hash
          (r_userType b) false (clock o 0) false None.

(** What the validation chain and the handler guarantee of a stored user. *)
Definition as_registered (u : User.t) : Prop :=
  User.verified u = false
  /\ User.profileComplete u = false
  /\ In (User.userType u) userTypes
  /\ matches_phone (User.phone u) = true
  /\ isLength 2 (User.fullName u) = true.

(** ** Properties *)

(** *** Strings and arrays *)

Lemma strip_prefix_app (p r : string) : Js.strip_prefix p (p ++ r) = Some r.
Proof.
  induction p as [|c p IH]; simpl; [reflexivity|].
  now rewrite Ascii.eqb_refl.
Qed.

Lemma replace_at_front (p rep r : string) : Js.replace p rep (p ++ r) = (rep ++ r)%string.
Proof.
  destruct (p ++ r)%string eqn:E; simpl;
    rewrite <- E, strip_prefix_app; reflexivity.
Qed.

Lemma bearer_header (t : string) : bearer (Some ("Bearer " ++ t)%string) = Some t.
Proof.
  unfold bearer, option_map.
  now rewrite (replace_at_front "Bearer " "" t).
Qed.

Lemma findIndex_range {A} (p : A -> bool) (l : list A) : -1 <= Js.findIndex p l.
Proof.
  induction l as [|x l IH]; simpl; [lia|].
  destruct (p x); [lia|].
  destruct (Js.findIndex p l =? -1) eqn:E; lia.
Qed.

(** [findIndex] misses exactly when [find] does. *)
Lemma findIndex_none {A} (p : A -> bool) (l : list A) :
  Js.findIndex p l = -1 <-> find p l = None.
Proof.
  induction l as [|x l IH]; simpl; [tauto|].
  destruct (p x); [split; discriminate|].
  pose proof (findIndex_range p l).
  destruct (Js.findIndex p l =? -1) eqn:E.
  - apply Z.eqb_eq in E. tauto.
  - apply Z.eqb_neq in E. split; [lia|]. intro H'. apply IH in H'. contradiction.
Qed.

(** When [findIndex] hits, [splice] at that index takes out the first match
    and nothing else. *)
Lemma splice_findIndex {A} (p : A -> bool) (l : list A) :
  -1 < Js.findIndex p l ->
  exists l1 x l2,
    l = (l1 ++ x :: l2)%list /\ p x = true /\ find p l = Some x
    /\ (forall y, In y l1 -> p y = false)
    /\ Js.splice1 (Js.findIndex p l) l = (l1 ++ l2)%list.
Proof.
  induction l as [|x l IH]; simpl; [lia|].
  destruct (p x) eqn:Px.
  - intros _. exists [], x, l. repeat split; auto. intros y [].
  - pose proof (findIndex_range p l) as R.
    destruct (Js.findIndex p l =? -1) eqn:E; [lia|].
    apply Z.eqb_neq in E. intros _.
    destruct IH as (l1 & y & l2 & -> & Py & F & N & Sp); [lia|].
    exists (x :: l1), y, l2. repeat split; auto.
    + intros z [<-|Hz]; auto.
    + unfold Js.splice1 in *.
      replace (Z.to_nat (Js.findIndex p (l1 ++ y :: l2) + 1))
        with (S (Z.to_nat (Js.findIndex p (l1 ++ y :: l2)))) by lia.
      simpl. now rewrite Sp.
Qed.

Lemma find_app_none {A} (p : A -> bool) (l1 l2 : list A) :
  (forall y, In y l1 -> p y = false) -> find p (l1 ++ l2) = find p l2.
Proof.
  induction l1 as [|x l1 IH]; simpl; intros N; [reflexivity|].
  rewrite (N x) by auto. apply IH. intros y Hy. apply N. auto.
Qed.

Lemma update_first_map {A C} (p : A -> bool) (f : A -> A) (g : A -> C) (l : list A) :
  (forall x, g (f x) = g x) -> map g (Js.update_first p f l) = map g l.
Proof.
  intros G. induction l as [|x l IH]; simpl; [reflexivity|].
  destruct (p x); simpl; congruence.
Qed.

(** *** The rate limiters *)

Lemma rateLimit_admits (max : nat) (message key : string) (h : RateLimit.Hits) :
  (h key < max)%nat -> snd (rateLimit max message key h) = None.
Proof.
  intros Hlt. unfold rateLimit, RateLimit.increment, RateLimit.exceeded. simpl.
  destruct (Nat.ltb_spec max (S (h key))); [lia|reflexivity].
Qed.

Lemma rateLimit_rejects (max : nat) (message key : string) (h : RateLimit.Hits) :
  (max <= h key)%nat ->
  snd (rateLimit max message key h) = Some (mkResponse 429 (Text message)).
Proof.
  intros Hle. unfold rateLimit, RateLimit.increment, RateLimit.exceeded. simpl.
  destruct (Nat.ltb_spec max (S (h key))); [reflexivity|lia].
Qed.

Lemma rateLimit_counts (max : nat) (message key : string) (h : RateLimit.Hits)
    (k : string) :
  fst (rateLimit max message key h) k
  = if String.eqb k key then S (h k) else h k.
Proof.
  unfold rateLimit, RateLimit.increment. simpl.
  destruct (String.eqb_spec k key) as [->|_]; reflexivity.
Qed.

(** Both limiters only touch their own table. *)
Lemma through_authLimiter_cases (st : State) (ip : string)
    (next : State -> State * Response) :
  exists st1,
    users st1 = users st /\ sessions st1 = sessions st
    /\ ((authLimiter st ip < 5)%nat /\ through_authLimiter st ip next = next st1
        \/ (5 <= authLimiter st ip)%nat
           /\ through_authLimiter st ip next
              = (st1, mkResponse 429
                   (Text "Too many authentication attempts, please try again later."))).
Proof.
  unfold through_authLimiter.
  destruct (rateLimit 5 _ ip (authLimiter st)) as [h rejected] eqn:E.
  exists (mkState (users st) (sessions st) (limiter st) h (inflight st)).
  split; [reflexivity|]. split; [reflexivity|].
  destruct (Nat.lt_ge_cases (authLimiter st ip) 5) as [Hlt|Hge].
  - left. split; [exact Hlt|].
    pose proof (rateLimit_admits 5
      "Too many authentication attempts, please try again later." ip _ Hlt) as R.
    rewrite E in R. simpl in R. now subst rejected.
  - right. split; [exact Hge|].
    pose proof (rateLimit_rejects 5
      "Too many authentication attempts, please try again later." ip _ Hge) as R.
    rewrite E in R. simpl in R. now subst rejected.
Qed.

Lemma app_cases (st : State) (o : Oracle) (req : Request) :
  exists st1,
    users st1 = users st /\ sessions st1 = sessions st
    /\ authLimiter st1 = authLimiter st
    /\ ((limiter st (ip_of req) < 100)%nat /\ app st o req = route st1 o req
        \/ (100 <= limiter st (ip_of req))%nat
           /\ app st o req
              = (st1, mkResponse 429
                   (Text "Too many requests from this IP, please try again later."))).
Proof.
  unfold app.
  destruct (rateLimit 100 _ (ip_of req) (limiter st)) as [h rejected] eqn:E.
  exists (mkState (users st) (sessions st) h (authLimiter st) (inflight st)).
  repeat (split; [reflexivity|]).
  destruct (Nat.lt_ge_cases (limiter st (ip_of req)) 100) as [Hlt|Hge].
  - left. split; [exact Hlt|].
    pose proof (rateLimit_admits 100
      "Too many requests from this IP, please try again later." _ _ Hlt) as R.
    rewrite E in R. simpl in R. now subst rejected.
  - right. split; [exact Hge|].
    pose proof (rateLimit_rejects 100
      "Too many requests from this IP, please try again later." _ _ Hge) as R.
    rewrite E in R. simpl in R. now subst rejected.
Qed.

(** *** What each handler can do to the two stores *)

Lemma register_cases (st : State) (o : Oracle) (b : RegisterBody)
    (errors : list FieldError) :
  (fst (register st o b errors) = st
   /\ (errors <> [] /\ status (snd (register st o b errors)) = 400
       \/ errors = [] /\ findUserByEmail (r_email b) (users st) <> None
          /\ snd (register st o b errors)
             = mkResponse 409 (Failure "อีเมลนี้มีผู้ใช้แล้ว")
       \/ errors = [] /\ status (snd (register st o b errors)) = 500))
  \/ (errors = [] /\ findUserByEmail (r_email b) (users st) = None
      /\ status (snd (register st o b errors)) = 201
      /\ sessions (fst (register st o b errors)) = sessions st
      /\ exists u, users (fst (register st o b errors)) = (users st ++ [u])%list
                   /\ User.email u = r_email b
                   /\ User.id u = Z.of_nat (List.length (users st)) + 1).
Proof.
  unfold register. destruct errors as [|e errors]; simpl.
  - destruct (findUserByEmail (r_email b) (users st)) eqn:F; simpl.
    + left. split; [reflexivity|]. right. left. repeat split; congruence.
    + destruct (bcrypt_hash (r_password b) (BCRYPT_ROUNDS env) (salt o)); simpl.
      * right. repeat split; auto. eexists. repeat split.
      * left. split; [reflexivity|]. right. right. split; reflexivity.
  - left. split; [reflexivity|]. left. split; [discriminate|reflexivity].
Qed.

Lemma login_cases (st : State) (o : Oracle) (b : LoginBody)
    (errors : list FieldError) :
  (fst (login st o b errors) = st
   /\ (errors <> [] /\ status (snd (login st o b errors)) = 400
       \/ errors = []
          /\ snd (login st o b errors)
             = mkResponse 401 (Failure "อีเมลหรือรหัสผ่านไม่ถูกต้อง")
       \/ errors = [] /\ status (snd (login st o b errors)) = 500))
  \/ (errors = []
      /\ exists user token,
           findUserByEmail (l_email b) (users st) = Some user
           /\ bcrypt_compare (l_password b) (User.password user) = Js.Ok true
           /\ generateToken o (User.id user) = Js.Ok token
           /\ login st o b errors
              = (mkState
                   (Js.update_first (fun u => String.eqb (User.email u) (l_email b))
                                    (User.touch (clock o 2)) (users st))
                   (sessions st
                    ++ [Session.mk (User.id user) token (clock o 3) (clock o 4 + week)])
                   (limiter st) (authLimiter st) (inflight st),
                 mkResponse 200
                   (LoggedIn "เข้าสู่ระบบสำเร็จ" token (userResponse user)))).
Proof.
  unfold login. destruct errors as [|e errors]; simpl.
  - destruct (findUserByEmail (l_email b) (users st)) as [user|] eqn:F; simpl.
    + destruct (bcrypt_compare (l_password b) (User.password user)) as [[|]|] eqn:C;
        simpl.
      * destruct (generateToken o (User.id user)) as [token|] eqn:G; simpl.
        -- right. split; [reflexivity|]. exists user, token. repeat split; auto.
        -- left. split; [reflexivity|]. right. right. split; reflexivity.
      * left. split; [reflexivity|]. right. left. split; reflexivity.
      * left. split; [reflexivity|]. right. right. split; reflexivity.
    + left. split; [reflexivity|]. right. left. split; reflexivity.
  - left. split; [reflexivity|]. left. split; [discriminate|reflexivity].
Qed.

Lemma logout_cases (st : State) (authorization : option string) :
  snd (logout st authorization) = mkResponse 200 (Success "ออกจากระบบสำเร็จ")
  /\ users (fst (logout st authorization)) = users st
  /\ limiter (fst (logout st authorization)) = limiter st
  /\ authLimiter (fst (logout st authorization)) = authLimiter st
  /\ ((Js.truthy_opt (bearer authorization) = false
       \/ exists token, bearer authorization = Some token
                        /\ find (has_token token) (sessions st) = None)
      /\ fst (logout st authorization) = st
      \/ exists token l1 s l2,
           bearer authorization = Some token
           /\ Js.truthy token = true
           /\ find (has_token token) (sessions st) = Some s
           /\ sessions st = (l1 ++ s :: l2)%list
           /\ (forall x, In x l1 -> has_token token x = false)
           /\ sessions (fst (logout st authorization)) = (l1 ++ l2)%list).
Proof.
  unfold logout. simpl. split; [reflexivity|].
  destruct (bearer authorization) as [token|] eqn:Bt; simpl.
  2:{ repeat (split; [reflexivity|]). left. split; auto. }
  destruct (Js.truthy token) eqn:T.
  2:{ repeat (split; [reflexivity|]). left. split; auto. }
  destruct (Z.ltb_spec (-1) (Js.findIndex (has_token token) (sessions st))) as [Hit|Miss].
  - simpl. repeat (split; [reflexivity|]). right.
    destruct (splice_findIndex _ _ Hit) as (l1 & s & l2 & E & Ps & F & N & Sp).
    exists token, l1, s, l2. repeat split; auto.
  - repeat (split; [reflexivity|]). left. split; [|reflexivity]. right.
    exists token. split; [reflexivity|].
    apply findIndex_none. pose proof (findIndex_range (has_token token) (sessions st)). lia.
Qed.

Lemma logout_inflight (st : State) (authorization : option string) :
  inflight (fst (logout st authorization)) = inflight st.
Proof.
  unfold logout. cbn [fst].
  destruct (bearer authorization) as [token|]; [|reflexivity].
  destruct (Js.truthy token); [|reflexivity].
  destruct (_ <? _); reflexivity.
Qed.

Lemma me_status (st : State) (o : Oracle) (authorization : option string) :
  status (me st o authorization) = 200
  \/ status (me st o authorization) = 401
  \/ status (me st o authorization) = 404.
Proof.
  unfold me.
  destruct (bearer authorization) as [token|]; simpl; auto.
  destruct (Js.truthy token); simpl; auto.
  destruct (Jwt.verify token (JWT_SECRET env) (clock o 0)) as [decoded|]; simpl; auto.
  destruct (find (has_token token) (sessions st)) as [session|]; simpl; auto.
  destruct (Session.expiresAt session <? clock o 1); simpl; auto.
  destruct (find _ (users st)); simpl; auto.
Qed.

(** *** One request through the whole pipeline *)

(** The session store after any request: untouched, one record spliced out
    by a logout, or one record pushed by a login. *)
Lemma app_sessions (st : State) (o : Oracle) (req : Request) :
  sessions (fst (app st o req)) = sessions st
  \/ (exists ip authorization token l1 s l2,
        req = Logout ip authorization
        /\ bearer authorization = Some token
        /\ sessions st = (l1 ++ s :: l2)%list
        /\ Session.token s = token
        /\ (forall x, In x l1 -> Session.token x <> token)
        /\ sessions (fst (app st o req)) = (l1 ++ l2)%list)
  \/ (exists ip b user token,
        req = Login ip b
        /\ generateToken o (User.id user) = Js.Ok token
        /\ sessions (fst (app st o req))
           = (sessions st
              ++ [Session.mk (User.id user) token (clock o 3) (clock o 4 + week)])%list).
Proof.
  destruct (app_cases st o req) as (st1 & U & S & AL & [[_ E]|[_ E]]); rewrite E;
    [|left; exact S].
  destruct req as [ip b|ip b|ip a|ip a]; cbv [route].
  - destruct (through_authLimiter_cases st1 ip
      (fun st1 => let (b', errors) := validateRegister b in register st1 o b' errors))
      as (st2 & U2 & S2 & [[_ E2]|[_ E2]]); rewrite E2; [|left; simpl; congruence].
    cbv beta. destruct (validateRegister b) as [b' errors].
    left. destruct (register_cases st2 o b' errors) as [[F _]|(_ & _ & _ & F & _)];
      rewrite F; congruence.
  - destruct (through_authLimiter_cases st1 ip
      (fun st1 => let (b', errors) := validateLogin b in login st1 o b' errors))
      as (st2 & U2 & S2 & [[_ E2]|[_ E2]]); rewrite E2; [|left; simpl; congruence].
    cbv beta. destruct (validateLogin b) as [b' errors].
    destruct (login_cases st2 o b' errors) as [[F _]|(_ & user & token & _ & _ & G & F)].
    + left. rewrite F. congruence.
    + right. right. exists ip, b, user, token. rewrite F. simpl.
      repeat split; auto. congruence.
  - destruct (logout_cases st1 a)
      as (_ & _ & _ & _ & [[_ F]|(token & l1 & s & l2 & Bt & _ & Fs & Es & N & F)]).
    + left. rewrite F. exact S.
    + right. left. exists ip, a, token, l1, s, l2.
      repeat split; auto; try congruence.
      * apply find_some in Fs. destruct Fs as [_ Fs]. now apply String.eqb_eq in Fs.
      * intros x Hx. apply N in Hx. now apply String.eqb_neq in Hx.
  - left. exact S.
Qed.

(** The user store after any request: the same e-mail addresses in the same
    order, with at most one more at the end, pushed by a registration. *)
Lemma app_users (st : State) (o : Oracle) (req : Request) :
  (map User.email (users (fst (app st o req))) = map User.email (users st)
   /\ status (snd (app st o req)) <> 201)
  \/ (exists ip b u,
        req = Register ip b
        /\ status (snd (app st o req)) = 201
        /\ findUserByEmail (normalizeEmail (r_email b)) (users st) = None
        /\ User.email u = normalizeEmail (r_email b)
        /\ users (fst (app st o req)) = (users st ++ [u])%list).
Proof.
  destruct (app_cases st o req) as (st1 & U & S & AL & [[_ E]|[_ E]]); rewrite E;
    [|left; simpl; split; [congruence|discriminate]].
  destruct req as [ip b|ip b|ip a|ip a]; cbv [route].
  - destruct (through_authLimiter_cases st1 ip
      (fun st1 => let (b', errors) := validateRegister b in register st1 o b' errors))
      as (st2 & U2 & S2 & [[_ E2]|[_ E2]]); rewrite E2;
      [|left; simpl; split; [congruence|discriminate]].
    cbv beta. destruct (validateRegister b) as [b' errors] eqn:VE.
    assert (Eb : r_email b' = normalizeEmail (r_email b))
      by (unfold validateRegister in VE; inversion VE; reflexivity).
    destruct (register_cases st2 o b' errors)
      as [[F C]|(_ & Fn & St & _ & u & Fu & Eu & _)].
    + left. rewrite F. split; [congruence|].
      destruct C as [[_ C]|[(_ & _ & C)|[_ C]]]; rewrite C; simpl; discriminate.
    + right. exists ip, b, u. repeat split; auto; congruence.
  - destruct (through_authLimiter_cases st1 ip
      (fun st1 => let (b', errors) := validateLogin b in login st1 o b' errors))
      as (st2 & U2 & S2 & [[_ E2]|[_ E2]]); rewrite E2;
      [|left; simpl; split; [congruence|discriminate]].
    cbv beta. destruct (validateLogin b) as [b' errors].
    left.
    destruct (login_cases st2 o b' errors) as [[F C]|(_ & user & token & _ & _ & _ & F)].
    + rewrite F. split; [congruence|].
      destruct C as [[_ C]|[[_ C]|[_ C]]]; rewrite C; simpl; discriminate.
    + rewrite F. simpl. split; [|discriminate].
      rewrite update_first_map by reflexivity. congruence.
  - destruct (logout_cases st1 a) as (R & Us & _). left. rewrite R, Us.
    split; [congruence|simpl; discriminate].
  - left. simpl. split; [congruence|].
    destruct (me_status st1 o a) as [M|[M|M]]; rewrite M; discriminate.
Qed.

(** *** GET /me without a live session record *)

Lemma me_unauthorized (st : State) (o : Oracle) (authorization : option string) :
  (forall token session,
      bearer authorization = Some token ->
      find (has_token token) (sessions st) = Some session ->
      Session.expiresAt session < clock o 1) ->
  status (me st o authorization) = 401.
Proof.
  intros Gone. unfold me.
  destruct (bearer authorization) as [token|]; simpl; auto.
  destruct (Js.truthy token); simpl; auto.
  destruct (Jwt.verify token (JWT_SECRET env) (clock o 0)) as [decoded|]; simpl; auto.
  destruct (find (has_token token) (sessions st)) as [session|] eqn:F; simpl; auto.
  specialize (Gone token session eq_refl F).
  destruct (Z.ltb_spec (Session.expiresAt session) (clock o 1)); [reflexivity|lia].
Qed.

Lemma filter_all_false {A} (p : A -> bool) (l : list A) :
  (forall y, In y l -> p y = false) -> filter p l = [].
Proof.
  induction l as [|x l IH]; simpl; intros N; [reflexivity|].
  rewrite (N x) by auto. apply IH. intros y Hy. apply N. auto.
Qed.

Lemma find_filter_nil {A} (p : A -> bool) (l : list A) :
  filter p l = [] -> find p l = None.
Proof.
  induction l as [|x l IH]; simpl; [reflexivity|].
  destruct (p x); [discriminate|exact IH].
Qed.

(** If exactly one record matches, none is left once the first match is out. *)
Lemma single_match_removed {A} (p : A -> bool) (l1 l2 : list A) (x : A) :
  (forall y, In y l1 -> p y = false) -> p x = true ->
  List.length (filter p (l1 ++ x :: l2)) = 1%nat ->
  find p (l1 ++ l2) = None.
Proof.
  intros N Px L. rewrite find_app_none by exact N.
  rewrite filter_app, (filter_all_false p l1 N) in L. simpl in L. rewrite Px in L.
  simpl in L. apply find_filter_nil.
  destruct (filter p l2); [reflexivity|discriminate].
Qed.

(** *** Logout *)

(** C10.  Whatever the state and the logout request, the user store stays as
    it is, and the session store either stays as it is or loses exactly the
    first record whose token equals the presented one; all other records,
    later records with the same token included, keep their place. *)
Theorem logout_frame (st : State) (o : Oracle) (ip : string)
    (authorization : option string) :
  let st' := fst (app st o (Logout ip authorization)) in
  users st' = users st
  /\ (sessions st' = sessions st
      \/ exists token l1 s l2,
           bearer authorization = Some token
           /\ sessions st = (l1 ++ s :: l2)%list
           /\ Session.token s = token
           /\ (forall x, In x l1 -> Session.token x <> token)
           /\ sessions st' = (l1 ++ l2)%list).
Proof.
  cbv zeta. split.
  - destruct (app_cases st o (Logout ip authorization))
      as (st1 & U & _ & _ & [[_ E]|[_ E]]); rewrite E; [|exact U].
    cbv [route]. destruct (logout_cases st1 authorization) as (_ & Us & _).
    congruence.
  - destruct (app_sessions st o (Logout ip authorization))
      as [Same|[(ip' & a' & token & l1 & s & l2 & Eq & Bt & Es & Ts & N & F)
               |(ip' & b & user & token & Eq & _)]].
    + left. exact Same.
    + right. injection Eq as <- <-. exists token, l1, s, l2. auto.
    + discriminate.
Qed.

(** C4 (as the code has it).  A logout request that the general limiter of
    [server.js] lets through is answered 200 with [success: true], with or
    without a token and whether or not the token matches a session.  A
    session is removed only when the token matches, and then exactly one.
    A following whoami with that token is answered 401 when no other record
    carried the same token. *)
Theorem logout_fail_open (st : State) (o : Oracle) (ip : string)
    (authorization : option string) :
  (limiter st ip < 100)%nat ->
  let st' := fst (app st o (Logout ip authorization)) in
  snd (app st o (Logout ip authorization))
    = mkResponse 200 (Success "ออกจากระบบสำเร็จ")
  /\ (Js.truthy_opt (bearer authorization) = false -> sessions st' = sessions st)
  /\ (forall token,
        bearer authorization = Some token ->
        find (has_token token) (sessions st) = None ->
        sessions st' = sessions st)
  /\ (forall token s,
        bearer authorization = Some token -> Js.truthy token = true ->
        find (has_token token) (sessions st) = Some s ->
        S (List.length (sessions st')) = List.length (sessions st)
        /\ (List.length (filter (has_token token) (sessions st)) = 1%nat ->
            forall o' ip',
              (limiter st' ip' < 100)%nat ->
              status (snd (app st' o' (Me ip' authorization))) = 401)).
Proof.
  intros Adm. cbv zeta.
  destruct (app_cases st o (Logout ip authorization))
    as (st1 & U & S1 & _ & [[_ E]|[Rej _]]); [|cbv [ip_of] in Rej; lia].
  rewrite E. cbv [route].
  destruct (logout_cases st1 authorization)
    as (R & _ & _ & _ & [[Why F]|(token & l1 & s & l2 & Bt & T & Fs & Es & N & F)]).
  - rewrite R, F, S1. split; [reflexivity|]. split; [reflexivity|].
    split; [reflexivity|]. intros token s Bt T Fs. exfalso.
    destruct Why as [Why|(token' & Bt' & Fn)].
    + rewrite Bt in Why. simpl in Why. congruence.
    + rewrite S1 in Fn. congruence.
  - rewrite R, F. rewrite S1 in Es, Fs. split; [reflexivity|].
    split; [intros Nt; rewrite Bt in Nt; simpl in Nt; congruence|].
    split; [intros token' Bt' Fn; congruence|].
    intros token' s' Bt' T' Fs'.
    assert (token' = token) by congruence. subst token'.
    split; [rewrite Es, !length_app; simpl; lia|].
    intros One o' ip' Adm'.
    destruct (app_cases (fst (logout st1 authorization)) o' (Me ip' authorization))
      as (st2 & _ & S2 & _ & [[_ E2]|[Rej _]]); [|cbv [ip_of] in Rej; lia].
    rewrite E2. cbv [route]. simpl snd. apply me_unauthorized.
    intros tk session Btk Ftk. exfalso.
    assert (tk = token) by congruence. subst tk.
    rewrite S2, F in Ftk.
    rewrite (single_match_removed (has_token token) l1 l2 s) in Ftk;
      [discriminate|exact N| |congruence].
    apply find_some in Fs. tauto.
Qed.

(** *** Register and login behind the two limiters *)

Lemma app_register (st : State) (o : Oracle) (ip : string) (b : RegisterBody) :
  exists st2,
    users st2 = users st /\ sessions st2 = sessions st
    /\ (((100 <= limiter st ip)%nat \/ (5 <= authLimiter st ip)%nat)
        /\ fst (app st o (Register ip b)) = st2
        /\ status (snd (app st o (Register ip b))) = 429
        \/ (limiter st ip < 100)%nat /\ (authLimiter st ip < 5)%nat
           /\ app st o (Register ip b)
              = register st2 o (fst (validateRegister b)) (snd (validateRegister b))).
Proof.
  destruct (app_cases st o (Register ip b)) as (st1 & U & S & AL & [[Adm E]|[Rej E]]);
    rewrite E; cbv [ip_of] in *.
  - cbv [route].
    destruct (through_authLimiter_cases st1 ip
      (fun st1 => let (b', errors) := validateRegister b in register st1 o b' errors))
      as (st2 & U2 & S2 & [[Adm2 E2]|[Rej2 E2]]); rewrite E2; rewrite AL in *;
      exists st2; (split; [congruence|]); (split; [congruence|]).
    + right. repeat split; auto.
    + left. auto.
  - exists st1. repeat split; auto.
Qed.

Lemma app_login (st : State) (o : Oracle) (ip : string) (b : LoginBody) :
  exists st2,
    users st2 = users st /\ sessions st2 = sessions st
    /\ (((100 <= limiter st ip)%nat \/ (5 <= authLimiter st ip)%nat)
        /\ fst (app st o (Login ip b)) = st2
        /\ status (snd (app st o (Login ip b))) = 429
        \/ (limiter st ip < 100)%nat /\ (authLimiter st ip < 5)%nat
           /\ app st o (Login ip b)
              = login st2 o (fst (validateLogin b)) (snd (validateLogin b))).
Proof.
  destruct (app_cases st o (Login ip b)) as (st1 & U & S & AL & [[Adm E]|[Rej E]]);
    rewrite E; cbv [ip_of] in *.
  - cbv [route].
    destruct (through_authLimiter_cases st1 ip
      (fun st1 => let (b', errors) := validateLogin b in login st1 o b' errors))
      as (st2 & U2 & S2 & [[Adm2 E2]|[Rej2 E2]]); rewrite E2; rewrite AL in *;
      exists st2; (split; [congruence|]); (split; [congruence|]).
    + right. repeat split; auto.
    + left. auto.
  - exists st1. repeat split; auto.
Qed.

Lemma app_limited (st : State) (o : Oracle) (req : Request) :
  (100 <= limiter st (ip_of req))%nat ->
  snd (app st o req)
  = mkResponse 429 (Text "Too many requests from this IP, please try again later.").
Proof.
  intros Rej.
  destruct (app_cases st o req) as (st1 & _ & _ & _ & [[Adm _]|[_ E]]); [lia|].
  now rewrite E.
Qed.

Lemma login_limited (st : State) (o : Oracle) (ip : string) (b : LoginBody) :
  (limiter st ip < 100)%nat -> (5 <= authLimiter st ip)%nat ->
  snd (app st o (Login ip b))
  = mkResponse 429
      (Text "Too many authentication attempts, please try again later.").
Proof.
  intros Adm Rej.
  destruct (app_cases st o (Login ip b)) as (st1 & _ & _ & AL & [[_ E]|[R _]]);
    [|cbv [ip_of] in R; lia].
  rewrite E. cbv [route].
  destruct (through_authLimiter_cases st1 ip
    (fun st1 => let (b', errors) := validateLogin b in login st1 o b' errors))
    as (st2 & _ & _ & [[A2 _]|[_ E2]]); [rewrite AL in A2; lia|].
  now rewrite E2.
Qed.

(** A login that reaches the credential check and fails it. *)
Lemma login_bad_credential (st : State) (o : Oracle) (b : LoginBody) :
  findUserByEmail (l_email b) (users st) = None
  \/ (exists user,
        findUserByEmail (l_email b) (users st) = Some user
        /\ bcrypt_compare (l_password b) (User.password user) = Js.Ok false) ->
  login st o b [] = (st, mkResponse 401 (Failure "อีเมลหรือรหัสผ่านไม่ถูกต้อง")).
Proof.
  unfold login. intros [F|(user & F & C)]; rewrite F; simpl; [reflexivity|].
  rewrite C. reflexivity.
Qed.

(** C3.  Take any two login requests that pass the validation chain and
    meet the same rate-limit counters, in any two states: one names an
    e-mail address no user has, the other names a stored user but a password
    that [bcrypt.compare] rejects.  Both get the same response; when the
    limiters let them through it is status 401 with one and the same body. *)
Theorem login_failures_indistinguishable
    (st1 st2 : State) (o1 o2 : Oracle) (ip1 ip2 : string) (b1 b2 : LoginBody) :
  limiter st1 ip1 = limiter st2 ip2 ->
  authLimiter st1 ip1 = authLimiter st2 ip2 ->
  snd (validateLogin b1) = [] ->
  snd (validateLogin b2) = [] ->
  findUserByEmail (normalizeEmail (l_email b1)) (users st1) = None ->
  (exists user,
      findUserByEmail (normalizeEmail (l_email b2)) (users st2) = Some user
      /\ bcrypt_compare (l_password b2) (User.password user) = Js.Ok false) ->
  snd (app st1 o1 (Login ip1 b1)) = snd (app st2 o2 (Login ip2 b2))
  /\ ((limiter st1 ip1 < 100)%nat -> (authLimiter st1 ip1 < 5)%nat ->
      snd (app st1 o1 (Login ip1 b1))
      = mkResponse 401 (Failure "อีเมลหรือรหัสผ่านไม่ถูกต้อง")).
Proof.
  intros SameL SameA V1 V2 Unknown Wrong.
  assert (Adm : (limiter st1 ip1 < 100)%nat -> (authLimiter st1 ip1 < 5)%nat ->
                snd (app st1 o1 (Login ip1 b1))
                = mkResponse 401 (Failure "อีเมลหรือรหัสผ่านไม่ถูกต้อง")
                /\ snd (app st2 o2 (Login ip2 b2))
                   = mkResponse 401 (Failure "อีเมลหรือรหัสผ่านไม่ถูกต้อง")).
  { intros A1 L1.
    destruct (app_login st1 o1 ip1 b1) as (s1 & U1 & _ & [[[R|R] _]|(_ & _ & E1)]);
      try lia.
    destruct (app_login st2 o2 ip2 b2) as (s2 & U2 & _ & [[[R|R] _]|(_ & _ & E2)]);
      try lia.
    rewrite E1, E2, V1, V2.
    rewrite !login_bad_credential; simpl; auto.
    - right. rewrite U2. exact Wrong.
    - left. rewrite U1. exact Unknown. }
  split; [|intros A1 L1; now apply Adm].
  destruct (Nat.lt_ge_cases (limiter st1 ip1) 100) as [A1|R1].
  - destruct (Nat.lt_ge_cases (authLimiter st1 ip1) 5) as [L1|R2].
    + destruct (Adm A1 L1) as [E1 E2]. congruence.
    + rewrite !login_limited by lia. reflexivity.
  - rewrite !app_limited by (cbv [ip_of]; lia). reflexivity.
Qed.

Lemma register_not_created (st : State) (o : Oracle) (ip : string) (b : RegisterBody) :
  status (snd (app st o (Register ip b))) <> 201 ->
  users (fst (app st o (Register ip b))) = users st
  /\ sessions (fst (app st o (Register ip b))) = sessions st.
Proof.
  intros Not.
  destruct (app_register st o ip b) as (s2 & U & S & [(_ & F & _)|(A & L & E)]);
    [split; congruence|].
  rewrite E in *.
  destruct (register_cases s2 o (fst (validateRegister b)) (snd (validateRegister b)))
    as [[F _]|(_ & _ & Created & _)]; [split; congruence|contradiction].
Qed.

Lemma login_not_granted (st : State) (o : Oracle) (ip : string) (b : LoginBody) :
  status (snd (app st o (Login ip b))) <> 200 ->
  users (fst (app st o (Login ip b))) = users st
  /\ sessions (fst (app st o (Login ip b))) = sessions st.
Proof.
  intros Not.
  destruct (app_login st o ip b) as (s2 & U & S & [(_ & F & _)|(A & L & E)]);
    [split; congruence|].
  rewrite E in *.
  destruct (login_cases s2 o (fst (validateLogin b)) (snd (validateLogin b)))
    as [[F _]|(_ & user & token & _ & _ & _ & F)]; [split; congruence|].
  rewrite F in Not. simpl in Not. contradiction.
Qed.

Lemma register_turned_away (st : State) (o : Oracle) (ip : string) (b : RegisterBody) :
  ((100 <= limiter st ip)%nat \/ (5 <= authLimiter st ip)%nat
   \/ snd (validateRegister b) <> []) ->
  status (snd (app st o (Register ip b))) = 429
  \/ status (snd (app st o (Register ip b))) = 400.
Proof.
  intros Why.
  destruct (app_register st o ip b) as (s2 & U & S & [(_ & _ & R)|(A & L & E)]);
    [auto|].
  rewrite E.
  destruct (register_cases s2 o (fst (validateRegister b)) (snd (validateRegister b)))
    as [[_ [[_ C]|[(Nil & _)|[Nil _]]]]|(Nil & _)]; auto;
    destruct Why as [Why|[Why|Why]]; try lia; contradiction.
Qed.

Lemma login_turned_away (st : State) (o : Oracle) (ip : string) (b : LoginBody) :
  ((100 <= limiter st ip)%nat \/ (5 <= authLimiter st ip)%nat
   \/ snd (validateLogin b) <> []) ->
  status (snd (app st o (Login ip b))) = 429
  \/ status (snd (app st o (Login ip b))) = 400.
Proof.
  intros Why.
  destruct (app_login st o ip b) as (s2 & U & S & [(_ & _ & R)|(A & L & E)]);
    [auto|].
  rewrite E.
  destruct (login_cases s2 o (fst (validateLogin b)) (snd (validateLogin b)))
    as [[_ [[_ C]|[(Nil & _)|[Nil _]]]]|(Nil & _)]; auto;
    destruct Why as [Why|[Why|Why]]; try lia; contradiction.
Qed.

Lemma login_refused (st : State) (o : Oracle) (ip : string) (b : LoginBody) :
  (limiter st ip < 100)%nat -> (authLimiter st ip < 5)%nat ->
  snd (validateLogin b) = [] ->
  (findUserByEmail (normalizeEmail (l_email b)) (users st) = None
   \/ exists user,
        findUserByEmail (normalizeEmail (l_email b)) (users st) = Some user
        /\ bcrypt_compare (l_password b) (User.password user) = Js.Ok false) ->
  status (snd (app st o (Login ip b))) = 401.
Proof.
  intros A L Valid Bad.
  destruct (app_login st o ip b) as (s2 & U & S & [[[R|R] _]|(_ & _ & E)]);
    try lia.
  rewrite E, Valid, login_bad_credential; [reflexivity|].
  rewrite U. exact Bad.
Qed.

(** C7.  A register or login request turned away by either rate limiter or
    by the validation chain changes neither the user store (so no
    [lastLogin] either) nor the session store, and is answered 429 or 400.
    The same holds for a login whose e-mail address is unknown or whose
    password [bcrypt.compare] rejects, answered 401.  More generally a
    register request not answered 201 and a login request not answered 200
    leave both stores as they were. *)
Theorem rejected_requests_persist_nothing (st : State) (o : Oracle) (ip : string) :
  (forall b : RegisterBody,
      ((100 <= limiter st ip)%nat \/ (5 <= authLimiter st ip)%nat
       \/ snd (validateRegister b) <> []) ->
      users (fst (app st o (Register ip b))) = users st
      /\ sessions (fst (app st o (Register ip b))) = sessions st
      /\ (status (snd (app st o (Register ip b))) = 429
          \/ status (snd (app st o (Register ip b))) = 400))
  /\ (forall b : LoginBody,
        ((100 <= limiter st ip)%nat \/ (5 <= authLimiter st ip)%nat
         \/ snd (validateLogin b) <> []) ->
        users (fst (app st o (Login ip b))) = users st
        /\ sessions (fst (app st o (Login ip b))) = sessions st
        /\ (status (snd (app st o (Login ip b))) = 429
            \/ status (snd (app st o (Login ip b))) = 400))
  /\ (forall b : LoginBody,
        (limiter st ip < 100)%nat -> (authLimiter st ip < 5)%nat ->
        snd (validateLogin b) = [] ->
        (findUserByEmail (normalizeEmail (l_email b)) (users st) = None
         \/ exists user,
              findUserByEmail (normalizeEmail (l_email b)) (users st) = Some user
              /\ bcrypt_compare (l_password b) (User.password user) = Js.Ok false) ->
        users (fst (app st o (Login ip b))) = users st
        /\ sessions (fst (app st o (Login ip b))) = sessions st
        /\ status (snd (app st o (Login ip b))) = 401)
  /\ (forall b : RegisterBody,
        status (snd (app st o (Register ip b))) <> 201 ->
        users (fst (app st o (Register ip b))) = users st
        /\ sessions (fst (app st o (Register ip b))) = sessions st)
  /\ (forall b : LoginBody,
        status (snd (app st o (Login ip b))) <> 200 ->
        users (fst (app st o (Login ip b))) = users st
        /\ sessions (fst (app st o (Login ip b))) = sessions st).
Proof.
  split; [|split; [|split; [|split]]].
  - intros b Why.
    destruct (register_turned_away st o ip b Why) as [R|R];
      (split; [|split]); auto; apply register_not_created; rewrite R; discriminate.
  - intros b Why.
    destruct (login_turned_away st o ip b Why) as [R|R];
      (split; [|split]); auto; apply login_not_granted; rewrite R; discriminate.
  - intros b A L Valid Bad.
    pose proof (login_refused st o ip b A L Valid Bad) as R.
    (split; [|split]); auto; apply login_not_granted; rewrite R; discriminate.
  - intros b. apply register_not_created.
  - intros b. apply login_not_granted.
Qed.

(** *** Session expiry *)

(** The session check of [GET /me], for a request whose token has a session
    record: with the clock strictly after [expiresAt] the answer is 401;
    with the clock before [expiresAt] or at it, and a token [jwt.verify] has
    accepted, it is the user's profile, or 404 when the user is gone. *)
Lemma me_session_check (st : State) (o : Oracle)
    (authorization : option string) (token : string) (session : Session.t) :
  bearer authorization = Some token ->
  Js.truthy token = true ->
  find (has_token token) (sessions st) = Some session ->
  (Session.expiresAt session < clock o 1 ->
     status (me st o authorization) = 401
     /\ forall decoded,
          Jwt.verify token (JWT_SECRET env) (clock o 0) = Js.Ok decoded ->
          me st o authorization = mkResponse 401 (Failure "Token หมดอายุ"))
  /\ (clock o 1 <= Session.expiresAt session ->
      forall decoded,
        Jwt.verify token (JWT_SECRET env) (clock o 0) = Js.Ok decoded ->
        me st o authorization
        = match find (fun u => User.id u =? Jwt.userId decoded) (users st) with
          | Some user => mkResponse 200 (Profile (profileResponse user))
          | None => mkResponse 404 (Failure "ไม่พบผู้ใช้")
          end).
Proof.
  intros Bt T F. split.
  - intros Late. split.
    + apply me_unauthorized. intros tk s Btk Fs.
      assert (tk = token) by congruence. subst tk. congruence.
    + intros decoded Ok. unfold me. rewrite Bt, T. simpl. rewrite Ok. simpl.
      rewrite F.
      destruct (Z.ltb_spec (Session.expiresAt session) (clock o 1)); [reflexivity|lia].
  - intros Early decoded Ok. unfold me. rewrite Bt, T. simpl. rewrite Ok. simpl.
    rewrite F.
    destruct (Z.ltb_spec (Session.expiresAt session) (clock o 1)); [lia|].
    destruct (find _ (users st)); reflexivity.
Qed.

(** *** E-mail addresses *)

Lemma findUserByEmail_stored (e : string) (us : list User.t) :
  In e (map User.email us) -> findUserByEmail e us <> None.
Proof.
  unfold findUserByEmail. induction us as [|u us IH]; simpl; [tauto|].
  intros [<-|Hin].
  - now rewrite String.eqb_refl.
  - destruct (String.eqb (User.email u) e); [discriminate|auto].
Qed.

Lemma register_duplicate (st : State) (o : Oracle) (b : RegisterBody) :
  findUserByEmail (r_email b) (users st) <> None ->
  register st o b [] = (st, mkResponse 409 (Failure "อีเมลนี้มีผู้ใช้แล้ว")).
Proof.
  unfold register. destruct (findUserByEmail (r_email b) (users st)); [reflexivity|].
  intros Hn. now elim Hn.
Qed.

(** *** Requests that overlap *)

Lemma register_halves (st : State) (o : Oracle) (b : RegisterBody)
    (errors : list FieldError) :
  register st o b errors
  = match register_begin st b errors with
    | Some r => (st, r)
    | None => register_resume st o b
    end.
Proof.
  unfold register, register_begin, register_resume.
  destruct errors; [|reflexivity].
  destruct (findUserByEmail (r_email b) (users st)); reflexivity.
Qed.

Lemma login_halves (st : State) (o : Oracle) (b : LoginBody)
    (errors : list FieldError) :
  login st o b errors
  = match login_begin st b errors with
    | inl r => (st, r)
    | inr user => login_resume st o b user
    end.
Proof.
  unfold login, login_begin, login_resume.
  destruct errors; [|reflexivity].
  destruct (findUserByEmail (l_email b) (users st)); reflexivity.
Qed.

Lemma register_resume_cases (st : State) (o : Oracle) (b : RegisterBody) :
  (fst (register_resume st o b) = st
   /\ status (snd (register_resume st o b)) = 500)
  \/ exists hash,
       bcrypt_hash (r_password b) (BCRYPT_ROUNDS env) (salt o) = Js.Ok hash
       /\ register_resume st o b
          = (set_users
               (users st
                ++ [User.mk (Z.of_nat (List.length (users st)) + 1)
                            (r_fullName b) (r_phone b) (r_email b) hash
                            (r_userType b) false (clock o 0) false None])
               st,
             mkResponse 201
               (Registered "ลงทะเบียนสำเร็จ กรุณายืนยันตัวตนผ่านอีเมล"
                  (mkUserResponse (Z.of_nat (List.length (users st)) + 1)
                                  (r_fullName b) (r_email b) (r_userType b)
                                  false false)
                  (random o))).
Proof.
  unfold register_resume.
  destruct (bcrypt_hash (r_password b) (BCRYPT_ROUNDS env) (salt o)) as [hash|];
    simpl.
  - right. exists hash. split; reflexivity.
  - left. split; reflexivity.
Qed.

Lemma login_resume_cases (st : State) (o : Oracle) (b : LoginBody) (user : User.t) :
  (fst (login_resume st o b user) = st
   /\ (snd (login_resume st o b user)
       = mkResponse 401 (Failure "อีเมลหรือรหัสผ่านไม่ถูกต้อง")
       \/ status (snd (login_resume st o b user)) = 500))
  \/ exists token,
       bcrypt_compare (l_password b) (User.password user) = Js.Ok true
       /\ generateToken o (User.id user) = Js.Ok token
       /\ login_resume st o b user
          = (mkState
               (Js.update_first (fun u => String.eqb (User.email u) (l_email b))
                                (User.touch (clock o 2)) (users st))
               (sessions st
                ++ [Session.mk (User.id user) token (clock o 3) (clock o 4 + week)])
               (limiter st) (authLimiter st) (inflight st),
             mkResponse 200
               (LoggedIn "เข้าสู่ระบบสำเร็จ" token (userResponse user))).
Proof.
  unfold login_resume.
  destruct (bcrypt_compare (l_password b) (User.password user)) as [[|]|] eqn:C;
    simpl.
  - destruct (generateToken o (User.id user)) as [token|] eqn:G; simpl.
    + right. exists token. repeat split; auto.
    + left. split; [reflexivity|]. right. reflexivity.
  - left. split; [reflexivity|]. left. reflexivity.
  - left. split; [reflexivity|]. right. reflexivity.
Qed.

(** What [rateLimit] leaves of the state. *)
Lemma general_limit_cases (st : State) (ip : string) :
  users (fst (general_limit st ip)) = users st
  /\ sessions (fst (general_limit st ip)) = sessions st
  /\ authLimiter (fst (general_limit st ip)) = authLimiter st
  /\ inflight (fst (general_limit st ip)) = inflight st
  /\ ((limiter st ip < 100)%nat /\ snd (general_limit st ip) = None
      \/ (100 <= limiter st ip)%nat
         /\ snd (general_limit st ip)
            = Some (mkResponse 429
                (Text "Too many requests from this IP, please try again later."))).
Proof.
  unfold general_limit.
  pose proof (rateLimit_admits 100
    "Too many requests from this IP, please try again later." ip (limiter st)) as A.
  pose proof (rateLimit_rejects 100
    "Too many requests from this IP, please try again later." ip (limiter st)) as R.
  destruct (rateLimit 100 _ ip (limiter st)) as [h rejected]. simpl in *.
  repeat (split; [reflexivity|]).
  destruct (Nat.lt_ge_cases (limiter st ip) 100); [left|right]; auto.
Qed.

Lemma auth_limit_cases (st : State) (ip : string) :
  users (fst (auth_limit st ip)) = users st
  /\ sessions (fst (auth_limit st ip)) = sessions st
  /\ limiter (fst (auth_limit st ip)) = limiter st
  /\ inflight (fst (auth_limit st ip)) = inflight st
  /\ ((authLimiter st ip < 5)%nat /\ snd (auth_limit st ip) = None
      \/ (5 <= authLimiter st ip)%nat
         /\ snd (auth_limit st ip)
            = Some (mkResponse 429
                (Text "Too many authentication attempts, please try again later."))).
Proof.
  unfold auth_limit.
  pose proof (rateLimit_admits 5
    "Too many authentication attempts, please try again later."
    ip (authLimiter st)) as A.
  pose proof (rateLimit_rejects 5
    "Too many authentication attempts, please try again later."
    ip (authLimiter st)) as R.
  destruct (rateLimit 5 _ ip (authLimiter st)) as [h rejected]. simpl in *.
  repeat (split; [reflexivity|]).
  destruct (Nat.lt_ge_cases (authLimiter st ip) 5); [left|right]; auto.
Qed.

(** [app] written with the limiters on their own. *)
Lemma app_general_limit (st : State) (o : Oracle) (req : Request) :
  app st o req
  = match snd (general_limit st (ip_of req)) with
    | Some r => (fst (general_limit st (ip_of req)), r)
    | None => route (fst (general_limit st (ip_of req))) o req
    end.
Proof.
  unfold app, general_limit.
  destruct (rateLimit 100 _ (ip_of req) (limiter st)) as [h rejected].
  reflexivity.
Qed.

Lemma through_authLimiter_limit (st : State) (ip : string)
    (next : State -> State * Response) :
  through_authLimiter st ip next
  = match snd (auth_limit st ip) with
    | Some r => (fst (auth_limit st ip), r)
    | None => next (fst (auth_limit st ip))
    end.
Proof.
  unfold through_authLimiter, auth_limit.
  destruct (rateLimit 5 _ ip (authLimiter st)) as [h rejected].
  reflexivity.
Qed.



Lemma remove_nth_In {A} (n : nat) (l : list A) (x : A) :
  In x (Js.remove_nth n l) -> In x l.
Proof.
  revert n. induction l as [|y l IH]; intros n; simpl; [now destruct n|].
  destruct n as [|n]; simpl; [auto|]. intros [E|Hin]; eauto.
Qed.



Lemma remove_nth_none {A} (n : nat) (l : list A) :
  nth_error l n = None -> Js.remove_nth n l = l.
Proof.
  revert n. induction l as [|y l IH]; intros n; simpl; [now destruct n|].
  destruct n as [|n]; simpl; [discriminate|]. intros E. now rewrite IH.
Qed.

(** A request that arrives stores no user; it removes a session only by
    logging out; and it leaves a handler parked only after a valid register
    body or after a login whose address was found. *)
Lemma arrive_cases (st : State) (o : Oracle) (req : Request) :
  users (fst (arrive st o req)) = users st
  /\ (sessions (fst (arrive st o req)) = sessions st
      \/ exists ip a l1 s l2,
           req = Logout ip a
           /\ sessions st = (l1 ++ s :: l2)%list
           /\ sessions (fst (arrive st o req)) = (l1 ++ l2)%list)
  /\ (inflight (fst (arrive st o req)) = inflight st
      \/ (exists ip b,
            req = Register ip b
            /\ snd (validateRegister b) = []
            /\ inflight (fst (arrive st o req))
               = (inflight st ++ [Hashing o (fst (validateRegister b))])%list)
      \/ (exists ip b user,
            req = Login ip b
            /\ findUserByEmail (l_email (fst (validateLogin b))) (users st)
               = Some user
            /\ inflight (fst (arrive st o req))
               = (inflight st ++ [Comparing o (fst (validateLogin b)) user])%list)).
Proof.
  unfold arrive.
  destruct (general_limit_cases st (ip_of req)) as (U1 & S1 & _ & I1 & _).
  destruct (general_limit st (ip_of req)) as [st1 rejected]. cbn [fst snd] in *.
  destruct rejected as [r|]; [cbn [fst]; split; [congruence|split; left; congruence]|].
  destruct req as [ip b|ip b|ip a|ip a].
  - destruct (auth_limit_cases st1 ip) as (U2 & S2 & _ & I2 & _).
    destruct (auth_limit st1 ip) as [st2 rejected]. cbn [fst snd] in *.
    destruct rejected as [r|]; [cbn [fst]; split; [congruence|split; left; congruence]|].
    destruct (validateRegister b) as [b' errors] eqn:VE. cbn [fst snd].
    unfold register_begin. destruct errors as [|e errors].
    + destruct (findUserByEmail (r_email b') (users st2));
        cbn [fst park users sessions inflight].
      * split; [congruence|split; left; congruence].
      * split; [congruence|]. split; [left; congruence|]. right. left.
        exists ip, b. rewrite VE. cbn [fst snd]. repeat split; auto. congruence.
    + cbn [fst]. split; [congruence|split; left; congruence].
  - destruct (auth_limit_cases st1 ip) as (U2 & S2 & _ & I2 & _).
    destruct (auth_limit st1 ip) as [st2 rejected]. cbn [fst snd] in *.
    destruct rejected as [r|]; [cbn [fst]; split; [congruence|split; left; congruence]|].
    destruct (validateLogin b) as [b' errors] eqn:VE. cbn [fst snd].
    unfold login_begin. destruct errors as [|e errors].
    + destruct (findUserByEmail (l_email b') (users st2)) as [user|] eqn:F;
        cbn [fst park users sessions inflight].
      * split; [congruence|]. split; [left; congruence|]. right. right.
        exists ip, b, user. rewrite VE. cbn [fst snd]. repeat split; auto; congruence.
      * split; [congruence|split; left; congruence].
    + cbn [fst]. split; [congruence|split; left; congruence].
  - destruct (logout_cases st1 a)
      as (_ & Us & _ & _ & [[_ F]|(token & l1 & s & l2 & _ & _ & _ & Es & _ & F)]).
    + destruct (logout st1 a) as [st2 r]. cbn [fst] in *. subst st2.
      split; [congruence|split; left; congruence].
    + pose proof (logout_inflight st1 a) as I2.
      destruct (logout st1 a) as [st2 r]. cbn [fst] in *.
      split; [congruence|]. split; [|left; congruence].
      right. exists ip, a, l1, s, l2. split; [reflexivity|]. split; congruence.
  - cbn [fst]. split; [congruence|split; left; congruence].
Qed.

Lemma general_limit_counts (st : State) (ip k : string) :
  limiter (fst (general_limit st ip)) k
  = if String.eqb k ip then S (limiter st k) else limiter st k.
Proof.
  unfold general_limit.
  pose proof (rateLimit_counts 100
    "Too many requests from this IP, please try again later." ip (limiter st) k) as C.
  destruct (rateLimit 100 _ ip (limiter st)) as [h rejected]. exact C.
Qed.

Lemma auth_limit_counts (st : State) (ip k : string) :
  authLimiter (fst (auth_limit st ip)) k
  = if String.eqb k ip then S (authLimiter st k) else authLimiter st k.
Proof.
  unfold auth_limit.
  pose proof (rateLimit_counts 5
    "Too many authentication attempts, please try again later."
    ip (authLimiter st) k) as C.
  destruct (rateLimit 5 _ ip (authLimiter st)) as [h rejected]. exact C.
Qed.

(** The limiters count a request when it arrives, as [app] does. *)
Lemma arrive_counts (st : State) (o : Oracle) (req : Request) (k : string) :
  limiter (fst (arrive st o req)) k
  = (if String.eqb k (ip_of req) then S (limiter st k) else limiter st k)
  /\ authLimiter (fst (arrive st o req)) k
     = (if to_auth_route req && (limiter st (ip_of req) <? 100)%nat
           && String.eqb k (ip_of req)
        then S (authLimiter st k) else authLimiter st k).
Proof.
  unfold arrive.
  pose proof (general_limit_counts st (ip_of req) k) as C1.
  destruct (general_limit_cases st (ip_of req)) as (_ & _ & A1 & _ & Adm).
  destruct (general_limit st (ip_of req)) as [st1 rejected]. cbn [fst snd] in *.
  destruct (Nat.ltb_spec (limiter st (ip_of req)) 100) as [Lt|Ge];
    destruct Adm as [[Lt' ->]|[Ge' ->]]; try lia.
  2:{ cbn [fst]. rewrite andb_false_r. cbn [andb]. split; congruence. }
  rewrite andb_true_r.
  destruct req as [ip b|ip b|ip a|ip a]; cbn [to_auth_route ip_of andb] in *.
  - pose proof (auth_limit_counts st1 ip k) as C2.
    destruct (auth_limit_cases st1 ip) as (_ & _ & L2 & _ & _).
    destruct (auth_limit st1 ip) as [st2 rejected]. cbn [fst snd] in *.
    assert (E : limiter st2 k
                = (if String.eqb k ip then S (limiter st k) else limiter st k)
                /\ authLimiter st2 k
                   = (if String.eqb k ip then S (authLimiter st k)
                      else authLimiter st k))
      by (rewrite L2, C1, C2, A1; auto).
    destruct rejected as [r|]; [exact E|].
    destruct (validateRegister b) as [b' errors].
    destruct (register_begin st2 b' errors); exact E.
  - pose proof (auth_limit_counts st1 ip k) as C2.
    destruct (auth_limit_cases st1 ip) as (_ & _ & L2 & _ & _).
    destruct (auth_limit st1 ip) as [st2 rejected]. cbn [fst snd] in *.
    assert (E : limiter st2 k
                = (if String.eqb k ip then S (limiter st k) else limiter st k)
                /\ authLimiter st2 k
                   = (if String.eqb k ip then S (authLimiter st k)
                      else authLimiter st k))
      by (rewrite L2, C1, C2, A1; auto).
    destruct rejected as [r|]; [exact E|].
    destruct (validateLogin b) as [b' errors].
    destruct (login_begin st2 b' errors); exact E.
  - destruct (logout_cases st1 a) as (_ & _ & L & A & _).
    destruct (logout st1 a) as [st2 r]. cbn [fst] in *.
    rewrite L, A, C1, A1. auto.
  - cbn [fst]. rewrite C1, A1. auto.
Qed.

(** A handler that runs on from its [await] leaves the pool of parked
    handlers and both limiters as they are, and with the stores it does one
    of three things: nothing, push a user, or touch a user and push a
    session. *)
Lemma resume_cases (st : State) (n : nat) :
  limiter (fst (resume st n)) = limiter st
  /\ authLimiter (fst (resume st n)) = authLimiter st
  /\ inflight (fst (resume st n)) = Js.remove_nth n (inflight st)
  /\ ((users (fst (resume st n)) = users st
       /\ sessions (fst (resume st n)) = sessions st)
      \/ (exists o b hash,
            nth_error (inflight st) n = Some (Hashing o b)
            /\ sessions (fst (resume st n)) = sessions st
            /\ users (fst (resume st n))
               = (users st
                  ++ [User.mk (Z.of_nat (List.length (users st)) + 1)
                              (r_fullName b) (r_phone b) (r_email b) hash
                              (r_userType b) false (clock o 0) false None])%list)
      \/ (exists o b user token,
            nth_error (inflight st) n = Some (Comparing o b user)
            /\ generateToken o (User.id user) = Js.Ok token
            /\ users (fst (resume st n))
               = Js.update_first (fun u => String.eqb (User.email u) (l_email b))
                                 (User.touch (clock o 2)) (users st)
            /\ sessions (fst (resume st n))
               = (sessions st
                  ++ [Session.mk (User.id user) token (clock o 3)
                                 (clock o 4 + week)])%list)).
Proof.
  unfold resume. destruct (nth_error (inflight st) n) as [t|] eqn:N.
  2:{ cbn [fst]. rewrite (remove_nth_none _ _ N).
      repeat (split; [reflexivity|]). left. auto. }
  destruct t as [o b|o b user]; cbn [settle].
  - destruct (register_resume_cases (unpark n st) o b) as [[F _]|(hash & _ & R)].
    + destruct (register_resume (unpark n st) o b) as [st' r].
      cbn [fst] in *. subst st'. unfold unpark; cbn.
      repeat (split; [reflexivity|]). left. auto.
    + rewrite R. cbn. repeat (split; [reflexivity|]).
      right. left. exists o, b, hash. auto.
  - destruct (login_resume_cases (unpark n st) o b user)
      as [[F _]|(token & _ & G & R)].
    + destruct (login_resume (unpark n st) o b user) as [st' r].
      cbn [fst] in *. subst st'. unfold unpark; cbn.
      repeat (split; [reflexivity|]). left. auto.
    + rewrite R. cbn. repeat (split; [reflexivity|]).
      right. right. exists o, b, user, token. auto.
Qed.

(** A request handled without a break leaves no handler parked. *)
Lemma app_inflight (st : State) (o : Oracle) (req : Request) :
  inflight (fst (app st o req)) = inflight st.
Proof.
  rewrite app_general_limit.
  destruct (general_limit_cases st (ip_of req)) as (_ & _ & _ & I1 & _).
  destruct (general_limit st (ip_of req)) as [st1 rejected]. cbn [fst snd] in *.
  destruct rejected as [r|]; [exact I1|]. rewrite <- I1.
  destruct req as [ip b|ip b|ip a|ip a]; cbv [route].
  - rewrite through_authLimiter_limit.
    destruct (auth_limit_cases st1 ip) as (_ & _ & _ & I2 & _).
    destruct (auth_limit st1 ip) as [st2 rejected]. cbn [fst snd] in *.
    destruct rejected as [r|]; [exact I2|]. rewrite <- I2.
    destruct (validateRegister b) as [b' errors]. rewrite register_halves.
    destruct (register_begin st2 b' errors); [reflexivity|].
    destruct (register_resume_cases st2 o b') as [[F _]|(hash & _ & R)];
      [now rewrite F|now rewrite R].
  - rewrite through_authLimiter_limit.
    destruct (auth_limit_cases st1 ip) as (_ & _ & _ & I2 & _).
    destruct (auth_limit st1 ip) as [st2 rejected]. cbn [fst snd] in *.
    destruct rejected as [r|]; [exact I2|]. rewrite <- I2.
    destruct (validateLogin b) as [b' errors]. rewrite login_halves.
    destruct (login_begin st2 b' errors) as [r|user]; [reflexivity|].
    destruct (login_resume_cases st2 o b' user) as [[F _]|(token & _ & _ & R)];
      [now rewrite F|now rewrite R].
  - apply logout_inflight.
  - reflexivity.
Qed.

(** What one event does to the stored e-mail addresses. *)
Lemma step_users (st : State) (ev : Event) :
  map User.email (users (step st ev)) = map User.email (users st)
  \/ exists u, users (step st ev) = (users st ++ [u])%list.
Proof.
  destruct ev as [o req| | |o ip b|o ip b|n]; cbn [step users]; auto.
  - destruct (app_users st o req) as [[Same _]|(ip & b & u & _ & _ & _ & _ & Push)];
      eauto.
  - destruct (arrive_cases st o (Register ip b)) as (U & _). left. now rewrite U.
  - destruct (arrive_cases st o (Login ip b)) as (U & _). left. now rewrite U.
  - destruct (resume_cases st n)
      as (_ & _ & _ & [[U _]|[(o & b & hash & _ & _ & U)
                             |(o & b & user & token & _ & _ & U & _)]]).
    + left. now rewrite U.
    + eauto.
    + left. rewrite U. now apply update_first_map.
Qed.

(** No event removes or rewrites a stored e-mail address. *)
Lemma step_keeps_emails (st : State) (ev : Event) (e : string) :
  In e (map User.email (users st)) -> In e (map User.email (users (step st ev))).
Proof.
  intros Hin. destruct (step_users st ev) as [Same|[u Push]].
  - now rewrite Same.
  - rewrite Push, map_app. apply in_or_app. now left.
Qed.

Lemma run_keeps_emails (evs : list Event) (st : State) (e : string) :
  In e (map User.email (users st)) -> In e (map User.email (users (run st evs))).
Proof.
  revert st. induction evs as [|ev evs IH]; simpl; intros st Hin; [exact Hin|].
  apply IH. now apply step_keeps_emails.
Qed.

Lemma register_taken (st : State) (o : Oracle) (ip : string) (b : RegisterBody) :
  In (normalizeEmail (r_email b)) (map User.email (users st)) ->
  users (fst (app st o (Register ip b))) = users st
  /\ status (snd (app st o (Register ip b))) <> 201
  /\ ((limiter st ip < 100)%nat -> (authLimiter st ip < 5)%nat ->
      snd (validateRegister b) = [] ->
      snd (app st o (Register ip b))
      = mkResponse 409 (Failure "อีเมลนี้มีผู้ใช้แล้ว")).
Proof.
  intros Taken.
  assert (Not : status (snd (app st o (Register ip b))) <> 201).
  { destruct (app_users st o (Register ip b))
      as [[_ Not]|(ip' & b' & u & Eq & _ & Free & _)]; [exact Not|].
    injection Eq as <- <-. now apply findUserByEmail_stored in Taken. }
  split; [now apply register_not_created|]. split; [exact Not|].
  intros A L Valid.
  destruct (app_register st o ip b) as (s2 & U & S & [[[R|R] _]|(_ & _ & E)]);
    try lia.
  rewrite E, Valid, register_duplicate; [reflexivity|].
  rewrite U. now apply findUserByEmail_stored.
Qed.

(** Handled without a break, in any state, a register request whose
    normalized e-mail address is the stored address of some user creates no
    user and is not answered 201; when it passes both limiters and the validation chain the answer is
    409 with the duplicate-address message.  Hence once a registration has
    succeeded, no later registration with an address of the same normalized
    form succeeds, whatever happened in between; with a [normalizeEmail]
    that ignores letter case this covers addresses that differ only by
    case. *)
Theorem duplicate_email_rejected :
  (forall (st : State) (o : Oracle) (ip : string) (b : RegisterBody) (u : User.t),
      In u (users st) -> User.email u = normalizeEmail (r_email b) ->
      users (fst (app st o (Register ip b))) = users st
      /\ status (snd (app st o (Register ip b))) <> 201
      /\ ((limiter st ip < 100)%nat -> (authLimiter st ip < 5)%nat ->
          snd (validateRegister b) = [] ->
          snd (app st o (Register ip b))
          = mkResponse 409 (Failure "อีเมลนี้มีผู้ใช้แล้ว")))
  /\ (forall (st : State) (o1 o2 : Oracle) (ip1 ip2 : string)
             (b1 b2 : RegisterBody) (evs : list Event),
        status (snd (app st o1 (Register ip1 b1))) = 201 ->
        (normalizeEmail (r_email b2) = normalizeEmail (r_email b1)
         \/ (forall e, normalizeEmail (Js.toLowerCase e) = normalizeEmail e)
            /\ Js.toLowerCase (r_email b2) = Js.toLowerCase (r_email b1)) ->
        let st2 := run (fst (app st o1 (Register ip1 b1))) evs in
        users (fst (app st2 o2 (Register ip2 b2))) = users st2
        /\ status (snd (app st2 o2 (Register ip2 b2))) <> 201
        /\ ((limiter st2 ip2 < 100)%nat -> (authLimiter st2 ip2 < 5)%nat ->
            snd (validateRegister b2) = [] ->
            snd (app st2 o2 (Register ip2 b2))
            = mkResponse 409 (Failure "อีเมลนี้มีผู้ใช้แล้ว"))).
Proof.
  split.
  - intros st o ip b u Hin Eq. apply register_taken.
    rewrite <- Eq. now apply in_map.
  - intros st o1 o2 ip1 ip2 b1 b2 evs Created Same. cbv zeta.
    assert (Eq : normalizeEmail (r_email b2) = normalizeEmail (r_email b1)).
    { destruct Same as [Eq|[Fold Eq]]; [exact Eq|].
      now rewrite <- (Fold (r_email b2)), Eq, Fold. }
    apply register_taken. apply run_keeps_emails.
    destruct (app_users st o1 (Register ip1 b1))
      as [[_ Not]|(ip & b & u & Req & _ & _ & Eu & Push)]; [contradiction|].
    injection Req as <- <-.
    rewrite Push, map_app, Eq, <- Eu. apply in_or_app. right. now left.
Qed.

(** *** Tokens *)

(** What [generateToken] signs, whenever it returns: the user id, the two
    issuance times and an [exp] derived from [JWT_EXPIRES_IN]. *)
Lemma generateToken_payload (o : Oracle) (userId : Z) (token : string) :
  generateToken o userId = Js.Ok token ->
  exists key span millis,
    JWT_SECRET env = Some key /\ Js.truthy key = true
    /\ JWT_EXPIRES_IN env = Some span /\ Js.truthy span = true
    /\ Jwt.ms span = Some millis
    /\ token = Jwt.jws_encode key
                 (Jwt.mkClaims userId (clock o 0) (clock o 1 / 1000)
                               (Some (clock o 1 / 1000 + millis / 1000))).
Proof.
  unfold generateToken, Jwt.sign.
  destruct (JWT_SECRET env) as [key|]; [|discriminate].
  destruct (Js.truthy key) eqn:Tk; [|discriminate].
  destruct (JWT_EXPIRES_IN env) as [span|]; [|discriminate].
  destruct (Js.truthy span) eqn:Ts; [|discriminate].
  destruct (Jwt.ms span) as [millis|] eqn:M; [|discriminate].
  intros [= <-]. exists key, span, millis. auto 10.
Qed.

(** With a signing secret and a readable life span configured,
    [generateToken] returns. *)
Lemma generateToken_returns (o : Oracle) (userId : Z) (key span : string) (millis : Z) :
  JWT_SECRET env = Some key -> Js.truthy key = true ->
  JWT_EXPIRES_IN env = Some span -> Js.truthy span = true ->
  Jwt.ms span = Some millis ->
  generateToken o userId
  = Js.Ok (Jwt.jws_encode key
             (Jwt.mkClaims userId (clock o 0) (clock o 1 / 1000)
                           (Some (clock o 1 / 1000 + millis / 1000)))).
Proof.
  intros Sk Tk Ss Ts M. unfold generateToken, Jwt.sign.
  now rewrite Sk, Tk, Ss, Ts, M.
Qed.

Lemma run_snoc (st : State) (evs : list Event) (ev : Event) :
  run st (evs ++ [ev]) = step (run st evs) ev.
Proof. unfold run. now rewrite fold_left_app. Qed.

Section Codec.

(** Decoding with the signing key gives back what was encoded. *)
Hypothesis jws_roundtrip :
  forall key c, Jwt.jws_decode key (Jwt.jws_encode key c) = Some c.

Lemma verify_own_token (key : string) (c : Jwt.Claims) (secret : option string)
    (now : Z) :
  secret = Some key -> Js.truthy key = true ->
  Jwt.verify (Jwt.jws_encode key c) secret now
  = match Jwt.exp c with
    | Some e => if e <=? now / 1000 then Js.Throw "jwt expired" else Js.Ok c
    | None => Js.Ok c
    end.
Proof.
  intros -> Tk. unfold Jwt.verify. now rewrite Tk, jws_roundtrip.
Qed.

(** C5 (as the code has it).  With a signing secret and a readable
    [JWT_EXPIRES_IN] configured, [generateToken] returns a token for every
    user id.  [jwt.verify] with the same secret accepts that token and
    yields the issued user id for as long as the clock, in whole seconds,
    is before the [exp] written into the payload; from [exp] on it throws. *)
Theorem token_round_trip (o : Oracle) (userId : Z) (key span : string) (millis : Z) :
  JWT_SECRET env = Some key -> Js.truthy key = true ->
  JWT_EXPIRES_IN env = Some span -> Js.truthy span = true ->
  Jwt.ms span = Some millis ->
  exists token,
    generateToken o userId = Js.Ok token
    /\ (forall now,
          now / 1000 < clock o 1 / 1000 + millis / 1000 ->
          exists payload,
            Jwt.verify token (JWT_SECRET env) now = Js.Ok payload
            /\ Jwt.userId payload = userId)
    /\ (forall now,
          clock o 1 / 1000 + millis / 1000 <= now / 1000 ->
          Jwt.verify token (JWT_SECRET env) now = Js.Throw "jwt expired").
Proof.
  intros Sk Tk Ss Ts M. eexists. split; [|split].
  - now apply (generateToken_returns o userId key span millis).
  - intros now Before. rewrite (verify_own_token key _ _ now Sk Tk). simpl.
    destruct (Z.leb_spec (clock o 1 / 1000 + millis / 1000) (now / 1000)); [lia|].
    eexists. split; reflexivity.
  - intros now After. rewrite (verify_own_token key _ _ now Sk Tk). simpl.
    destruct (Z.leb_spec (clock o 1 / 1000 + millis / 1000) (now / 1000));
      [reflexivity|lia].
Qed.

(** C1 (as the code has it).  The payload [generateToken] signs holds the
    user id, the issuance time ([timestamp], and [iat] in seconds) and an
    [exp] equal to [iat] plus [JWT_EXPIRES_IN].  Whoami answers 401 for a
    token past that [exp], whatever the session store holds; and it answers
    401 whenever the session record of the presented token is absent or
    expired, whatever [jwt.verify] says. *)
Theorem token_payload_and_session_gate :
  (forall (o : Oracle) (userId : Z) (token : string),
      generateToken o userId = Js.Ok token ->
      exists key span millis,
        JWT_SECRET env = Some key /\ JWT_EXPIRES_IN env = Some span
        /\ Jwt.ms span = Some millis
        /\ Jwt.jws_decode key token
           = Some (Jwt.mkClaims userId (clock o 0) (clock o 1 / 1000)
                                (Some (clock o 1 / 1000 + millis / 1000)))
        /\ forall (st : State) (o' : Oracle),
             clock o 1 / 1000 + millis / 1000 <= clock o' 0 / 1000 ->
             status (me st o' (Some ("Bearer " ++ token)%string)) = 401)
  /\ (forall (st : State) (o : Oracle) (authorization : option string),
        (forall token session,
            bearer authorization = Some token ->
            find (has_token token) (sessions st) = Some session ->
            Session.expiresAt session < clock o 1) ->
        status (me st o authorization) = 401).
Proof.
  split; [|exact me_unauthorized].
  intros o userId token G.
  destruct (generateToken_payload _ _ _ G)
    as (key & span & millis & Sk & Tk & Ss & _ & M & ->).
  exists key, span, millis. repeat split; auto.
  intros st o' Late. unfold me. rewrite bearer_header.
  destruct (Js.truthy (Jwt.jws_encode key _)); simpl; [|reflexivity].
  rewrite (verify_own_token key _ _ _ Sk Tk). simpl.
  destruct (Z.leb_spec (clock o 1 / 1000 + millis / 1000) (clock o' 0 / 1000));
    [reflexivity|lia].
Qed.

(** C6 (as the code has it).  Whoami with a token [generateToken] issued,
    for which the store holds a session record.  With the clock strictly
    after [expiresAt] the answer is 401.  With the clock strictly before
    [expiresAt], or equal to it, the session check passes; the answer is the
    user's profile (or 404 when the user is gone) as long as the clock, in
    whole seconds, is before the [exp] of the token.  From that [exp] on the
    answer is 401 with the invalid-token body, however far away [expiresAt]
    still is: [jwt.verify] runs first and [exp] is the issuance time plus
    [JWT_EXPIRES_IN], not plus 7 days. *)
Theorem session_expiry_boundary (st : State) (o0 o : Oracle) (userId : Z)
    (token span : string) (millis : Z) (session : Session.t) :
  generateToken o0 userId = Js.Ok token ->
  Js.truthy token = true ->
  JWT_EXPIRES_IN env = Some span -> Jwt.ms span = Some millis ->
  find (has_token token) (sessions st) = Some session ->
  (Session.expiresAt session < clock o 1 ->
   status (me st o (Some ("Bearer " ++ token)%string)) = 401
   /\ (clock o 0 / 1000 < clock o0 1 / 1000 + millis / 1000 ->
       me st o (Some ("Bearer " ++ token)%string)
       = mkResponse 401 (Failure "Token หมดอายุ")))
  /\ (clock o 1 <= Session.expiresAt session ->
      clock o 0 / 1000 < clock o0 1 / 1000 + millis / 1000 ->
      me st o (Some ("Bearer " ++ token)%string)
      = match find (fun u => User.id u =? userId) (users st) with
        | Some user => mkResponse 200 (Profile (profileResponse user))
        | None => mkResponse 404 (Failure "ไม่พบผู้ใช้")
        end)
  /\ (clock o0 1 / 1000 + millis / 1000 <= clock o 0 / 1000 ->
      me st o (Some ("Bearer " ++ token)%string)
      = mkResponse 401 (Failure "Token ไม่ถูกต้อง")).
Proof.
  intros G T Ss M F.
  destruct (generateToken_payload _ _ _ G)
    as (key & span' & millis' & Sk & Tk & Ss' & _ & M' & E).
  assert (millis' = millis) by congruence. subst millis'.
  pose proof (verify_own_token key
    (Jwt.mkClaims userId (clock o0 0) (clock o0 1 / 1000)
                  (Some (clock o0 1 / 1000 + millis / 1000)))
    (JWT_SECRET env) (clock o 0) Sk Tk) as Ver.
  rewrite <- E in Ver. cbn [Jwt.exp] in Ver.
  pose proof (bearer_header token) as Bt.
  split; [|split].
  - intros Late.
    destruct (me_session_check st o _ token session Bt T F) as [Expired _].
    destruct (Expired Late) as [Status Body]. split; [exact Status|].
    intros Fresh. apply (Body (Jwt.mkClaims userId (clock o0 0) (clock o0 1 / 1000)
                                 (Some (clock o0 1 / 1000 + millis / 1000)))).
    rewrite Ver.
    destruct (Z.leb_spec (clock o0 1 / 1000 + millis / 1000) (clock o 0 / 1000));
      [lia|reflexivity].
  - intros Early Fresh.
    destruct (me_session_check st o _ token session Bt T F) as [_ Passes].
    apply (Passes Early (Jwt.mkClaims userId (clock o0 0) (clock o0 1 / 1000)
                           (Some (clock o0 1 / 1000 + millis / 1000)))).
    rewrite Ver.
    destruct (Z.leb_spec (clock o0 1 / 1000 + millis / 1000) (clock o 0 / 1000));
      [lia|reflexivity].
  - intros Stale. unfold me. rewrite Bt, T. cbn [negb]. rewrite Ver.
    destruct (Z.leb_spec (clock o0 1 / 1000 + millis / 1000) (clock o 0 / 1000));
      [reflexivity|lia].
Qed.

End Codec.

(** ** Further properties of the router *)

(** *** How one event changes the two stores *)

Lemma update_first_length {A} (p : A -> bool) (f : A -> A) (l : list A) :
  List.length (Js.update_first p f l) = List.length l.
Proof.
  induction l as [|x l IH]; simpl; [reflexivity|].
  destruct (p x); simpl; congruence.
Qed.

Lemma register_shape (st : State) (o : Oracle) (b : RegisterBody)
    (errors : list FieldError) :
  (fst (register st o b errors) = st
   /\ status (snd (register st o b errors)) <> 201)
  \/ (errors = []
      /\ findUserByEmail (r_email b) (users st) = None
      /\ exists hash,
           bcrypt_hash (r_password b) (BCRYPT_ROUNDS env) (salt o) = Js.Ok hash
           /\ register st o b errors
              = (set_users
                   (users st
                    ++ [User.mk (Z.of_nat (List.length (users st)) + 1)
                                (r_fullName b) (r_phone b) (r_email b) hash
                                (r_userType b) false (clock o 0) false None])
                   st,
                 mkResponse 201
                   (Registered "ลงทะเบียนสำเร็จ กรุณายืนยันตัวตนผ่านอีเมล"
                      (mkUserResponse (Z.of_nat (List.length (users st)) + 1)
                                      (r_fullName b) (r_email b) (r_userType b)
                                      false false)
                      (random o)))).
Proof.
  unfold register. destruct errors as [|e errors]; simpl.
  - destruct (findUserByEmail (r_email b) (users st)) eqn:F; simpl.
    + left. split; [reflexivity|discriminate].
    + destruct (bcrypt_hash (r_password b) (BCRYPT_ROUNDS env) (salt o)) as [hash|];
        simpl.
      * right. repeat split; auto. exists hash. split; reflexivity.
      * left. split; [reflexivity|discriminate].
  - left. split; [reflexivity|discriminate].
Qed.

(** A registration answered 201, seen through the whole pipeline. *)
Lemma app_register_created (st : State) (o : Oracle) (ip : string) (b : RegisterBody) :
  status (snd (app st o (Register ip b))) = 201 ->
  (limiter st ip < 100)%nat /\ (authLimiter st ip < 5)%nat
  /\ snd (validateRegister b) = []
  /\ findUserByEmail (normalizeEmail (r_email b)) (users st) = None
  /\ exists hash,
       bcrypt_hash (r_password b) (BCRYPT_ROUNDS env) (salt o) = Js.Ok hash
       /\ users (fst (app st o (Register ip b)))
          = (users st ++ [newUser st o b hash])%list
       /\ sessions (fst (app st o (Register ip b))) = sessions st
       /\ snd (app st o (Register ip b))
          = mkResponse 201
              (Registered "ลงทะเบียนสำเร็จ กรุณายืนยันตัวตนผ่านอีเมล"
                 (userResponse (newUser st o b hash)) (random o)).
Proof.
  intros Created.
  destruct (app_register st o ip b) as (s2 & U & S & [(_ & _ & R)|(A & L & E)]);
    [rewrite R in Created; discriminate|].
  rewrite E in *.
  destruct (register_shape s2 o (fst (validateRegister b)) (snd (validateRegister b)))
    as [[_ Not]|(Nil & Free & hash & H & R)]; [contradiction|].
  rewrite R. simpl in Free. rewrite U in Free.
  repeat split; auto. exists hash. unfold newUser. simpl. rewrite U, S.
  repeat split; auto.
Qed.

(** A login answered 200, seen through the whole pipeline. *)
Lemma app_login_granted (st : State) (o : Oracle) (ip : string) (b : LoginBody) :
  status (snd (app st o (Login ip b))) = 200 ->
  (limiter st ip < 100)%nat /\ (authLimiter st ip < 5)%nat
  /\ snd (validateLogin b) = []
  /\ exists user token,
       findUserByEmail (normalizeEmail (l_email b)) (users st) = Some user
       /\ bcrypt_compare (l_password b) (User.password user) = Js.Ok true
       /\ generateToken o (User.id user) = Js.Ok token
       /\ users (fst (app st o (Login ip b)))
          = Js.update_first
              (fun u => String.eqb (User.email u) (normalizeEmail (l_email b)))
              (User.touch (clock o 2)) (users st)
       /\ sessions (fst (app st o (Login ip b)))
          = (sessions st
             ++ [Session.mk (User.id user) token (clock o 3) (clock o 4 + week)])%list
       /\ snd (app st o (Login ip b))
          = mkResponse 200
              (LoggedIn "เข้าสู่ระบบสำเร็จ" token (userResponse user)).
Proof.
  intros Granted.
  destruct (app_login st o ip b) as (s2 & U & S & [(_ & _ & R)|(A & L & E)]);
    [rewrite R in Granted; discriminate|].
  rewrite E in *.
  destruct (login_cases s2 o (fst (validateLogin b)) (snd (validateLogin b)))
    as [[_ [[_ C]|[[_ C]|[_ C]]]]|(Nil & user & token & F & C & G & R)];
    try (rewrite C in Granted; discriminate).
  rewrite R. simpl in F. rewrite U in F. simpl. rewrite U, S.
  repeat split; auto. exists user, token. repeat split; auto.
Qed.

(** Every event leaves both stores alone, or splices one session out, or
    pushes one user, or touches one user and pushes one session.  A user is
    pushed by a register request handled without a break, whose address was
    free, or by a parked register handler running on; a session is pushed by
    a login handled without a break or by a parked login handler running
    on. *)
Lemma step_stores (st : State) (ev : Event) :
  (users (step st ev) = users st /\ sessions (step st ev) = sessions st)
  \/ (users (step st ev) = users st
      /\ exists l1 s l2,
           sessions st = (l1 ++ s :: l2)%list
           /\ sessions (step st ev) = (l1 ++ l2)%list)
  \/ (sessions (step st ev) = sessions st
      /\ exists o b hash,
           ((exists ip b0,
                ev = Incoming o (Register ip b0)
                /\ b = fst (validateRegister b0)
                /\ snd (validateRegister b0) = []
                /\ findUserByEmail (r_email b) (users st) = None)
            \/ exists n,
                 ev = Resumes n
                 /\ nth_error (inflight st) n = Some (Hashing o b))
           /\ users (step st ev)
              = (users st
                 ++ [User.mk (Z.of_nat (List.length (users st)) + 1)
                             (r_fullName b) (r_phone b) (r_email b) hash
                             (r_userType b) false (clock o 0) false None])%list)
  \/ (exists o b user token,
        ((exists ip b0,
             ev = Incoming o (Login ip b0)
             /\ b = fst (validateLogin b0)
             /\ findUserByEmail (l_email b) (users st) = Some user)
         \/ exists n,
              ev = Resumes n
              /\ nth_error (inflight st) n = Some (Comparing o b user))
        /\ generateToken o (User.id user) = Js.Ok token
        /\ users (step st ev)
           = Js.update_first (fun u => String.eqb (User.email u) (l_email b))
                             (User.touch (clock o 2)) (users st)
        /\ sessions (step st ev)
           = (sessions st
              ++ [Session.mk (User.id user) token (clock o 3) (clock o 4 + week)])%list).
Proof.
  destruct ev as [o req| | |o ip b|o ip b|n]; cbn [step users sessions]; auto.
  - destruct req as [ip b|ip b|ip a|ip a].
    + destruct (Z.eq_dec (status (snd (app st o (Register ip b)))) 201)
        as [Created|Not].
      * destruct (app_register_created st o ip b Created)
          as (_ & _ & Valid & Free & hash & _ & Us & Ss & _).
        right. right. left. split; [exact Ss|].
        exists o, (fst (validateRegister b)), hash. split; [|exact Us].
        left. exists ip, b. auto.
      * left. now apply register_not_created.
    + destruct (Z.eq_dec (status (snd (app st o (Login ip b)))) 200)
        as [Granted|Not].
      * destruct (app_login_granted st o ip b Granted)
          as (_ & _ & _ & user & token & F & _ & G & Us & Ss & _).
        right. right. right.
        exists o, (fst (validateLogin b)), user, token.
        split; [left; exists ip, b; auto|]. auto.
      * left. now apply login_not_granted.
    + destruct (app_cases st o (Logout ip a)) as (st1 & U & S & _ & [[_ E]|[_ E]]);
        rewrite E; [|left; auto].
      cbv [route].
      destruct (logout_cases st1 a)
        as (_ & Us & _ & _ & [[_ F]|(token & l1 & s & l2 & _ & _ & _ & Es & _ & F)]).
      * left. rewrite F. auto.
      * right. left. split; [congruence|]. exists l1, s, l2. split; congruence.
    + destruct (app_cases st o (Me ip a)) as (st1 & U & S & _ & [[_ E]|[_ E]]);
        rewrite E; left; auto.
  - destruct (arrive_cases st o (Register ip b))
      as (U & [S|(ip' & a & l1 & s & l2 & Req & _)] & _); [left; auto|discriminate].
  - destruct (arrive_cases st o (Login ip b))
      as (U & [S|(ip' & a & l1 & s & l2 & Req & _)] & _); [left; auto|discriminate].
  - destruct (resume_cases st n)
      as (_ & _ & _ & [[U S]|[(o & b & hash & N & S & U)
                             |(o & b & user & token & N & G & U & S)]]).
    + left. auto.
    + right. right. left. split; [exact S|]. exists o, b, hash.
      split; [right; exists n; auto|exact U].
    + right. right. right. exists o, b, user, token.
      split; [right; exists n; auto|]. auto.
Qed.

Lemma step_keeps_ids (st : State) (ev : Event) (i : Z) :
  In i (map User.id (users st)) -> In i (map User.id (users (step st ev))).
Proof.
  intros Hin.
  destruct (step_stores st ev)
    as [[Us _]|[[Us _]|[(_ & o & b & hash & _ & Us)
                      |(o & b & user & token & _ & _ & Us & _)]]];
    rewrite Us; auto.
  - rewrite map_app. apply in_or_app. now left.
  - now rewrite update_first_map by reflexivity.
Qed.

(** *** The parked handlers *)

(** What one event does to the pool of parked handlers. *)
Lemma step_inflight (st : State) (ev : Event) :
  inflight (step st ev) = inflight st
  \/ (exists o ip b,
        ev = RegisterArrives o ip b
        /\ snd (validateRegister b) = []
        /\ inflight (step st ev)
           = (inflight st ++ [Hashing o (fst (validateRegister b))])%list)
  \/ (exists o ip b user,
        ev = LoginArrives o ip b
        /\ findUserByEmail (l_email (fst (validateLogin b))) (users st) = Some user
        /\ inflight (step st ev)
           = (inflight st ++ [Comparing o (fst (validateLogin b)) user])%list)
  \/ exists n,
       ev = Resumes n /\ inflight (step st ev) = Js.remove_nth n (inflight st).
Proof.
  destruct ev as [o req| | |o ip b|o ip b|n]; cbn [step inflight]; auto.
  - left. apply app_inflight.
  - destruct (arrive_cases st o (Register ip b))
      as (_ & _ & [I|[(ip' & b' & Req & Valid & I)|(ip' & b' & user & Req & _)]]).
    + now left.
    + injection Req as <- <-. right. left. exists o, ip, b. auto.
    + discriminate.
  - destruct (arrive_cases st o (Login ip b))
      as (_ & _ & [I|[(ip' & b' & Req & _)|(ip' & b' & user & Req & F & I)]]).
    + now left.
    + discriminate.
    + injection Req as <- <-. right. right. left. exists o, ip, b, user. auto.
  - right. right. right. exists n. split; [reflexivity|].
    now destruct (resume_cases st n) as (_ & _ & I & _).
Qed.

(** A run of requests handled one at a time leaves no handler parked. *)
Lemma sequential_run (evs : list Event) (st : State) :
  one_at_a_time evs -> inflight (run st evs) = inflight st.
Proof.
  revert st. induction evs as [|ev evs IH]; intros st Seq; [reflexivity|].
  inversion Seq as [|x l Ev Seq']; subst. cbn [run fold_left].
  change (fold_left step evs (step st ev)) with (run (step st ev) evs).
  rewrite (IH _ Seq').
  destruct ev as [o req| | |o ip b|o ip b|n]; try contradiction;
    cbn [step inflight]; auto using app_inflight.
Qed.

(** In every state reached from the empty one, a parked register handler
    holds a body that passed validation, and a parked login handler holds a
    stored user. *)
Lemma parked_handlers (evs : list Event) (t : Parked) :
  In t (inflight (run init evs)) ->
  match t with
  | Hashing o b =>
      exists b0, b = fst (validateRegister b0) /\ snd (validateRegister b0) = []
  | Comparing o b user =>
      In (User.id user) (map User.id (users (run init evs)))
  end.
Proof.
  induction evs as [|ev evs IH] using rev_ind; [intros []|].
  rewrite run_snoc. intros Hin.
  assert (Old : In t (inflight (run init evs)) ->
                match t with
                | Hashing o b =>
                    exists b0, b = fst (validateRegister b0)
                               /\ snd (validateRegister b0) = []
                | Comparing o b user =>
                    In (User.id user)
                       (map User.id (users (step (run init evs) ev)))
                end).
  { intros Hold. specialize (IH Hold). destruct t as [o b|o b user]; [exact IH|].
    now apply step_keeps_ids. }
  destruct (step_inflight (run init evs) ev)
    as [I|[(o & ip & b & Ev & Valid & I)|[(o & ip & b & user & Ev & F & I)|(n & Ev & I)]]];
    rewrite I in Hin.
  - now apply Old.
  - apply in_app_or in Hin. destruct Hin as [Hin|[<-|[]]]; [now apply Old|].
    now exists b.
  - apply in_app_or in Hin. destruct Hin as [Hin|[<-|[]]]; [now apply Old|].
    apply step_keeps_ids. apply in_map.
    unfold findUserByEmail in F. now apply find_some in F.
  - apply Old. now apply remove_nth_In in Hin.
Qed.

(** *** The user store in every reachable state *)

Lemma findUserByEmail_missing (e : string) (us : list User.t) :
  findUserByEmail e us = None -> ~ In e (map User.email us).
Proof.
  intros F Hin. now apply (findUserByEmail_stored e us Hin).
Qed.

Lemma NoDup_snoc {A} (l : list A) (x : A) :
  NoDup l -> ~ In x l -> NoDup (l ++ [x]).
Proof.
  intros Nd Nin. apply NoDup_app; auto.
  - constructor; [intros []|constructor].
  - intros y Hy [<-|[]]. contradiction.
Qed.

Lemma update_first_Forall {A} (P : A -> Prop) (p : A -> bool) (f : A -> A)
    (l : list A) :
  (forall x, P x -> P (f x)) -> Forall P l -> Forall P (Js.update_first p f l).
Proof.
  intros Pf All. induction All as [|x l Px All IH]; simpl; [constructor|].
  destruct (p x); constructor; auto.
Qed.

Lemma check_passed (ok : bool) (p v m : string) (rest : list FieldError) :
  (check ok p v m ++ rest)%list = [] -> ok = true /\ rest = [].
Proof.
  destruct ok; simpl; [auto|discriminate].
Qed.

Lemma validateRegister_passed (b : RegisterBody) :
  snd (validateRegister b) = [] ->
  isLength 2 (trim (r_fullName b)) = true
  /\ matches_phone (r_phone b) = true
  /\ isEmail (r_email b) = true
  /\ isLength 8 (r_password b) = true
  /\ In (r_userType b) userTypes.
Proof.
  unfold validateRegister. cbn [snd]. intros E.
  apply check_passed in E. destruct E as [Name E].
  apply check_passed in E. destruct E as [Phone E].
  apply check_passed in E. destruct E as [Mail E].
  apply check_passed in E. destruct E as [Pass E].
  rewrite <- (app_nil_r (check _ _ _ _)) in E.
  apply check_passed in E. destruct E as [Role _].
  repeat split; auto.
  unfold isIn in Role. apply existsb_exists in Role.
  destruct Role as (t & Hin & Eq). apply String.eqb_eq in Eq. now subst t.
Qed.

Lemma NoDup_map_injective {A C} (f : A -> C) (l : list A) :
  (forall x y, f x = f y -> x = y) -> NoDup l -> NoDup (map f l).
Proof.
  intros Inj Nd. induction Nd as [|x l Nin Nd IH]; simpl; constructor; auto.
  intros Hin. apply in_map_iff in Hin. destruct Hin as (y & E & Hy).
  apply Inj in E. now subst y.
Qed.

Lemma ids_in_order (evs : list Event) :
  map User.id (users (run init evs))
  = map Z.of_nat (seq 1 (List.length (users (run init evs))))
  /\ NoDup (map User.id (users (run init evs))).
Proof.
  assert (Ids : map User.id (users (run init evs))
                = map Z.of_nat (seq 1 (List.length (users (run init evs))))).
  { induction evs as [|ev evs IH] using rev_ind; [reflexivity|].
    rewrite run_snoc.
    destruct (step_stores (run init evs) ev)
      as [[Us _]|[[Us _]|[(_ & o & b & hash & _ & Us)
                        |(o & b & user & token & _ & _ & Us & _)]]];
      rewrite Us; auto.
    - rewrite length_app, map_app, Nat.add_comm. simpl List.length.
      rewrite seq_S, map_app, <- IH. simpl. f_equal. f_equal. lia.
    - rewrite update_first_length, update_first_map by reflexivity. exact IH. }
  split; [exact Ids|]. rewrite Ids.
  apply NoDup_map_injective; [|apply seq_NoDup].
  intros x y. apply Nat2Z.inj.
Qed.

(** Users get the ids 1, 2, 3, ... in the order they registered; no event
    changes or reuses an id. *)
Theorem user_ids_sequential (evs : list Event) :
  map User.id (users (run init evs))
  = map Z.of_nat (seq 1 (List.length (users (run init evs))))
  /\ NoDup (map User.id (users (run init evs))).
Proof.
  exact (ids_in_order evs).
Qed.

(** As long as requests are handled one at a time, no two stored users
    have the same e-mail address. *)
Theorem emails_unique (evs : list Event) :
  one_at_a_time evs ->
  NoDup (map User.email (users (run init evs))).
Proof.
  induction evs as [|ev evs IH] using rev_ind; intros Seq; [constructor|].
  apply Forall_app in Seq. destruct Seq as [Seq Last].
  inversion Last as [|x l Ev _]; subst. specialize (IH Seq).
  rewrite run_snoc.
  destruct (step_stores (run init evs) ev)
    as [[Us _]|[[Us _]|[(_ & o & b & hash & From & Us)
                      |(o & b & user & token & _ & _ & Us & _)]]];
    rewrite Us; auto.
  - rewrite map_app. apply NoDup_snoc; [exact IH|].
    destruct From as [(ip & b0 & _ & _ & _ & Free)|(n & -> & _)]; [|contradiction].
    now apply findUserByEmail_missing.
  - now rewrite update_first_map by reflexivity.
Qed.

Lemma registered_users (evs : list Event) :
  Forall as_registered (users (run init evs)).
Proof.
  induction evs as [|ev evs IH] using rev_ind; [constructor|].
  rewrite run_snoc.
  destruct (step_stores (run init evs) ev)
    as [[Us _]|[[Us _]|[(_ & o & b & hash & From & Us)
                      |(o & b & user & token & _ & _ & Us & _)]]];
    rewrite Us; auto.
  - apply Forall_app. split; [exact IH|]. constructor; [|constructor].
    assert (Valid : exists b0, b = fst (validateRegister b0)
                               /\ snd (validateRegister b0) = []).
    { destruct From as [(ip & b0 & _ & Eb & Valid & _)|(n & _ & N)].
      - now exists b0.
      - apply nth_error_In in N. exact (parked_handlers evs _ N). }
    destruct Valid as (b0 & -> & Valid).
    destruct (validateRegister_passed b0 Valid) as (Name & Phone & _ & _ & Role).
    unfold as_registered. simpl. auto.
  - apply update_first_Forall; [|exact IH].
    intros u. unfold as_registered. destruct u. simpl. auto.
Qed.

(** Every stored user is unverified with an incomplete profile, has one of
    the three roles, a phone number of the accepted form and a trimmed name
    of the accepted length: the router never sets [verified] or
    [profileComplete] and stores nothing that failed validation. *)
Theorem stored_users_as_registered (evs : list Event) (u : User.t) :
  In u (users (run init evs)) ->
  User.verified u = false
  /\ User.profileComplete u = false
  /\ In (User.userType u) userTypes
  /\ matches_phone (User.phone u) = true
  /\ isLength 2 (User.fullName u) = true.
Proof.
  intros Hin. pose proof (registered_users evs) as All.
  rewrite Forall_forall in All. exact (All u Hin).
Qed.

(** *** Sessions and their users *)

(** Every stored session was issued to a stored user, and its token encodes
    that user's id under the configured secret. *)
Lemma sessions_issued (evs : list Event) :
  forall s, In s (sessions (run init evs)) ->
    In (Session.userId s) (map User.id (users (run init evs)))
    /\ exists key c,
         JWT_SECRET env = Some key /\ Js.truthy key = true
         /\ Session.token s = Jwt.jws_encode key c
         /\ Jwt.userId c = Session.userId s.
Proof.
  induction evs as [|ev evs IH] using rev_ind; [intros s []|].
  rewrite run_snoc. intros s Hs.
  assert (Old : forall x, In x (sessions (run init evs)) ->
            In (Session.userId x) (map User.id (users (step (run init evs) ev)))
            /\ exists key c,
                 JWT_SECRET env = Some key /\ Js.truthy key = true
                 /\ Session.token x = Jwt.jws_encode key c
                 /\ Jwt.userId c = Session.userId x).
  { intros x Hx. destruct (IH x Hx) as [Owner Tok].
    split; [now apply step_keeps_ids|exact Tok]. }
  destruct (step_stores (run init evs) ev)
    as [[_ Ss]|[[_ (l1 & x & l2 & Es & Ss)]|[(Ss & _)
       |(o & b & user & token & From & G & Us & Ss)]]];
    rewrite Ss in Hs.
  - now apply Old.
  - apply Old. rewrite Es. apply in_app_or in Hs. apply in_or_app.
    destruct Hs; [now left|right; now right].
  - now apply Old.
  - apply in_app_or in Hs. destruct Hs as [Hs|[<-|[]]]; [now apply Old|].
    simpl. split.
    + rewrite Us, update_first_map by reflexivity.
      destruct From as [(ip & b0 & _ & _ & F)|(n & _ & N)].
      * apply in_map. unfold findUserByEmail in F. now apply find_some in F.
      * apply nth_error_In in N. exact (parked_handlers evs _ N).
    + destruct (generateToken_payload _ _ _ G)
        as (key & span & millis & Sk & Tk & _ & _ & _ & ->).
      exists key. eexists. repeat split; eauto.
Qed.

(** In every reachable state each session record names the id of a stored
    user: users are never removed and sessions are only opened by a login
    of a stored user. *)
Theorem sessions_belong_to_users (evs : list Event) :
  Forall (fun s => exists u, In u (users (run init evs))
                             /\ User.id u = Session.userId s)
         (sessions (run init evs)).
Proof.
  apply Forall_forall. intros s Hs.
  destruct (sessions_issued evs s Hs) as [Owner _].
  apply in_map_iff in Owner. destruct Owner as (u & E & Hu). now exists u.
Qed.

Lemma find_by_id_stored (i : Z) (us : list User.t) :
  In i (map User.id us) -> find (fun u => User.id u =? i) us <> None.
Proof.
  induction us as [|u us IH]; simpl; [tauto|].
  intros [<-|Hin].
  - now rewrite Z.eqb_refl.
  - destruct (User.id u =? i); [discriminate|auto].
Qed.

(** [GET /me] looks at the two arrays only. *)
Lemma me_stores (st1 st2 : State) (o : Oracle) (authorization : option string) :
  users st1 = users st2 -> sessions st1 = sessions st2 ->
  me st1 o authorization = me st2 o authorization.
Proof.
  intros U S. unfold me. now rewrite U, S.
Qed.

Section Issued.

Hypothesis jws_roundtrip :
  forall key c, Jwt.jws_decode key (Jwt.jws_encode key c) = Some c.

(** What [jwt.verify] returns for the token of a stored session. *)
Lemma verify_stored_token (evs : list Event) (s : Session.t) (now : Z)
    (decoded : Jwt.Claims) :
  In s (sessions (run init evs)) ->
  Jwt.verify (Session.token s) (JWT_SECRET env) now = Js.Ok decoded ->
  Jwt.userId decoded = Session.userId s.
Proof.
  intros Hs Ver.
  destruct (sessions_issued evs s Hs) as (_ & key & c & Sk & Tk & Tok & Uid).
  rewrite Tok, (verify_own_token jws_roundtrip key c _ now Sk Tk) in Ver.
  destruct (Jwt.exp c) as [e|].
  - destruct (e <=? now / 1000); [discriminate|]. congruence.
  - congruence.
Qed.

(** In a reachable state whoami is never answered 404: the user a stored
    session points to is always found. *)
Theorem whoami_never_404 (evs : list Event) (o : Oracle) (ip : string)
    (authorization : option string) :
  status (me (run init evs) o authorization) <> 404
  /\ status (snd (app (run init evs) o (Me ip authorization))) <> 404.
Proof.
  assert (Handler : status (me (run init evs) o authorization) <> 404).
  { unfold me.
    destruct (bearer authorization) as [token|]; simpl; [|discriminate].
    destruct (Js.truthy token); simpl; [|discriminate].
    destruct (Jwt.verify token (JWT_SECRET env) (clock o 0)) as [decoded|] eqn:Ver;
      simpl; [|discriminate].
    destruct (find (has_token token) (sessions (run init evs))) as [session|] eqn:F;
      simpl; [|discriminate].
    destruct (Session.expiresAt session <? clock o 1); simpl; [discriminate|].
    apply find_some in F. destruct F as [Hs Tok]. apply String.eqb_eq in Tok.
    rewrite <- Tok in Ver.
    pose proof (verify_stored_token evs session _ decoded Hs Ver) as Uid.
    destruct (sessions_issued evs session Hs) as [Owner _]. rewrite <- Uid in Owner.
    apply find_by_id_stored in Owner.
    destruct (find _ (users (run init evs))); [discriminate|contradiction]. }
  split; [exact Handler|].
  destruct (app_cases (run init evs) o (Me ip authorization))
    as (st1 & U & S & _ & [[_ E]|[_ E]]); rewrite E; [|discriminate].
  cbv [route]. simpl snd. now rewrite (me_stores st1 (run init evs)).
Qed.

Lemma find_touched (e : string) (t : Z) (user : User.t) (us : list User.t) :
  NoDup (map User.id us) ->
  findUserByEmail e us = Some user ->
  find (fun u => User.id u =? User.id user)
       (Js.update_first (fun u => String.eqb (User.email u) e) (User.touch t) us)
  = Some (User.touch t user).
Proof.
  unfold findUserByEmail. induction us as [|x us IH]; simpl; [discriminate|].
  intros Nd F. inversion Nd as [|y l Nin Nd']; subst.
  destruct (String.eqb (User.email x) e) eqn:Ex.
  - injection F as <-. simpl. now rewrite Z.eqb_refl.
  - simpl. destruct (Z.eqb_spec (User.id x) (User.id user)) as [Same|_].
    + exfalso. apply Nin. rewrite Same. apply in_map. now apply find_some in F.
    + now apply IH.
Qed.

Lemma find_pushed {A} (p : A -> bool) (l : list A) (x : A) :
  find p l = None -> p x = true -> find p (l ++ [x]) = Some x.
Proof.
  intros Fn Px. rewrite find_app_none.
  - simpl. now rewrite Px.
  - intros y Hy. now apply (find_none p l Fn).
Qed.

Lemma find_token_absent (token : string) (ss : list Session.t) :
  ~ In token (map Session.token ss) -> find (has_token token) ss = None.
Proof.
  intros Nin. destruct (find (has_token token) ss) as [s|] eqn:F; [|reflexivity].
  apply find_some in F. destruct F as [Hs Tok]. apply String.eqb_eq in Tok.
  exfalso. apply Nin. rewrite <- Tok. now apply in_map.
Qed.

(** Login, then whoami: in a reachable state, the token a login returns
    (stored by no earlier session) presented as [Bearer <token>] gets the
    profile of the very user of the login response, with [lastLogin] at the
    login's clock reading, as long as [jwt.verify] accepts the token, the
    session has not expired and the general limiter lets the request in. *)
Theorem login_then_whoami (evs : list Event) (o o' : Oracle) (ip ip' : string)
    (b : LoginBody) (message token : string) (user : UserResponse)
    (decoded : Jwt.Claims) :
  snd (app (run init evs) o (Login ip b))
    = mkResponse 200 (LoggedIn message token user) ->
  ~ In token (tokens (run init evs)) ->
  Js.truthy token = true ->
  Jwt.verify token (JWT_SECRET env) (clock o' 0) = Js.Ok decoded ->
  clock o' 1 <= clock o 4 + week ->
  (limiter (fst (app (run init evs) o (Login ip b))) ip' < 100)%nat ->
  exists profile,
    snd (app (fst (app (run init evs) o (Login ip b))) o'
             (Me ip' (Some ("Bearer " ++ token)%string)))
    = mkResponse 200 (Profile profile)
    /\ p_id profile = u_id user
    /\ p_email profile = u_email user
    /\ p_fullName profile = u_fullName user
    /\ p_userType profile = u_userType user
    /\ p_lastLogin profile = Some (clock o 2).
Proof.
  intros Resp Fresh Truthy Ver Alive Adm.
  assert (Granted : status (snd (app (run init evs) o (Login ip b))) = 200)
    by now rewrite Resp.
  destruct (app_login_granted _ o ip b Granted)
    as (_ & _ & _ & u & tk & F & _ & G & Us & Ss & R).
  rewrite R in Resp. injection Resp as _ <- <-.
  destruct (generateToken_payload _ _ _ G)
    as (key & span & millis & Sk & Tk & _ & _ & _ & Etk).
  assert (Uid : Jwt.userId decoded = User.id u).
  { rewrite Etk, (verify_own_token jws_roundtrip key _ _ _ Sk Tk) in Ver.
    simpl in Ver.
    destruct (_ <=? _) in Ver; [discriminate|]. injection Ver as <-. reflexivity. }
  exists (profileResponse (User.touch (clock o 2) u)).
  split; [|destruct u; simpl; auto 6].
  destruct (app_cases (fst (app (run init evs) o (Login ip b))) o'
                      (Me ip' (Some ("Bearer " ++ tk)%string)))
    as (st1 & U1 & S1 & _ & [[_ E]|[Rej _]]); [|cbv [ip_of] in Rej; lia].
  rewrite E. cbv [route]. cbn [snd].
  unfold me. rewrite bearer_header, Truthy. simpl. rewrite Ver. simpl.
  rewrite S1, Ss, (find_pushed _ _ _ (find_token_absent _ _ Fresh))
    by (simpl; apply String.eqb_refl).
  simpl Session.expiresAt.
  destruct (Z.ltb_spec (clock o 4 + week) (clock o' 1)); [lia|].
  rewrite U1, Us, Uid.
  rewrite (find_touched _ _ u) by (auto; apply ids_in_order).
  reflexivity.
Qed.

End Issued.

(** *** Accounts over time *)

Lemma touch_touch (t t' : Z) (u : User.t) :
  User.touch t (User.touch t' u) = User.touch t u.
Proof. now destruct u. Qed.

Lemma find_app_found {A} (p : A -> bool) (l1 l2 : list A) (x : A) :
  find p l1 = Some x -> find p (l1 ++ l2) = Some x.
Proof.
  induction l1 as [|y l1 IH]; simpl; [discriminate|].
  destruct (p y); auto.
Qed.

Lemma find_update_first (e e' : string) (t : Z) (u : User.t) (us : list User.t) :
  findUserByEmail e us = Some u ->
  exists u',
    findUserByEmail e
      (Js.update_first (fun x => String.eqb (User.email x) e') (User.touch t) us)
    = Some u'
    /\ User.touch 0 u' = User.touch 0 u.
Proof.
  unfold findUserByEmail. induction us as [|x us IH]; simpl; [discriminate|].
  intros F. destruct (String.eqb (User.email x) e') eqn:Ex'; simpl.
  - destruct (String.eqb (User.email x) e) eqn:Ex.
    + injection F as <-. exists (User.touch t x). split; [reflexivity|].
      apply touch_touch.
    + exists u. auto.
  - destruct (String.eqb (User.email x) e) eqn:Ex.
    + exists x. split; [reflexivity|congruence].
    + auto.
Qed.

(** An account, once found under an address, stays found under it, the same
    in everything but [lastLogin]. *)
Lemma run_keeps_account (evs : list Event) (st : State) (e : string) (u : User.t) :
  findUserByEmail e (users st) = Some u ->
  exists u',
    findUserByEmail e (users (run st evs)) = Some u'
    /\ User.touch 0 u' = User.touch 0 u.
Proof.
  revert st u. induction evs as [|ev evs IH]; intros st u F; simpl.
  - exists u. auto.
  - assert (Next : exists u1, findUserByEmail e (users (step st ev)) = Some u1
                             /\ User.touch 0 u1 = User.touch 0 u).
    { destruct (step_stores st ev)
        as [[Us _]|[[Us _]|[(_ & o & b & hash & _ & Us)
                          |(o & b & user & token & _ & _ & Us & _)]]];
        rewrite Us.
      - exists u. auto.
      - exists u. auto.
      - exists u. split; [|reflexivity]. now apply find_app_found.
      - now apply find_update_first. }
    destruct Next as (u1 & F1 & E1).
    destruct (IH (step st ev) u1 F1) as (u' & F' & E').
    exists u'. split; [exact F'|congruence].
Qed.

(** The [user] object a parked login handler holds is still what
    [findUserByEmail] finds under its address when the handler runs on, up
    to [lastLogin]: assigning [user.lastLogin] and touching the first record
    with that address are the same thing. *)
Lemma parked_login_account (evs : list Event) (o : Oracle) (b : LoginBody)
    (user : User.t) :
  In (Comparing o b user) (inflight (run init evs)) ->
  exists u,
    findUserByEmail (l_email b) (users (run init evs)) = Some u
    /\ User.touch 0 u = User.touch 0 user.
Proof.
  induction evs as [|ev evs IH] using rev_ind; [intros []|].
  rewrite run_snoc. intros Hin.
  assert (Old : In (Comparing o b user) (inflight (run init evs)) ->
                exists u,
                  findUserByEmail (l_email b) (users (step (run init evs) ev))
                  = Some u
                  /\ User.touch 0 u = User.touch 0 user).
  { intros Hold. destruct (IH Hold) as (u & F & E).
    destruct (run_keeps_account [ev] _ _ _ F) as (u' & F' & E').
    exists u'. split; [exact F'|congruence]. }
  destruct (step_inflight (run init evs) ev)
    as [I|[(o' & ip & b' & Ev & _ & I)|[(o' & ip & b' & user' & Ev & F & I)|(n & Ev & I)]]];
    rewrite I in Hin.
  - now apply Old.
  - apply in_app_or in Hin. destruct Hin as [Hin|[Eq|[]]]; [now apply Old|].
    discriminate.
  - apply in_app_or in Hin. destruct Hin as [Hin|[Eq|[]]]; [now apply Old|].
    injection Eq as <- <- <-. subst ev. cbn [step].
    destruct (arrive_cases (run init evs) o' (Login ip b')) as (U & _).
    rewrite U. exists user'. auto.
  - apply Old. now apply remove_nth_In in Hin.
Qed.

Lemma login_succeeds (st : State) (o : Oracle) (b : LoginBody) (user : User.t)
    (token : string) :
  findUserByEmail (l_email b) (users st) = Some user ->
  bcrypt_compare (l_password b) (User.password user) = Js.Ok true ->
  generateToken o (User.id user) = Js.Ok token ->
  snd (login st o b [])
  = mkResponse 200 (LoggedIn "เข้าสู่ระบบสำเร็จ" token (userResponse user)).
Proof.
  intros F C G. unfold login. rewrite F. simpl. rewrite C. simpl. rewrite G.
  reflexivity.
Qed.

(** A login for a stored account whose password [bcrypt.compare] accepts
    is answered 200 with that account, in every later state. *)
Lemma login_of_stored (st : State) (u : User.t) (evs : list Event) (o : Oracle)
    (ip : string) (lb : LoginBody) (key span : string) (millis : Z) :
  findUserByEmail (normalizeEmail (l_email lb)) (users st) = Some u ->
  bcrypt_compare (l_password lb) (User.password u) = Js.Ok true ->
  JWT_SECRET env = Some key -> Js.truthy key = true ->
  JWT_EXPIRES_IN env = Some span -> Js.truthy span = true ->
  Jwt.ms span = Some millis ->
  snd (validateLogin lb) = [] ->
  (limiter (run st evs) ip < 100)%nat ->
  (authLimiter (run st evs) ip < 5)%nat ->
  exists token,
    snd (app (run st evs) o (Login ip lb))
    = mkResponse 200 (LoggedIn "เข้าสู่ระบบสำเร็จ" token (userResponse u)).
Proof.
  intros F Accepts Sk Tk Ss Ts M Valid Adm AdmAuth.
  destruct (run_keeps_account evs _ _ _ F) as (u' & F' & Same).
  destruct (app_login (run st evs) o ip lb)
    as (s2 & U2 & _ & [[[R|R] _]|(_ & _ & E)]); try lia.
  rewrite E, Valid.
  assert (Fields : userResponse u' = userResponse u
                   /\ User.password u' = User.password u).
  { destruct u', u. simpl in *. injection Same as -> -> -> -> -> -> -> -> ->.
    auto. }
  destruct Fields as (Resp & Pw).
  pose proof (generateToken_returns o (User.id u') key span millis Sk Tk Ss Ts M)
    as G.
  eexists. erewrite (login_succeeds s2 o _ u'); [| | |exact G].
  - rewrite Resp. reflexivity.
  - simpl. rewrite U2. exact F'.
  - simpl. rewrite Pw. exact Accepts.
Qed.

(** Register, then log in.  A registration answered 201 whose address was
    not stored at the moment its record was pushed can log in: a login with
    the same password and an address of the same normalized form is answered
    200 for the registered user in every later state, however the requests
    in between overlap, provided the limiters let it in, its body passes
    validation, [bcrypt.compare] accepts the password against the hash
    [bcrypt.hash] gave at registration and the token configuration is in
    place.  The address is free at that moment whenever the registration was
    handled without a break; for a handler that waited for [bcrypt.hash] it
    is a condition, since a registration that overlapped it may have pushed
    the address first. *)
Theorem register_then_login (o1 o2 : Oracle) (ip2 : string) (lb : LoginBody)
    (evs : list Event) (key span : string) (millis : Z) :
  JWT_SECRET env = Some key -> Js.truthy key = true ->
  JWT_EXPIRES_IN env = Some span -> Js.truthy span = true ->
  Jwt.ms span = Some millis ->
  snd (validateLogin lb) = [] ->
  (forall (st : State) (ip1 : string) (rb : RegisterBody),
      status (snd (app st o1 (Register ip1 rb))) = 201 ->
      normalizeEmail (l_email lb) = normalizeEmail (r_email rb) ->
      l_password lb = r_password rb ->
      (forall hash,
          bcrypt_hash (r_password rb) (BCRYPT_ROUNDS env) (salt o1) = Js.Ok hash ->
          bcrypt_compare (r_password rb) hash = Js.Ok true) ->
      (limiter (run (fst (app st o1 (Register ip1 rb))) evs) ip2 < 100)%nat ->
      (authLimiter (run (fst (app st o1 (Register ip1 rb))) evs) ip2 < 5)%nat ->
      exists token,
        snd (app (run (fst (app st o1 (Register ip1 rb))) evs) o2 (Login ip2 lb))
        = mkResponse 200
            (LoggedIn "เข้าสู่ระบบสำเร็จ" token
               (mkUserResponse (Z.of_nat (List.length (users st)) + 1)
                               (trim (r_fullName rb)) (normalizeEmail (r_email rb))
                               (r_userType rb) false false)))
  /\ (forall (st : State) (n : nat) (b : RegisterBody) (r : Response),
        nth_error (inflight st) n = Some (Hashing o1 b) ->
        snd (resume st n) = Some r -> status r = 201 ->
        findUserByEmail (r_email b) (users st) = None ->
        normalizeEmail (l_email lb) = r_email b ->
        l_password lb = r_password b ->
        (forall hash,
            bcrypt_hash (r_password b) (BCRYPT_ROUNDS env) (salt o1) = Js.Ok hash ->
            bcrypt_compare (r_password b) hash = Js.Ok true) ->
        (limiter (run (fst (resume st n)) evs) ip2 < 100)%nat ->
        (authLimiter (run (fst (resume st n)) evs) ip2 < 5)%nat ->
        exists token,
          snd (app (run (fst (resume st n)) evs) o2 (Login ip2 lb))
          = mkResponse 200
              (LoggedIn "เข้าสู่ระบบสำเร็จ" token
                 (mkUserResponse (Z.of_nat (List.length (users st)) + 1)
                                 (r_fullName b) (r_email b) (r_userType b)
                                 false false))).
Proof.
  intros Sk Tk Ss Ts M Valid. split.
  - intros st ip1 rb Created Mail Pass Accepts Adm AdmAuth.
    destruct (app_register_created st o1 ip1 rb Created)
      as (_ & _ & _ & Free & hash & H & Us & _ & _).
    assert (F : findUserByEmail (normalizeEmail (l_email lb))
                  (users (fst (app st o1 (Register ip1 rb))))
                = Some (newUser st o1 rb hash)).
    { rewrite Us, Mail. unfold findUserByEmail in *.
      apply find_pushed; [exact Free|]. simpl. apply String.eqb_refl. }
    apply (login_of_stored _ _ evs o2 ip2 lb key span millis F); auto.
    simpl. rewrite Pass. now apply Accepts.
  - intros st n b r N Resp Created Free Mail Pass Accepts Adm AdmAuth.
    assert (Pushed : exists hash,
               bcrypt_hash (r_password b) (BCRYPT_ROUNDS env) (salt o1)
               = Js.Ok hash
               /\ users (fst (resume st n))
                  = (users st
                     ++ [User.mk (Z.of_nat (List.length (users st)) + 1)
                                 (r_fullName b) (r_phone b) (r_email b) hash
                                 (r_userType b) false (clock o1 0) false None])%list).
    { unfold resume in *. rewrite N in *. cbn [settle] in *.
      destruct (register_resume_cases (unpark n st) o1 b)
        as [[_ Failed]|(hash & H & R)].
      - destruct (register_resume (unpark n st) o1 b) as [st' r'].
        cbn [snd] in *. injection Resp as <-. congruence.
      - rewrite R. exists hash. split; [exact H|reflexivity]. }
    destruct Pushed as (hash & H & Us).
    assert (F : findUserByEmail (normalizeEmail (l_email lb))
                  (users (fst (resume st n)))
                = Some (User.mk (Z.of_nat (List.length (users st)) + 1)
                                (r_fullName b) (r_phone b) (r_email b) hash
                                (r_userType b) false (clock o1 0) false None)).
    { rewrite Us, Mail. unfold findUserByEmail in *.
      apply find_pushed; [exact Free|]. simpl. apply String.eqb_refl. }
    apply (login_of_stored _ _ evs o2 ip2 lb key span millis F); auto.
    simpl. rewrite Pass. now apply Accepts.
Qed.

Lemma update_first_split {A} (p : A -> bool) (f : A -> A) (l : list A) (x : A) :
  find p l = Some x ->
  exists l1 l2,
    l = (l1 ++ x :: l2)%list
    /\ (forall y, In y l1 -> p y = false)
    /\ p x = true
    /\ Js.update_first p f l = (l1 ++ f x :: l2)%list.
Proof.
  induction l as [|y l IH]; simpl; [discriminate|].
  destruct (p y) eqn:Py.
  - intros E. injection E as <-. exists [], l. simpl. repeat split; auto.
    intros z [].
  - intros F. destruct (IH F) as (l1 & l2 & E & Before & Px & U).
    exists (y :: l1), l2. simpl. rewrite E at 1. rewrite U.
    repeat split; auto. intros z [<-|Hz]; auto.
Qed.

(** A login answered 200 changes the user store in one place only: the
    first record stored under the address gets the clock reading as its
    [lastLogin], and every other record, before and after it, stays as it
    is; it is that record's user the answer describes.  And the login
    appends exactly one session, for that user, with the returned token,
    created at the next clock reading and expiring 7 days after the one
    that follows. *)
Theorem login_granted_frame (st : State) (o : Oracle) (ip : string) (b : LoginBody)
    (message token : string) (user : UserResponse) :
  snd (app st o (Login ip b)) = mkResponse 200 (LoggedIn message token user) ->
  exists l1 u l2,
    users st = (l1 ++ u :: l2)%list
    /\ (forall x, In x l1 -> User.email x <> normalizeEmail (l_email b))
    /\ User.email u = normalizeEmail (l_email b)
    /\ userResponse u = user
    /\ users (fst (app st o (Login ip b)))
       = (l1 ++ User.touch (clock o 2) u :: l2)%list
    /\ sessions (fst (app st o (Login ip b)))
       = (sessions st
          ++ [Session.mk (User.id u) token (clock o 3) (clock o 4 + week)])%list.
Proof.
  intros Resp.
  assert (Granted : status (snd (app st o (Login ip b))) = 200) by now rewrite Resp.
  destruct (app_login_granted st o ip b Granted)
    as (_ & _ & _ & u & tk & F & _ & _ & Us & Ss & R).
  rewrite R in Resp. injection Resp as _ <- <-.
  destruct (update_first_split _ (User.touch (clock o 2)) _ _ F)
    as (l1 & l2 & E & Before & Pu & U).
  exists l1, u, l2. rewrite Us, Ss, U.
  repeat split; auto.
  - intros x Hx Eq. apply Before in Hx. apply String.eqb_neq in Hx. contradiction.
  - now apply String.eqb_eq.
Qed.

(** *** The two rate limiters *)

Lemma register_limiters (st : State) (o : Oracle) (b : RegisterBody)
    (errors : list FieldError) :
  limiter (fst (register st o b errors)) = limiter st
  /\ authLimiter (fst (register st o b errors)) = authLimiter st.
Proof.
  destruct (register_shape st o b errors) as [[F _]|(_ & _ & hash & _ & R)].
  - now rewrite F.
  - rewrite R. auto.
Qed.

Lemma login_limiters (st : State) (o : Oracle) (b : LoginBody)
    (errors : list FieldError) :
  limiter (fst (login st o b errors)) = limiter st
  /\ authLimiter (fst (login st o b errors)) = authLimiter st.
Proof.
  destruct (login_cases st o b errors) as [[F _]|(_ & user & token & _ & _ & _ & R)].
  - now rewrite F.
  - rewrite R. auto.
Qed.

Lemma through_authLimiter_counts (st : State) (ip : string)
    (next : State -> State * Response) (k : string) :
  (forall s, limiter (fst (next s)) = limiter s
             /\ authLimiter (fst (next s)) = authLimiter s) ->
  limiter (fst (through_authLimiter st ip next)) = limiter st
  /\ authLimiter (fst (through_authLimiter st ip next)) k
     = if String.eqb k ip then S (authLimiter st k) else authLimiter st k.
Proof.
  intros Keeps. unfold through_authLimiter.
  pose proof (rateLimit_counts 5
    "Too many authentication attempts, please try again later."
    ip (authLimiter st) k) as C.
  destruct (rateLimit 5 _ ip (authLimiter st)) as [h rejected]. simpl in C.
  destruct rejected as [r|]; simpl.
  - auto.
  - destruct (Keeps (mkState (users st) (sessions st) (limiter st) h (inflight st)))
      as [L A].
    rewrite L, A. auto.
Qed.

Lemma route_counts (st : State) (o : Oracle) (req : Request) (k : string) :
  limiter (fst (route st o req)) = limiter st
  /\ authLimiter (fst (route st o req)) k
     = if to_auth_route req && String.eqb k (ip_of req)
       then S (authLimiter st k) else authLimiter st k.
Proof.
  destruct req as [ip b|ip b|ip a|ip a]; cbv [route to_auth_route ip_of andb].
  - apply through_authLimiter_counts. intros s.
    destruct (validateRegister b). apply register_limiters.
  - apply through_authLimiter_counts. intros s.
    destruct (validateLogin b). apply login_limiters.
  - destruct (logout_cases st a) as (_ & _ & L & A & _). now rewrite L, A.
  - auto.
Qed.

(** Every request adds one to its client's count in the general limiter,
    whether it is let in or not, and a register or login request that got
    past the general limiter adds one to its client's count in the auth
    limiter, whatever the handler then answers; no other count moves. *)
Lemma app_counts (st : State) (o : Oracle) (req : Request)
    (k : string) :
  limiter (fst (app st o req)) k
  = (if String.eqb k (ip_of req) then S (limiter st k) else limiter st k)
  /\ authLimiter (fst (app st o req)) k
     = (if to_auth_route req && (limiter st (ip_of req) <? 100)%nat
           && String.eqb k (ip_of req)
        then S (authLimiter st k) else authLimiter st k).
Proof.
  unfold app.
  pose proof (rateLimit_counts 100
    "Too many requests from this IP, please try again later."
    (ip_of req) (limiter st) k) as C.
  pose proof (rateLimit_admits 100
    "Too many requests from this IP, please try again later."
    (ip_of req) (limiter st)) as Adm.
  pose proof (rateLimit_rejects 100
    "Too many requests from this IP, please try again later."
    (ip_of req) (limiter st)) as Rej.
  destruct (rateLimit 100 _ (ip_of req) (limiter st)) as [h rejected].
  simpl in C, Adm, Rej.
  destruct (Nat.ltb_spec (limiter st (ip_of req)) 100) as [Lt|Ge].
  - rewrite (Adm Lt).
    destruct (route_counts
                (mkState (users st) (sessions st) h (authLimiter st) (inflight st))
                o req k) as [L A].
    rewrite L, A. simpl. rewrite C, andb_true_r. auto.
  - rewrite (Rej Ge). simpl. rewrite C, andb_false_r. auto.
Qed.


Lemma handler_status (st : State) (o : Oracle) (req : Request) :
  status (snd (route st o req)) = 429 ->
  to_auth_route req = true /\ (5 <= authLimiter st (ip_of req))%nat.
Proof.
  destruct req as [ip b|ip b|ip a|ip a]; cbv [route to_auth_route ip_of].
  - destruct (through_authLimiter_cases st ip
      (fun st1 => let (b', errors) := validateRegister b in register st1 o b' errors))
      as (st2 & _ & _ & [[_ E]|[Rej _]]); [|auto].
    rewrite E. cbv beta. destruct (validateRegister b) as [b' errors].
    destruct (register_cases st2 o b' errors)
      as [[_ [[_ C]|[(_ & _ & C)|[_ C]]]]|(_ & _ & C & _)];
      rewrite C; simpl; discriminate.
  - destruct (through_authLimiter_cases st ip
      (fun st1 => let (b', errors) := validateLogin b in login st1 o b' errors))
      as (st2 & _ & _ & [[_ E]|[Rej _]]); [|auto].
    rewrite E. cbv beta. destruct (validateLogin b) as [b' errors].
    destruct (login_cases st2 o b' errors)
      as [[_ [[_ C]|[[_ C]|[_ C]]]]|(_ & user & token & _ & _ & _ & C)];
      rewrite C; simpl; discriminate.
  - destruct (logout_cases st a) as (R & _). rewrite R. simpl. discriminate.
  - simpl. destruct (me_status st o a) as [M|[M|M]]; rewrite M; discriminate.
Qed.

Lemma auth_limited (st : State) (o : Oracle) (req : Request) :
  to_auth_route req = true ->
  (limiter st (ip_of req) < 100)%nat -> (5 <= authLimiter st (ip_of req))%nat ->
  snd (app st o req)
  = mkResponse 429
      (Text "Too many authentication attempts, please try again later.").
Proof.
  intros Auth Adm Rej.
  destruct (app_cases st o req) as (st1 & _ & _ & AL & [[_ E]|[R _]]); [|lia].
  rewrite E. rewrite <- AL in Rej.
  destruct req as [ip b|ip b|ip a|ip a]; try discriminate; cbv [route ip_of] in *.
  - destruct (through_authLimiter_cases st1 ip
      (fun st1 => let (b', errors) := validateRegister b in register st1 o b' errors))
      as (st2 & _ & _ & [[A2 _]|[_ E2]]); [lia|]. now rewrite E2.
  - destruct (through_authLimiter_cases st1 ip
      (fun st1 => let (b', errors) := validateLogin b in login st1 o b' errors))
      as (st2 & _ & _ & [[A2 _]|[_ E2]]); [lia|]. now rewrite E2.
Qed.

Lemma limited_iff (st : State) (o : Oracle) (req : Request) :
  status (snd (app st o req)) = 429
  <-> (100 <= limiter st (ip_of req))%nat
      \/ (to_auth_route req = true /\ (5 <= authLimiter st (ip_of req))%nat).
Proof.
  split.
  - intros Limited.
    destruct (app_cases st o req) as (st1 & _ & _ & AL & [[_ E]|[R _]]); [|now left].
    right. rewrite E in Limited. rewrite <- AL. now apply (handler_status st1 o).
  - intros [Ge|[Auth Ge]].
    + now rewrite app_limited.
    + destruct (Nat.lt_ge_cases (limiter st (ip_of req)) 100) as [Lt|Ge100].
      * now rewrite auth_limited.
      * now rewrite app_limited.
Qed.

(** A request is answered 429 exactly when a limiter has run out for its
    client: 100 earlier requests of any kind in the general window, or, for
    register and login, 5 earlier ones in the auth window.  No handler
    answers 429 itself. *)
Theorem limited_exactly_when_exhausted (st : State) (o : Oracle) (req : Request) :
  status (snd (app st o req)) = 429
  <-> (100 <= limiter st (ip_of req))%nat
      \/ (to_auth_route req = true /\ (5 <= authLimiter st (ip_of req))%nat).
Proof.
  exact (limited_iff st o req).
Qed.

Lemma limited_keeps_stores (st : State) (o : Oracle) (req : Request) :
  status (snd (app st o req)) = 429 ->
  users (fst (app st o req)) = users st
  /\ sessions (fst (app st o req)) = sessions st.
Proof.
  intros Limited. destruct req as [ip b|ip b|ip a|ip a].
  - apply register_not_created. rewrite Limited. discriminate.
  - apply login_not_granted. rewrite Limited. discriminate.
  - destruct (app_cases st o (Logout ip a)) as (st1 & U & S & _ & [[_ E]|[_ E]]);
      rewrite E in *; [|auto].
    cbv [route] in Limited. destruct (logout_cases st1 a) as (R & _).
    rewrite R in Limited. discriminate.
  - destruct (app_cases st o (Me ip a)) as (st1 & U & S & _ & [[_ E]|[_ E]]);
      rewrite E; auto.
Qed.

Lemma step_counts_up (st : State) (ev : Event) (k : string) :
  (ev <> WindowElapsed -> (limiter st k <= limiter (step st ev) k)%nat)
  /\ (ev <> AuthWindowElapsed -> (authLimiter st k <= authLimiter (step st ev) k)%nat).
Proof.
  destruct ev as [o req| | |o ip b|o ip b|n]; cbn [step limiter authLimiter].
  - destruct (app_counts st o req k) as [L A]. rewrite L, A.
    split; intros _.
    + destruct (String.eqb k (ip_of req)); lia.
    + destruct (_ && _); lia.
  - split; [intros N; now elim N|lia].
  - split; [lia|intros N; now elim N].
  - destruct (arrive_counts st o (Register ip b) k) as [L A]. rewrite L, A.
    split; intros _.
    + destruct (String.eqb k _); lia.
    + destruct (_ && _); lia.
  - destruct (arrive_counts st o (Login ip b) k) as [L A]. rewrite L, A.
    split; intros _.
    + destruct (String.eqb k _); lia.
    + destruct (_ && _); lia.
  - destruct (resume_cases st n) as (L & A & _). rewrite L, A. split; lia.
Qed.

Lemma run_counts_up (evs : list Event) (st : State) (k : string) :
  (~ In WindowElapsed evs -> (limiter st k <= limiter (run st evs) k)%nat)
  /\ (~ In AuthWindowElapsed evs ->
      (authLimiter st k <= authLimiter (run st evs) k)%nat).
Proof.
  revert st. induction evs as [|ev evs IH]; intros st; simpl; [lia|].
  destruct (step_counts_up st ev k) as [L A].
  destruct (IH (step st ev)) as [L' A'].
  split; intros Nin.
  - etransitivity; [apply L|apply L']; intuition congruence.
  - etransitivity; [apply A|apply A']; intuition congruence.
Qed.

(** A client that has used up a limiter stays limited for as long as that
    limiter's window timer has not fired: whatever happens in between, each
    of its requests (any route for the general limiter, [GET /stats]
    included; register and login for the auth limiter) is answered 429 and
    changes neither the user store nor the session store. *)
Theorem limited_until_window_elapses (st : State) (evs : list Event) (o : Oracle)
    (req : Request) :
  (~ In WindowElapsed evs ->
   (100 <= limiter st (ip_of req))%nat ->
   status (snd (app (run st evs) o req)) = 429
   /\ users (fst (app (run st evs) o req)) = users (run st evs)
   /\ sessions (fst (app (run st evs) o req)) = sessions (run st evs)
   /\ snd (app_stats (run st evs) o (ip_of req))
      = StatsLimited
          (mkResponse 429
             (Text "Too many requests from this IP, please try again later.")))
  /\ (~ In AuthWindowElapsed evs ->
      to_auth_route req = true ->
      (5 <= authLimiter st (ip_of req))%nat ->
      status (snd (app (run st evs) o req)) = 429
      /\ users (fst (app (run st evs) o req)) = users (run st evs)
      /\ sessions (fst (app (run st evs) o req)) = sessions (run st evs)).
Proof.
  destruct (run_counts_up evs st (ip_of req)) as [Up UpAuth].
  split.
  - intros Nin Ge. specialize (Up Nin).
    assert (Limited : status (snd (app (run st evs) o req)) = 429)
      by (apply limited_iff; left; lia).
    split; [exact Limited|].
    destruct (limited_keeps_stores _ o req Limited) as [Us Ss].
    split; [exact Us|]. split; [exact Ss|].
    unfold app_stats.
    pose proof (rateLimit_rejects 100
      "Too many requests from this IP, please try again later."
      (ip_of req) (limiter (run st evs))) as Rej.
    destruct (rateLimit 100 _ (ip_of req) (limiter (run st evs))) as [h rejected].
    simpl in Rej. rewrite Rej by lia. reflexivity.
  - intros Nin Auth Ge. specialize (UpAuth Nin).
    assert (Limited : status (snd (app (run st evs) o req)) = 429)
      by (apply limited_iff; right; split; [exact Auth|lia]).
    split; [exact Limited|]. now apply limited_keeps_stores.
Qed.




(** *** GET /stats *)

Lemma roles_partition (us : list User.t) :
  Forall as_registered us ->
  count us
  = count (filter (ofType "เจ้าของห้อง") us)
    + (count (filter (ofType "นายหน้า") us)
       + (count (filter (ofType "ผู้ซื้อ/เช่า") us) + 0)).
Proof.
  unfold count. intros All. induction All as [|u us Reg All IH]; [reflexivity|].
  destruct Reg as (_ & _ & Role & _). unfold ofType in *. simpl filter.
  destruct Role as [<-|[<-|[<-|[]]]]; simpl String.eqb; simpl List.length; lia.
Qed.

Lemma none_verified (us : list User.t) :
  Forall as_registered us -> filter User.verified us = [].
Proof.
  intros All. apply filter_all_false. rewrite Forall_forall in All.
  intros u Hu. now destruct (All u Hu) as (Ver & _).
Qed.

(** In every reachable state [GET /stats], when the general limiter lets it
    in, is answered without any authorization and without touching the two
    stores; the three per-role counts add up to [totalUsers], and
    [verifiedUsers] is 0, since no route ever verifies a user. *)
Theorem stats_of_reachable (evs : list Event) (o : Oracle) (ip : string) :
  (limiter (run init evs) ip < 100)%nat ->
  users (fst (app_stats (run init evs) o ip)) = users (run init evs)
  /\ sessions (fst (app_stats (run init evs) o ip)) = sessions (run init evs)
  /\ exists s,
       snd (app_stats (run init evs) o ip) = StatsOk s
       /\ totalUsers s = count (users (run init evs))
       /\ fold_right (fun entry sum => snd entry + sum) 0 (usersByType s)
          = totalUsers s
       /\ verifiedUsers s = 0.
Proof.
  intros Adm. unfold app_stats.
  pose proof (rateLimit_admits 100
    "Too many requests from this IP, please try again later."
    ip (limiter (run init evs)) Adm) as Ok.
  destruct (rateLimit 100 _ ip (limiter (run init evs))) as [h rejected].
  simpl in Ok. subst rejected. simpl.
  split; [reflexivity|]. split; [reflexivity|].
  eexists. split; [reflexivity|]. simpl.
  pose proof (registered_users evs) as All.
  split; [reflexivity|]. split.
  - symmetry. now apply roles_partition.
  - now rewrite none_verified.
Qed.

Lemma filter_reading_still {A} (p : Z -> A -> bool) (readings : nat -> Z)
    (now : Z) (l : list A) :
  (forall k, readings k = now) ->
  forall k, filter_reading p readings k l = filter (p now) l.
Proof.
  intros Still. induction l as [|x l IH]; intros k; simpl; [reflexivity|].
  now rewrite Still, IH.
Qed.

Lemma filter_reading_length {A} (p : Z -> A -> bool) (readings : nat -> Z)
    (l : list A) :
  forall k, (List.length (filter_reading p readings k l) <= List.length l)%nat.
Proof.
  induction l as [|x l IH]; intros k; simpl; [lia|].
  destruct (p (readings k) x); simpl; specialize (IH (S k)); lia.
Qed.

Lemma filter_removed {A} (p : A -> bool) (l1 l2 : list A) (x : A) :
  count (filter p (l1 ++ x :: l2))
  = count (filter p (l1 ++ l2)) + (if p x then 1 else 0).
Proof.
  unfold count. rewrite !filter_app, !length_app. cbn [filter].
  destruct (p x); cbn [List.length]; lia.
Qed.

(** [GET /stats] and [GET /me] on one session record, while the clock stands
    at [now].  Take the record [GET /me] finds for a token that [jwt.verify]
    accepts.  Strictly before its [expiresAt], [GET /me] lets the request
    through and [/stats] counts the record: logging the token out lowers
    [activeSessions] by one.  Strictly after, [GET /me] answers 401 and
    [/stats] does not count the record.  At [expiresAt] itself the two
    routes disagree: [GET /me] still lets the request through
    ([expiresAt < now] is false) while [/stats] no longer counts the record
    ([expiresAt > now] is false).  And [activeSessions] is never more than
    the number of records. *)
Theorem active_sessions_and_whoami (st : State) (o : Oracle) (now : Z)
    (token : string) (session : Session.t) (decoded : Jwt.Claims) :
  (forall k, clock o k = now) ->
  Js.truthy token = true ->
  Jwt.verify token (JWT_SECRET env) now = Js.Ok decoded ->
  find (has_token token) (sessions st) = Some session ->
  let header := Some ("Bearer " ++ token)%string in
  let passed :=
    match find (fun u => User.id u =? Jwt.userId decoded) (users st) with
    | Some user => mkResponse 200 (Profile (profileResponse user))
    | None => mkResponse 404 (Failure "ไม่พบผู้ใช้")
    end in
  0 <= activeSessions (stats st o) <= count (sessions st)
  /\ (now < Session.expiresAt session ->
      me st o header = passed
      /\ activeSessions (stats st o)
         = activeSessions (stats (fst (logout st header)) o) + 1)
  /\ (now = Session.expiresAt session ->
      me st o header = passed
      /\ activeSessions (stats st o)
         = activeSessions (stats (fst (logout st header)) o))
  /\ (Session.expiresAt session < now ->
      me st o header = mkResponse 401 (Failure "Token หมดอายุ")
      /\ activeSessions (stats st o)
         = activeSessions (stats (fst (logout st header)) o)).
Proof.
  intros Still T Ver F header passed.
  pose proof (bearer_header token) as Bt.
  assert (Counted : activeSessions (stats st o)
                    = activeSessions (stats (fst (logout st header)) o)
                      + (if active now session then 1 else 0)).
  { destruct (logout_cases st header)
      as (_ & _ & _ & _ & [[[Off|(tk & Btk & Fn)] _]
                          |(tk & l1 & s & l2 & Btk & _ & Fs & Es & _ & Ss)]).
    - unfold header in Off. rewrite Bt in Off. cbn in Off. congruence.
    - assert (tk = token) by (unfold header in Btk; congruence). subst tk.
      congruence.
    - assert (tk = token) by (unfold header in Btk; congruence). subst tk.
      assert (s = session) by congruence. subst s.
      unfold stats. cbn [activeSessions].
      rewrite !(filter_reading_still _ _ now) by exact Still.
      rewrite Ss, Es. apply filter_removed. }
  assert (Me : me st o header
               = if Session.expiresAt session <? now
                 then mkResponse 401 (Failure "Token หมดอายุ") else passed).
  { unfold me, header. rewrite Bt, T. cbn [negb]. rewrite !Still, Ver.
    cbn [Js.bind]. rewrite F.
    destruct (Session.expiresAt session <? now); [reflexivity|].
    unfold passed. destruct (find _ (users st)); reflexivity. }
  unfold active in Counted. rewrite Me, Counted. split; [|split; [|split]].
  - rewrite <- Counted. unfold stats, count. cbn [activeSessions].
    pose proof (filter_reading_length active (clock o) (sessions st) 0). lia.
  - intros Before.
    destruct (Z.ltb_spec (Session.expiresAt session) now); [lia|].
    destruct (Z.ltb_spec now (Session.expiresAt session)); [|lia]. auto.
  - intros At.
    destruct (Z.ltb_spec (Session.expiresAt session) now); [lia|].
    destruct (Z.ltb_spec now (Session.expiresAt session)); [lia|].
    split; [reflexivity|lia].
  - intros After.
    destruct (Z.ltb_spec (Session.expiresAt session) now); [|lia].
    destruct (Z.ltb_spec now (Session.expiresAt session)); [lia|].
    split; [reflexivity|lia].
Qed.

(** *** Logging out again, and the Authorization header *)

Lemma logout_nothing_to_do (st : State) (authorization : option string) :
  (forall token,
      bearer authorization = Some token -> Js.truthy token = true ->
      find (has_token token) (sessions st) = None) ->
  fst (logout st authorization) = st.
Proof.
  intros Gone.
  destruct (logout_cases st authorization)
    as (_ & _ & _ & _ & [[_ F]|(token & l1 & s & l2 & Bt & T & Fs & _)]);
    [exact F|].
  rewrite (Gone token Bt T) in Fs. discriminate.
Qed.

(** Logging out twice: when at most one record carries the presented token,
    a second logout with the same header finds nothing to remove, so both
    stores are as the first logout left them. *)
Theorem logout_twice (st : State) (o o' : Oracle) (ip ip' : string)
    (authorization : option string) :
  (limiter st ip < 100)%nat ->
  (forall token,
      bearer authorization = Some token ->
      (List.length (filter (has_token token) (sessions st)) <= 1)%nat) ->
  users (fst (app (fst (app st o (Logout ip authorization))) o'
                  (Logout ip' authorization)))
  = users st
  /\ sessions (fst (app (fst (app st o (Logout ip authorization))) o'
                        (Logout ip' authorization)))
     = sessions (fst (app st o (Logout ip authorization))).
Proof.
  intros Adm Single.
  assert (Gone : forall token,
             bearer authorization = Some token -> Js.truthy token = true ->
             find (has_token token)
                  (sessions (fst (app st o (Logout ip authorization)))) = None).
  { intros token Bt T.
    destruct (app_cases st o (Logout ip authorization))
      as (st1 & _ & S1 & _ & [[_ E]|[Rej _]]); [|cbv [ip_of] in Rej; lia].
    rewrite E. cbv [route].
    destruct (logout_cases st1 authorization)
      as (_ & _ & _ & _ & [[Why F]|(tk & l1 & s & l2 & Bt' & _ & Fs & Es & N & F)]).
    - rewrite F. destruct Why as [Why|(tk & Bt' & Fn)].
      + rewrite Bt in Why. simpl in Why. congruence.
      + congruence.
    - assert (tk = token) by congruence. subst tk. rewrite F.
      apply (single_match_removed (has_token token) l1 l2 s N).
      + apply find_some in Fs. tauto.
      + specialize (Single token Bt). rewrite <- S1, Es in Single.
        rewrite <- Es. apply Nat.le_antisymm; [now rewrite Es|].
        rewrite Es, filter_app, length_app. simpl.
        apply find_some in Fs. destruct Fs as [_ Ps]. rewrite Ps. simpl. lia. }
  destruct (app_cases (fst (app st o (Logout ip authorization))) o'
                      (Logout ip' authorization))
    as (st2 & U2 & S2 & _ & [[_ E]|[_ E]]); rewrite E.
  - cbv [route]. rewrite logout_nothing_to_do by (rewrite S2; exact Gone).
    split; [|exact S2]. rewrite U2.
    destruct (app_cases st o (Logout ip authorization))
      as (st1 & U1 & _ & _ & [[_ E1]|[_ E1]]); rewrite E1; [|exact U1].
    cbv [route]. destruct (logout_cases st1 authorization) as (_ & Us & _).
    congruence.
  - simpl. split; [|exact S2]. rewrite U2.
    destruct (app_cases st o (Logout ip authorization))
      as (st1 & U1 & _ & _ & [[_ E1]|[_ E1]]); rewrite E1; [|exact U1].
    cbv [route]. destruct (logout_cases st1 authorization) as (_ & Us & _).
    congruence.
Qed.

Lemma strip_prefix_found (pat s rest : string) :
  Js.strip_prefix pat s = Some rest -> s = (pat ++ rest)%string.
Proof.
  revert s. induction pat as [|a pat IH]; intros s; simpl.
  - now intros [= ->].
  - destruct s as [|c s]; [discriminate|].
    destruct (Ascii.eqb_spec a c) as [->|_]; [|discriminate].
    intros F. now rewrite (IH s F).
Qed.

Lemma replace_Bearer_absent (s : string) :
  existsb (Ascii.eqb " "%char) (list_ascii_of_string s) = false ->
  Js.replace "Bearer " "" s = s.
Proof.
  induction s as [|c s IH]; intros Clean.
  - reflexivity.
  - cbn [Js.replace].
    destruct (Js.strip_prefix "Bearer " (String c s)) as [rest|] eqn:F.
    + apply strip_prefix_found in F. rewrite F in Clean. simpl in Clean.
      discriminate.
    + simpl in Clean. apply orb_false_iff in Clean. destruct Clean as [_ Clean].
      now rewrite IH.
Qed.

(** The [Bearer] scheme is not required: an Authorization header that is
    just a token (without a space) is treated by logout and whoami exactly
    like [Bearer <token>]. *)
Theorem bearer_prefix_optional (token : string) :
  existsb (Ascii.eqb " "%char) (list_ascii_of_string token) = false ->
  bearer (Some token) = Some token
  /\ (forall st o, me st o (Some token) = me st o (Some ("Bearer " ++ token)%string))
  /\ (forall st, logout st (Some token) = logout st (Some ("Bearer " ++ token)%string)).
Proof.
  intros Clean.
  assert (Bare : bearer (Some token) = Some token).
  { unfold bearer, option_map. now rewrite replace_Bearer_absent. }
  split; [exact Bare|]. split.
  - intros st o. unfold me. now rewrite Bare, bearer_header.
  - intros st. unfold logout. now rewrite Bare, bearer_header.
Qed.

(** *** Missing token configuration *)

Lemma generateToken_throws (o : Oracle) (userId : Z) :
  (Js.truthy_opt (JWT_SECRET env) = false
   \/ Js.truthy_opt (JWT_EXPIRES_IN env) = false
   \/ exists span, JWT_EXPIRES_IN env = Some span /\ Jwt.ms span = None) ->
  forall token, generateToken o userId <> Js.Ok token.
Proof.
  intros Why token G.
  destruct (generateToken_payload _ _ _ G)
    as (key & span & millis & Sk & Tk & Ss & Ts & M & _).
  destruct Why as [Why|[Why|(span' & Ss' & M')]].
  - rewrite Sk in Why. simpl in Why. congruence.
  - rewrite Ss in Why. simpl in Why. congruence.
  - congruence.
Qed.

(** Without a usable [JWT_SECRET] or [JWT_EXPIRES_IN] no login is ever
    answered 200 and no session is ever stored; a login that gets as far as
    a password [bcrypt.compare] accepts is answered 500, with both stores
    untouched. *)
Theorem no_login_without_token_config :
  (Js.truthy_opt (JWT_SECRET env) = false
   \/ Js.truthy_opt (JWT_EXPIRES_IN env) = false
   \/ exists span, JWT_EXPIRES_IN env = Some span /\ Jwt.ms span = None) ->
  (forall st o ip b,
      status (snd (app st o (Login ip b))) <> 200
      /\ users (fst (app st o (Login ip b))) = users st
      /\ sessions (fst (app st o (Login ip b))) = sessions st)
  /\ (forall st o ip b user,
        (limiter st ip < 100)%nat -> (authLimiter st ip < 5)%nat ->
        snd (validateLogin b) = [] ->
        findUserByEmail (normalizeEmail (l_email b)) (users st) = Some user ->
        bcrypt_compare (l_password b) (User.password user) = Js.Ok true ->
        status (snd (app st o (Login ip b))) = 500)
  /\ (forall evs, sessions (run init evs) = []).
Proof.
  intros Why.
  assert (Never : forall st o ip b, status (snd (app st o (Login ip b))) <> 200).
  { intros st o ip b Granted.
    destruct (app_login_granted st o ip b Granted)
      as (_ & _ & _ & user & token & _ & _ & G & _).
    now apply (generateToken_throws o (User.id user) Why token). }
  split; [|split].
  - intros st o ip b. split; [apply Never|]. apply login_not_granted, Never.
  - intros st o ip b user Adm AdmAuth Valid F C.
    destruct (app_login st o ip b) as (s2 & U & _ & [[[R|R] _]|(_ & _ & E)]);
      try lia.
    rewrite E, Valid. unfold login. simpl. rewrite U, F. simpl. rewrite C. simpl.
    destruct (generateToken o (User.id user)) as [token|] eqn:G; [|reflexivity].
    exfalso. now apply (generateToken_throws o (User.id user) Why token).
  - intros evs. induction evs as [|ev evs IH] using rev_ind; [reflexivity|].
    rewrite run_snoc.
    destruct (step_stores (run init evs) ev)
      as [[_ Ss]|[[_ (l1 & x & l2 & Es & _)]|[(Ss & _)
         |(o & b & user & token & _ & G & _)]]].
    + congruence.
    + rewrite IH in Es. now destruct l1.
    + congruence.
    + exfalso. now apply (generateToken_throws o (User.id user) Why token).
Qed.

(** *** What is never removed *)

(** Users are never deleted and nothing about a stored user is ever
    rewritten except [lastLogin]: after any run the user store is the old
    one, equal up to [lastLogin], followed by the users registered since. *)
Theorem users_never_removed (st : State) (evs : list Event) :
  exists later,
    map (User.touch 0) (users (run st evs))
    = (map (User.touch 0) (users st) ++ later)%list.
Proof.
  revert st. induction evs as [|ev evs IH]; intros st.
  - exists []. simpl. now rewrite app_nil_r.
  - change (run st (ev :: evs)) with (run (step st ev) evs).
    destruct (IH (step st ev)) as (later & E). rewrite E.
    destruct (step_stores st ev)
      as [[Us _]|[[Us _]|[(_ & o & b & hash & _ & Us)
                        |(o & b & user & token & _ & _ & Us & _)]]];
      rewrite Us.
    + now exists later.
    + now exists later.
    + rewrite map_app, <- app_assoc. eexists. reflexivity.
    + exists later. f_equal. clear.
      induction (users st) as [|x us IH]; simpl; [reflexivity|].
      destruct (String.eqb (User.email x) _); simpl; [|now rewrite IH].
      now rewrite touch_touch.
Qed.

(** Only logout removes sessions: a run without logout requests keeps every
    session record in place, expired ones included, and appends the new
    ones after them. *)
Theorem sessions_only_leave_by_logout (st : State) (evs : list Event) :
  (forall o ip authorization, ~ In (Incoming o (Logout ip authorization)) evs) ->
  exists later, sessions (run st evs) = (sessions st ++ later)%list.
Proof.
  revert st. induction evs as [|ev evs IH]; intros st NoLogout.
  - exists []. simpl. now rewrite app_nil_r.
  - change (run st (ev :: evs)) with (run (step st ev) evs).
    destruct (IH (step st ev)) as (later & E).
    { intros o ip a Hin. apply (NoLogout o ip a). now right. }
    rewrite E.
    assert (Grows : exists pushed, sessions (step st ev) = (sessions st ++ pushed)%list).
    { destruct ev as [o req| | |o ip b|o ip b|n]; cbn [step sessions];
        try (exists []; now rewrite app_nil_r).
      - destruct (app_sessions st o req)
          as [Same|[(ip & a & token & l1 & s & l2 & -> & _)
                   |(ip & b & user & token & _ & _ & F)]].
        + exists []. now rewrite app_nil_r.
        + exfalso. apply (NoLogout o ip a). now left.
        + eexists. exact F.
      - destruct (arrive_cases st o (Register ip b))
          as (_ & [S|(ip' & a & _ & _ & _ & Req & _)] & _); [|discriminate].
        exists []. now rewrite app_nil_r.
      - destruct (arrive_cases st o (Login ip b))
          as (_ & [S|(ip' & a & _ & _ & _ & Req & _)] & _); [|discriminate].
        exists []. now rewrite app_nil_r.
      - destruct (resume_cases st n)
          as (_ & _ & _ & [[_ S]|[(o & b & hash & _ & S & _)
                                 |(o & b & user & token & _ & _ & _ & S)]]);
          rewrite S; [exists []; now rewrite app_nil_r ..|eexists; reflexivity]. }
    destruct Grows as (pushed & G). rewrite G, <- app_assoc. eexists. reflexivity.
Qed.

End Router.

(** ** The plain-text instance satisfies what the theorems assume *)

Lemma lower_ascii_idempotent (c : ascii) :
  Js.lower_ascii (Js.lower_ascii c) = Js.lower_ascii c.
Proof.
  destruct c as [[] [] [] [] [] [] [] []]; reflexivity.
Qed.

Lemma toLowerCase_idempotent (s : string) :
  Js.toLowerCase (Js.toLowerCase s) = Js.toLowerCase s.
Proof.
  induction s as [|c s IH]; simpl; [reflexivity|].
  now rewrite lower_ascii_idempotent, IH.
Qed.

Lemma parse_print_Z (z : Z) : Fixture.parse_Z (Fixture.print_Z z) = Some z.
Proof.
  unfold Fixture.parse_Z, Fixture.print_Z.
  rewrite NilEmpty.isi. simpl. now rewrite DecimalZ.of_to.
Qed.

Lemma split_dot_uint (d : Decimal.uint) (rest : string) :
  Fixture.split_dot (NilEmpty.string_of_uint d ++ String "."%char rest)
  = Some (NilEmpty.string_of_uint d, rest).
Proof.
  induction d as [|d IH|d IH|d IH|d IH|d IH|d IH|d IH|d IH|d IH|d IH];
    simpl; try rewrite IH; reflexivity.
Qed.

Lemma split_dot_print (z : Z) (rest : string) :
  Fixture.split_dot (Fixture.print_Z z ++ "." ++ rest)
  = Some (Fixture.print_Z z, rest).
Proof.
  change ("." ++ rest)%string with (String "."%char rest).
  unfold Fixture.print_Z. destruct (Z.to_int z) as [d|d]; simpl.
  - apply split_dot_uint.
  - now rewrite split_dot_uint.
Qed.

Lemma parse_print_exp (e : option Z) :
  Fixture.parse_exp (Fixture.print_exp e) = Some e.
Proof.
  destruct e as [z|]; simpl; [|reflexivity]. now rewrite parse_print_Z.
Qed.

Lemma append_assoc (a b c : string) : ((a ++ b) ++ c = a ++ (b ++ c))%string.
Proof.
  induction a as [|x a IH]; simpl; [reflexivity|]. now rewrite IH.
Qed.

Lemma fixture_roundtrip (key : string) (c : Jwt.Claims) :
  Jwt.jws_decode (JwsLib := Fixture.jws) key
                 (Jwt.jws_encode (JwsLib := Fixture.jws) key c) = Some c.
Proof.
  change (Fixture.decode key (Fixture.encode key c) = Some c).
  unfold Fixture.decode, Fixture.encode.
  rewrite <- (append_assoc key "." _), strip_prefix_app.
  rewrite !split_dot_print, !parse_print_Z, parse_print_exp.
  now destruct c.
Qed.

(** ** The theorems on concrete runs *)

Section Scenarios.

#[local] Existing Instance Fixture.validator.
#[local] Existing Instance Fixture.bcrypt.
#[local] Existing Instance Fixture.jws.

Import Fixture.

(** The walk-through of the specification: register, log in, whoami, log
    out, whoami again. *)
Example register_login_whoami_logout :
  let st1 := fst (app env init (at_time 1000) (Register ip somchai)) in
  let st2 := fst (app env st1 (at_time 2000) (Login ip good_login)) in
  let st3 := fst (app env st2 (at_time 4000) (Logout ip header_2000)) in
  status (snd (app env init (at_time 1000) (Register ip somchai))) = 201
  /\ map User.verified (users st1) = [false]
  /\ snd (app env st1 (at_time 2000) (Login ip good_login))
     = mkResponse 200
         (LoggedIn "เข้าสู่ระบบสำเร็จ" token_2000
            (mkUserResponse 1 "Somchai" "somchai@example.com" "ผู้ซื้อ/เช่า"
                            false false))
  /\ status (snd (app env st2 (at_time 3000) (Me ip header_2000))) = 200
  /\ status (snd (app env st2 (at_time 4000) (Logout ip header_2000))) = 200
  /\ status (snd (app env st3 (at_time 5000) (Me ip header_2000))) = 401.
Proof.
  repeat split; vm_compute; reflexivity.
Qed.

(** Logging out with the token of the only session: the user store is kept
    and the session store loses that record. *)
Lemma logout_frame_witness :
  users (fst (app env (run env init one_login) (at_time 3000) (Logout ip header_2000)))
  = users (run env init one_login)
  /\ sessions (fst (app env (run env init one_login) (at_time 3000)
                        (Logout ip header_2000))) = [].
Proof.
  split.
  - exact (proj1 (logout_frame env (run env init one_login) (at_time 3000)
                               ip header_2000)).
  - vm_compute. reflexivity.
Defined.

(** After one login, logging out with its token and asking whoami. *)
Lemma logout_fail_open_witness :
  (limiter (run env init one_login) ip < 100)%nat
  /\ snd (app env (run env init one_login) (at_time 3000) (Logout ip header_2000))
     = mkResponse 200 (Success "ออกจากระบบสำเร็จ")
  /\ status (snd (app env
                    (fst (app env (run env init one_login) (at_time 3000)
                              (Logout ip header_2000)))
                    (at_time 4000) (Me ip header_2000))) = 401.
Proof.
  assert (Adm : (limiter (run env init one_login) ip < 100)%nat)
    by (vm_compute; lia).
  pose proof (logout_fail_open env (run env init one_login) (at_time 3000)
                               ip header_2000 Adm) as T.
  cbv zeta in T. destruct T as (Resp & _ & _ & Hit).
  split; [exact Adm|]. split; [exact Resp|].
  refine (proj2 (Hit token_2000
                     (Session.mk 1 token_2000 2000 604802000) _ _ _) _ _ _ _).
  - vm_compute. reflexivity.
  - reflexivity.
  - vm_compute. reflexivity.
  - vm_compute. reflexivity.
  - vm_compute. lia.
Defined.

(** An unknown address and a wrong password, both after one login. *)
Lemma login_failures_indistinguishable_witness :
  snd (app env (run env init one_login) (at_time 3000) (Login ip unknown_email))
  = snd (app env (run env init one_login) (at_time 9000) (Login ip wrong_password))
  /\ snd (app env (run env init one_login) (at_time 3000) (Login ip unknown_email))
     = mkResponse 401 (Failure "อีเมลหรือรหัสผ่านไม่ถูกต้อง").
Proof.
  destruct (login_failures_indistinguishable env
              (run env init one_login) (run env init one_login)
              (at_time 3000) (at_time 9000) ip ip unknown_email wrong_password)
    as [Same Unauthorized].
  - reflexivity.
  - reflexivity.
  - reflexivity.
  - reflexivity.
  - vm_compute. reflexivity.
  - eexists. split; vm_compute; reflexivity.
  - split; [exact Same|]. apply Unauthorized; vm_compute; lia.
Defined.

(** A registration with a malformed phone number, a login without a
    password and a login with a wrong password, each after one login. *)
Lemma rejected_requests_persist_nothing_witness :
  (users (fst (app env (run env init one_login) (at_time 3000) (Register ip no_phone)))
   = users (run env init one_login)
   /\ sessions (fst (app env (run env init one_login) (at_time 3000)
                         (Register ip no_phone)))
      = sessions (run env init one_login)
   /\ (status (snd (app env (run env init one_login) (at_time 3000)
                        (Register ip no_phone))) = 429
       \/ status (snd (app env (run env init one_login) (at_time 3000)
                           (Register ip no_phone))) = 400))
  /\ (users (fst (app env (run env init one_login) (at_time 3000)
                      (Login ip no_password)))
      = users (run env init one_login)
      /\ sessions (fst (app env (run env init one_login) (at_time 3000)
                            (Login ip no_password)))
         = sessions (run env init one_login)
      /\ (status (snd (app env (run env init one_login) (at_time 3000)
                           (Login ip no_password))) = 429
          \/ status (snd (app env (run env init one_login) (at_time 3000)
                              (Login ip no_password))) = 400))
  /\ (users (fst (app env (run env init one_login) (at_time 3000)
                      (Login ip wrong_password)))
      = users (run env init one_login)
      /\ sessions (fst (app env (run env init one_login) (at_time 3000)
                            (Login ip wrong_password)))
         = sessions (run env init one_login)
      /\ status (snd (app env (run env init one_login) (at_time 3000)
                          (Login ip wrong_password))) = 401).
Proof.
  destruct (rejected_requests_persist_nothing env (run env init one_login)
              (at_time 3000) ip) as (Reg & Log & Bad & _).
  split; [|split].
  - apply Reg. right. right. vm_compute. discriminate.
  - apply Log. right. right. vm_compute. discriminate.
  - apply Bad.
    + vm_compute. lia.
    + vm_compute. lia.
    + reflexivity.
    + right. eexists. split; vm_compute; reflexivity.
Defined.

(** With a 30 day token, whoami exactly at [expiresAt] and one millisecond
    later; with a one hour token, whoami when the hour is over. *)
Lemma session_expiry_boundary_witness :
  me env_long (run env_long init one_login) (at_time 604802000)
     (Some "Bearer s3cret.1.2000.2.E2592002")
  = mkResponse 200
      (Profile (mkProfileResponse 1 "Somchai" "somchai@example.com" "0812345678"
                                  "ผู้ซื้อ/เช่า" false false 1000 (Some 2000)))
  /\ me env_long (run env_long init one_login) (at_time 604802001)
        (Some "Bearer s3cret.1.2000.2.E2592002")
     = mkResponse 401 (Failure "Token หมดอายุ")
  /\ me env (run env init one_login) (at_time 3602000) header_2000
     = mkResponse 401 (Failure "Token ไม่ถูกต้อง").
Proof.
  split; [|split].
  - refine (proj1 (proj2 (session_expiry_boundary env_long fixture_roundtrip
                            (run env_long init one_login)
                            (at_time 2000) (at_time 604802000) 1
                            "s3cret.1.2000.2.E2592002" "30d" 2592000000
                            (Session.mk 1 "s3cret.1.2000.2.E2592002" 2000 604802000)
                            _ _ _ _ _)) _ _).
    + vm_compute. reflexivity.
    + reflexivity.
    + reflexivity.
    + vm_compute. reflexivity.
    + vm_compute. reflexivity.
    + vm_compute. discriminate.
    + vm_compute. reflexivity.
  - refine (proj2 (proj1 (session_expiry_boundary env_long fixture_roundtrip
                            (run env_long init one_login)
                            (at_time 2000) (at_time 604802001) 1
                            "s3cret.1.2000.2.E2592002" "30d" 2592000000
                            (Session.mk 1 "s3cret.1.2000.2.E2592002" 2000 604802000)
                            _ _ _ _ _) _) _).
    + vm_compute. reflexivity.
    + reflexivity.
    + reflexivity.
    + vm_compute. reflexivity.
    + vm_compute. reflexivity.
    + vm_compute. reflexivity.
    + vm_compute. reflexivity.
  - refine (proj2 (proj2 (session_expiry_boundary env fixture_roundtrip
                            (run env init one_login)
                            (at_time 2000) (at_time 3602000) 1
                            token_2000 "1h" 3600000
                            (Session.mk 1 token_2000 2000 604802000)
                            _ _ _ _ _)) _).
    + vm_compute. reflexivity.
    + reflexivity.
    + reflexivity.
    + vm_compute. reflexivity.
    + vm_compute. reflexivity.
    + vm_compute. discriminate.
Defined.

(** A second registration whose address differs only by letter case, one
    login after the first. *)
Lemma duplicate_email_rejected_witness :
  users (fst (app env (run env init one_login) (at_time 5000)
                  (Register ip somchai_again)))
  = users (run env init one_login)
  /\ status (snd (app env (run env init one_login) (at_time 5000)
                      (Register ip somchai_again))) <> 201
  /\ snd (app env (run env init one_login) (at_time 5000) (Register ip somchai_again))
     = mkResponse 409 (Failure "อีเมลนี้มีผู้ใช้แล้ว").
Proof.
  destruct (proj2 (duplicate_email_rejected env) init (at_time 1000) (at_time 5000)
              ip ip somchai somchai_again
              [Incoming (at_time 2000) (Login ip good_login)])
    as (Kept & Not & Dup).
  - vm_compute. reflexivity.
  - right. split; [exact toLowerCase_idempotent|]. vm_compute. reflexivity.
  - split; [exact Kept|]. split; [exact Not|].
    apply Dup; [vm_compute; lia|vm_compute; lia|reflexivity].
Defined.

(** The token of user 1 issued at 2000 ms with a one hour life span. *)
Lemma token_round_trip_witness :
  exists token,
    generateToken env (at_time 2000) 1 = Js.Ok token
    /\ (forall now,
          now / 1000 < 3602 ->
          exists payload,
            Jwt.verify token (JWT_SECRET env) now = Js.Ok payload
            /\ Jwt.userId payload = 1)
    /\ (forall now,
          3602 <= now / 1000 ->
          Jwt.verify token (JWT_SECRET env) now = Js.Throw "jwt expired").
Proof.
  exact (token_round_trip env fixture_roundtrip (at_time 2000) 1
                          "s3cret" "1h" 3600000
                          eq_refl eq_refl eq_refl eq_refl eq_refl).
Defined.

Lemma token_payload_and_session_gate_witness :
  (exists key span millis,
      JWT_SECRET env = Some key /\ JWT_EXPIRES_IN env = Some span
      /\ Jwt.ms span = Some millis
      /\ Jwt.jws_decode key token_2000
         = Some (Jwt.mkClaims 1 2000 2 (Some (2 + millis / 1000)))
      /\ forall (st : State) (o' : Oracle),
           2 + millis / 1000 <= clock o' 0 / 1000 ->
           status (me env st o' (Some ("Bearer " ++ token_2000)%string)) = 401)
  /\ status (me env (run env init one_login) (at_time 604802001) header_2000) = 401.
Proof.
  destruct (token_payload_and_session_gate env fixture_roundtrip) as [Payload Gate].
  split.
  - exact (Payload (at_time 2000) 1 token_2000 eq_refl).
  - apply Gate. intros token session Bt F.
    vm_compute in Bt. injection Bt as <-.
    vm_compute in F. injection F as <-. reflexivity.
Defined.

(** *** Runs on which the stated properties fail *)

(** Counterexample to C1 as stated: the payload of an issued token does hold
    an expiry, and whoami enforces it: an hour after the login the session
    record is still there and seven days from expiring, the user exists, and
    the request is turned down because [jwt.verify] throws. *)
Lemma issued_token_carries_exp :
  generateToken env (at_time 2000) 1 = Js.Ok token_2000
  /\ option_map Jwt.exp (Jwt.jws_decode "s3cret" token_2000) = Some (Some 3602)
  /\ find (has_token token_2000) (sessions (run env init one_login))
     = Some (Session.mk 1 token_2000 2000 604802000)
  /\ 3602000 <= 604802000
  /\ me env (run env init one_login) (at_time 3602000) header_2000
     = mkResponse 401 (Failure "Token ไม่ถูกต้อง").
Proof.
  repeat split; try (vm_compute; reflexivity). vm_compute. discriminate.
Qed.

(** C2.  The token is the key by which [GET /me] and [/logout] find a session
    record, and it is a function of the user id and of the clock alone:
    two logins of one user that read the same millisecond leave two session
    records with one and the same token. *)
Lemma same_millisecond_logins_share_a_token :
  tokens (run env init two_logins_same_ms) = [token_2000; token_2000]
  /\ ~ NoDup (tokens (run env init two_logins_same_ms)).
Proof.
  assert (E : tokens (run env init two_logins_same_ms) = [token_2000; token_2000])
    by (vm_compute; reflexivity).
  split; [exact E|]. rewrite E. intros Nd. inversion Nd as [|x l Hn _]; subst.
  apply Hn. now left.
Qed.

(** Counterexample to C4 as stated: after a hundred requests in the window the
    next logout is answered 429; and when two records carry the token, logout
    takes out one and whoami with that token is still answered 200. *)
Lemma logout_limited_and_session_left :
  status (snd (app env (run env init hundred_requests) (at_time 1000) (Logout ip None)))
  = 429
  /\ snd (app env (run env init two_logins_same_ms) (at_time 3000)
              (Logout ip header_2000))
     = mkResponse 200 (Success "ออกจากระบบสำเร็จ")
  /\ status (snd (app env
                    (fst (app env (run env init two_logins_same_ms) (at_time 3000)
                              (Logout ip header_2000)))
                    (at_time 3000) (Me ip header_2000))) = 200.
Proof.
  repeat split; vm_compute; reflexivity.
Qed.

(** Counterexample to C5 as stated: the token issued at 2000 ms is refused by
    [jwt.verify], with the secret it was signed with, once its hour is over. *)
Lemma issued_token_refused_after_exp :
  generateToken env (at_time 2000) 1 = Js.Ok token_2000
  /\ Jwt.verify token_2000 (JWT_SECRET env) 3602000 = Js.Throw "jwt expired".
Proof.
  split; vm_compute; reflexivity.
Qed.

(** C9.  [createdAt] is [new Date()] and [expiresAt], on the next line, is
    [Date.now()] plus seven days: two readings of the clock.  When the clock
    moves between them the record's [expiresAt] is not [createdAt] plus
    seven days. *)
Lemma expiry_read_after_creation :
  sessions (run env init login_while_ticking)
  = [Session.mk 1 token_2000 2003 (2004 + week)]
  /\ 2004 + week <> 2003 + week.
Proof.
  split; [vm_compute; reflexivity|]. unfold week. lia.
Qed.

(** Counterexample to C6 as stated: an hour after the login the session
    record is still seven days from its [expiresAt], and whoami is answered
    401, because the token's own [exp] has passed; a millisecond earlier it
    was answered 200. *)
Lemma whoami_refused_before_session_expiry :
  find (has_token token_2000) (sessions (run env init one_login))
  = Some (Session.mk 1 token_2000 2000 604802000)
  /\ 3602000 < 604802000
  /\ status (snd (app env (run env init one_login) (at_time 3601999)
                      (Me ip header_2000))) = 200
  /\ snd (app env (run env init one_login) (at_time 3602000) (Me ip header_2000))
     = mkResponse 401 (Failure "Token ไม่ถูกต้อง").
Proof.
  repeat split; vm_compute; reflexivity.
Qed.

(** C8.  Two registrations for one address, in letter case apart, the
    second arriving while the first waits for [bcrypt.hash]: both pass the
    duplicate check, both are answered 201, and the store holds two users
    with the same address.  [findUserByEmail] then always finds the first
    of them: the second registrant's login is answered 401. *)
Lemma overlapping_registrations_both_succeed :
  let st1 := fst (arrive env init (at_time 1000) (Register ip somchai)) in
  let st2 := fst (arrive env st1 (at_time 1001) (Register ip somchai_again)) in
  let st3 := fst (resume env st2 0) in
  let st4 := fst (resume env st3 0) in
  snd (arrive env init (at_time 1000) (Register ip somchai)) = None
  /\ snd (arrive env st1 (at_time 1001) (Register ip somchai_again)) = None
  /\ option_map status (snd (resume env st2 0)) = Some 201
  /\ option_map status (snd (resume env st3 0)) = Some 201
  /\ st4 = run env init overlapping_registrations
  /\ map User.id (users st4) = [1; 2]
  /\ map User.email (users st4) = ["somchai@example.com"; "somchai@example.com"]
  /\ ~ NoDup (map User.email (users st4))
  /\ snd (app env st4 (at_time 2000) (Login ip again_login))
     = mkResponse 401 (Failure "อีเมลหรือรหัสผ่านไม่ถูกต้อง").
Proof.
  cbv zeta. repeat split; try (vm_compute; reflexivity).
  assert (E : map User.email (users (fst (resume env (fst (resume env
                (fst (arrive env
                   (fst (arrive env init (at_time 1000) (Register ip somchai)))
                   (at_time 1001) (Register ip somchai_again))) 0)) 0)))
              = ["somchai@example.com"; "somchai@example.com"])
    by (vm_compute; reflexivity).
  rewrite E. intros Nd. inversion Nd as [|x l Hn _]; subst. apply Hn. now left.
Qed.


(** *** The further properties on concrete runs *)

(** A registration and a login, one after the other. *)
Lemma emails_unique_witness :
  NoDup (map User.email (users (run env init one_login))).
Proof.
  apply (emails_unique env one_login). unfold one_login, one_at_a_time.
  repeat constructor.
Defined.

Lemma stored_users_as_registered_witness :
  In somchai_stored (users (run env init one_login))
  /\ In (User.userType somchai_stored) userTypes
  /\ matches_phone (User.phone somchai_stored) = true.
Proof.
  assert (Stored : In somchai_stored (users (run env init one_login)))
    by (vm_compute; left; reflexivity).
  split; [exact Stored|].
  destruct (stored_users_as_registered env one_login somchai_stored Stored)
    as (_ & _ & Role & Phone & _).
  split; [exact Role|exact Phone].
Defined.

Lemma whoami_never_404_witness :
  status (me env (run env init one_login) (at_time 3000) header_2000) <> 404.
Proof.
  exact (proj1 (whoami_never_404 env fixture_roundtrip one_login (at_time 3000)
                                 ip header_2000)).
Defined.

Lemma login_then_whoami_witness :
  exists profile,
    snd (app env (fst (app env (run env init registered) (at_time 2000)
                           (Login ip good_login)))
             (at_time 3000) (Me ip header_2000))
    = mkResponse 200 (Profile profile)
    /\ p_id profile = 1
    /\ p_email profile = "somchai@example.com"
    /\ p_fullName profile = "Somchai"
    /\ p_userType profile = "ผู้ซื้อ/เช่า"
    /\ p_lastLogin profile = Some 2000.
Proof.
  refine (login_then_whoami env fixture_roundtrip registered
            (at_time 2000) (at_time 3000) ip ip good_login
            "เข้าสู่ระบบสำเร็จ" token_2000
            (mkUserResponse 1 "Somchai" "somchai@example.com" "ผู้ซื้อ/เช่า"
                            false false)
            (Jwt.mkClaims 1 2000 2 (Some 3602)) _ _ _ _ _ _).
  - vm_compute. reflexivity.
  - vm_compute. intros [].
  - reflexivity.
  - vm_compute. reflexivity.
  - vm_compute. discriminate.
  - vm_compute. lia.
Defined.

(** A registration handled without a break, and one that waited for
    [bcrypt.hash] while nothing else was registered; a failed login in
    between, then the login. *)
Lemma register_then_login_witness :
  (exists token,
      snd (app env (run env (fst (app env init (at_time 1000) (Register ip somchai)))
                        [Incoming (at_time 1500) (Login ip wrong_password)])
               (at_time 2000) (Login ip good_login))
      = mkResponse 200
          (LoggedIn "เข้าสู่ระบบสำเร็จ" token
             (mkUserResponse 1 "Somchai" "somchai@example.com" "ผู้ซื้อ/เช่า"
                             false false)))
  /\ exists token,
       snd (app env (run env (fst (resume env (run env init registering) 0))
                         [Incoming (at_time 1500) (Login ip wrong_password)])
                (at_time 2000) (Login ip good_login))
       = mkResponse 200
           (LoggedIn "เข้าสู่ระบบสำเร็จ" token
              (mkUserResponse 1 "Somchai" "somchai@example.com" "ผู้ซื้อ/เช่า"
                              false false)).
Proof.
  assert (Span : Jwt.ms "1h" = Some 3600000) by reflexivity.
  assert (Valid : snd (validateLogin good_login) = []) by reflexivity.
  destruct (register_then_login env (at_time 1000) (at_time 2000) ip good_login
              [Incoming (at_time 1500) (Login ip wrong_password)]
              "s3cret" "1h" 3600000 eq_refl eq_refl eq_refl eq_refl Span Valid)
    as [Whole Halves].
  split.
  - refine (Whole init ip somchai _ _ _ _ _ _).
    + vm_compute. reflexivity.
    + vm_compute. reflexivity.
    + reflexivity.
    + intros hash H. vm_compute in H. injection H as <-. vm_compute. reflexivity.
    + vm_compute. lia.
    + vm_compute. lia.
  - refine (Halves (run env init registering) 0%nat
                   (fst (validateRegister somchai))
                   (mkResponse 201
                      (Registered "ลงทะเบียนสำเร็จ กรุณายืนยันตัวตนผ่านอีเมล"
                         (mkUserResponse 1 "Somchai" "somchai@example.com"
                                         "ผู้ซื้อ/เช่า" false false)
                         "K7Q2ZD"))
                   _ _ _ _ _ _ _ _ _).
    + vm_compute. reflexivity.
    + vm_compute. reflexivity.
    + reflexivity.
    + vm_compute. reflexivity.
    + vm_compute. reflexivity.
    + reflexivity.
    + intros hash H. vm_compute in H. injection H as <-. vm_compute. reflexivity.
    + vm_compute. lia.
    + vm_compute. lia.
Defined.

(** The login at 2000 ms, with one user stored. *)
Lemma login_granted_frame_witness :
  exists l1 u l2,
    users (run env init registered) = (l1 ++ u :: l2)%list
    /\ (forall x, In x l1 -> User.email x <> normalizeEmail (l_email good_login))
    /\ User.email u = normalizeEmail (l_email good_login)
    /\ userResponse u
       = mkUserResponse 1 "Somchai" "somchai@example.com" "ผู้ซื้อ/เช่า" false false
    /\ users (fst (app env (run env init registered) (at_time 2000)
                       (Login ip good_login)))
       = (l1 ++ User.touch 2000 u :: l2)%list
    /\ sessions (fst (app env (run env init registered) (at_time 2000)
                          (Login ip good_login)))
       = (sessions (run env init registered)
          ++ [Session.mk (User.id u) token_2000 2000 (2000 + week)])%list.
Proof.
  refine (login_granted_frame env (run env init registered) (at_time 2000) ip
            good_login "เข้าสู่ระบบสำเร็จ" token_2000
            (mkUserResponse 1 "Somchai" "somchai@example.com" "ผู้ซื้อ/เช่า"
                            false false) _).
  vm_compute. reflexivity.
Defined.

Lemma limited_exactly_when_exhausted_witness :
  status (snd (app env (run env init hundred_requests) (at_time 1000)
                   (Logout ip None))) = 429
  /\ status (snd (app env (run env init five_attempts) (at_time 4000)
                      (Register ip somchai))) = 429.
Proof.
  split.
  - apply limited_exactly_when_exhausted. left. vm_compute. lia.
  - apply limited_exactly_when_exhausted. right.
    split; [reflexivity|]. vm_compute. lia.
Defined.

Lemma limited_until_window_elapses_witness :
  status (snd (app env
                 (run env (run env init hundred_requests)
                      [AuthWindowElapsed; Incoming (at_time 2000) (Me ip None)])
                 (at_time 3000) (Logout ip None))) = 429
  /\ status (snd (app env
                    (run env (run env init five_attempts)
                         [WindowElapsed; Incoming (at_time 3500) (Me ip None)])
                    (at_time 4000) (Login ip good_login))) = 429.
Proof.
  split.
  - destruct (limited_until_window_elapses env (run env init hundred_requests)
                [AuthWindowElapsed; Incoming (at_time 2000) (Me ip None)]
                (at_time 3000) (Logout ip None)) as [General _].
    apply General.
    + intros [H|[H|[]]]; discriminate.
    + vm_compute. lia.
  - destruct (limited_until_window_elapses env (run env init five_attempts)
                [WindowElapsed; Incoming (at_time 3500) (Me ip None)]
                (at_time 4000) (Login ip good_login)) as [_ Auth].
    apply Auth.
    + intros [H|[H|[]]]; discriminate.
    + reflexivity.
    + vm_compute. lia.
Defined.


Lemma stats_of_reachable_witness :
  exists s,
    snd (app_stats (run env init one_login) (at_time 3000) ip) = StatsOk s
    /\ totalUsers s = count (users (run env init one_login))
    /\ fold_right (fun entry sum => snd entry + sum) 0 (usersByType s)
       = totalUsers s
    /\ verifiedUsers s = 0.
Proof.
  apply (stats_of_reachable env one_login (at_time 3000) ip).
  vm_compute. lia.
Defined.

(** At the instant the only session expires, under a 30 day token, whoami
    still answers with the profile while [/stats] counts no active
    session, as it does once that session is logged out. *)
Lemma active_sessions_and_whoami_witness :
  me env_long (run env_long init one_login) (at_time 604802000)
     (Some "Bearer s3cret.1.2000.2.E2592002")
  = mkResponse 200
      (Profile (mkProfileResponse 1 "Somchai" "somchai@example.com" "0812345678"
                                  "ผู้ซื้อ/เช่า" false false 1000 (Some 2000)))
  /\ activeSessions (stats (run env_long init one_login) (at_time 604802000))
     = activeSessions
         (stats (fst (logout (run env_long init one_login)
                             (Some "Bearer s3cret.1.2000.2.E2592002")))
                (at_time 604802000)).
Proof.
  pose proof (active_sessions_and_whoami env_long (run env_long init one_login)
                (at_time 604802000) 604802000 "s3cret.1.2000.2.E2592002"
                (Session.mk 1 "s3cret.1.2000.2.E2592002" 2000 604802000)
                (Jwt.mkClaims 1 2000 2 (Some 2592002))
                (fun k => eq_refl) eq_refl) as T.
  cbv zeta in T.
  destruct T as (_ & _ & At & _).
  - vm_compute. reflexivity.
  - vm_compute. reflexivity.
  - destruct At as [Me Stats]; [reflexivity|]. split; [exact Me|exact Stats].
Defined.

Lemma logout_twice_witness :
  sessions (fst (app env (fst (app env (run env init one_login) (at_time 3000)
                                   (Logout ip header_2000)))
                     (at_time 4000) (Logout ip header_2000)))
  = sessions (fst (app env (run env init one_login) (at_time 3000)
                       (Logout ip header_2000))).
Proof.
  apply (logout_twice env (run env init one_login) (at_time 3000) (at_time 4000)
                      ip ip header_2000).
  - vm_compute. lia.
  - intros token Bt. vm_compute in Bt. injection Bt as <-. vm_compute. lia.
Defined.

Lemma bearer_prefix_optional_witness :
  me env (run env init one_login) (at_time 3000) (Some token_2000)
  = me env (run env init one_login) (at_time 3000) header_2000.
Proof.
  exact (proj1 (proj2 (bearer_prefix_optional env token_2000 eq_refl))
               (run env init one_login) (at_time 3000)).
Defined.

Lemma no_login_without_token_config_witness :
  status (snd (app env_unset (run env_unset init registered) (at_time 2000)
                   (Login ip good_login))) = 500
  /\ sessions (run env_unset init one_login) = [].
Proof.
  destruct (no_login_without_token_config env_unset) as (_ & Fails & Empty).
  - right. left. reflexivity.
  - split; [|apply Empty].
    apply (Fails _ _ _ _ (User.mk 1 "Somchai" "0812345678" "somchai@example.com"
                                  "#longenough1" "ผู้ซื้อ/เช่า" false 1000 false None)).
    + vm_compute. lia.
    + vm_compute. lia.
    + reflexivity.
    + vm_compute. reflexivity.
    + vm_compute. reflexivity.
Defined.

Lemma sessions_only_leave_by_logout_witness :
  exists later,
    sessions (run env (run env init one_login)
                  [Incoming (at_time 700000000) (Me ip header_2000);
                   Incoming (at_time 700000001) (Login ip good_login)])
    = (sessions (run env init one_login) ++ later)%list.
Proof.
  apply sessions_only_leave_by_logout.
  intros o a authorization [H|[H|[]]]; discriminate.
Defined.

End Scenarios.
